(** * FlightBoard: acquisition and enrichment pipeline

    A shallow embedding of [data_sources.py] (flight record, provider
    wrapper [fetch_flights], the FlightRadar24 override) and of
    [enrichment.py] (the SQLite-backed [Enricher]), with the properties of
    the design document stated on it and proved, or refuted by an input.

    Python floats are IEEE-754 binary64 values, embedded as [PrimFloat.float];
    Python ints are [Z]; [str] is [string] (ASCII text); a raised exception
    is the [Raise] branch of [outcome]. *)

From Stdlib Require Import ZArith Lia Bool List Sorted Permutation Ascii String.
From Stdlib Require Import Floats.
From stdpp Require Import base option list gmap strings.

Set Warnings "-inexact-float,-register-all".
Local Open Scope Z_scope.

(** ** Python exceptions *)

Inductive exn : Type :=
  | ValueError
  | ZeroDivisionError
  | AttributeError
  | KeyError
  | TypeError
  | IndexError
  | ConnectionError       (* requests: timeout, refused connection, ... *)
  | HTTPError             (* requests: raise_for_status *)
  | JSONDecodeError
  | StopIteration
  | DatabaseError.        (* sqlite3.Error *)

Inductive outcome (A : Type) : Type :=
  | Ok (a : A)
  | Raise (e : exn).
Arguments Ok {A} a.
Arguments Raise {A} e.

Definition obind {A B} (o : outcome A) (k : A -> outcome B) : outcome B :=
  match o with
  | Ok a => k a
  | Raise e => Raise e
  end.

Declare Scope outcome_scope.
Delimit Scope outcome_scope with outcome.
Notation "'let!' x ':=' o 'in' k" := (obind o (fun x => k))
  (at level 10, x name, o at level 100, k at level 200) : outcome_scope.
Local Open Scope outcome_scope.

(** ** IEEE-754 comparisons

    [PrimFloat.leb] and [PrimFloat.ltb] are the comparisons Python performs
    on floats.  They are specified through [SFcompare], whose order is
    read off a rank in integer triples. *)

Module FloatOrder.

Definition is_nan (x : float) : bool := negb (PrimFloat.eqb x x).

(** Rank of a non-NaN specification float in a lexicographic order of
    integer triples. *)
Definition key (x : spec_float) : Z * Z * Z :=
  match x with
  | S754_zero _ => (0, 0, 0)
  | S754_infinity s => (if s then -2 else 2, 0, 0)
  | S754_nan => (0, 0, 0)
  | S754_finite s m e =>
      if s then (-1, - e, - Z.pos m) else (1, e, Z.pos m)
  end.

Definition lex_compare (a b : Z * Z * Z) : comparison :=
  match a, b with
  | (a1, a2, a3), (b1, b2, b3) =>
      match a1 ?= b1 with
      | Eq => match a2 ?= b2 with
              | Eq => a3 ?= b3
              | c => c
              end
      | c => c
      end
  end.

Definition SFis_nan (x : spec_float) : bool :=
  match x with S754_nan => true | _ => false end.

End FloatOrder.

(** ** [data_sources.py]: flight record and geo utilities *)

(** [class Flight]: every field defaults to the empty or zero value. *)
Record Flight : Type := mkFlight {
  callsign : string;
  airline : string;
  aircraft_type : string;
  registration : string;
  origin_iata : string;
  origin_name : string;
  destination_iata : string;
  destination_name : string;
  latitude : float;
  longitude : float;
  altitude : Z;          (* feet *)
  ground_speed : Z;      (* knots *)
  heading : Z;
  vertical_speed : Z;
  distance_nm : float;   (* nautical miles from observer *)
  squawk : string;
  flight_id : string;
  on_ground : bool;
  hex_code : string
}.

Definition default_flight : Flight :=
  mkFlight "" "" "" "" "" "" "" "" 0%float 0%float 0 0 0 0 0%float "" ""
    false "".

(** [f.distance_nm = d] *)
Definition set_distance_nm (d : float) (f : Flight) : Flight :=
  mkFlight (callsign f) (airline f) (aircraft_type f) (registration f)
    (origin_iata f) (origin_name f) (destination_iata f)
    (destination_name f) (latitude f) (longitude f) (altitude f)
    (ground_speed f) (heading f) (vertical_speed f) d (squawk f)
    (flight_id f) (on_ground f) (hex_code f).

(** Truth value of a Python float: [bool(x)] is [x != 0.0], so both zeros
    are false and a NaN is true. *)
Definition float_truthy (x : float) : bool := negb (PrimFloat.eqb x 0%float).

(** The functions of Python's [math] module and the float built-ins that
    [_haversine_nm] calls.  They belong to the platform, not to the
    repository: [math.sin], [math.cos] and [math.asin] raise [ValueError]
    outside their domain, [x ** y] can raise [OverflowError]. *)
Record Math : Type := mkMath {
  math_radians : float -> float;
  math_sin : float -> outcome float;
  math_cos : float -> outcome float;
  math_asin : float -> outcome float;
  math_sqrt : float -> outcome float;
  float_pow : float -> Z -> outcome float;
  (* round(x, ndigits) *)
  py_round : float -> Z -> float
}.

Section Geo.
Variable m : Math.

Definition R_NM : float := 3440.065%float.

(** [_haversine_nm(lat1, lon1, lat2, lon2)] *)
Definition _haversine_nm (lat1 lon1 lat2 lon2 : float) : outcome float :=
  let dlat := math_radians m (lat2 - lat1)%float in
  let dlon := math_radians m (lon2 - lon1)%float in
  let! s1 := math_sin m (dlat / 2)%float in
  let! p1 := float_pow m s1 2 in
  let! c1 := math_cos m (math_radians m lat1) in
  let! c2 := math_cos m (math_radians m lat2) in
  let! s2 := math_sin m (dlon / 2)%float in
  let! p2 := float_pow m s2 2 in
  let a := (p1 + c1 * c2 * p2)%float in
  let! r := math_sqrt m a in
  let! t := math_asin m r in
  Ok (R_NM * 2 * t)%float.

(** [_nm_to_degrees_lat(nm)] *)
Definition _nm_to_degrees_lat (nm : float) : float := (nm / 60)%float.

(** [_nm_to_degrees_lon(nm, lat)]: the quotient is taken as it stands; a
    float division by a zero raises [ZeroDivisionError]. *)
Definition _nm_to_degrees_lon (nm lat : float) : outcome float :=
  let! c := math_cos m (math_radians m lat) in
  let den := (60 * c)%float in
  if PrimFloat.eqb den 0 then Raise ZeroDivisionError
  else Ok (nm / den)%float.
End Geo.

(** ** [data_sources.py]: the provider wrapper *)

(** What [_fetch_raw] talks to.  [feed n] is what the [n]-th raw fetch of
    the session produces (a list of records, or an exception); [polls]
    counts the raw fetches made so far. *)
Record Upstream : Type := mkUpstream {
  feed : nat -> outcome (list Flight);
  polls : nat
}.

(** One call of the abstract method [_fetch_raw].  Every implementation
    builds new records at each call, so the records of a raw list are not
    those of the cache. *)
Definition _fetch_raw (up : Upstream) : outcome (list Flight) * Upstream :=
  (feed up (polls up), mkUpstream (feed up) (S (polls up))).

(** [flights.sort(key=lambda f: f.distance_nm)]: a stable sort that
    compares keys with [<] only.  On keys that are totally ordered (no NaN
    among them) every stable sort returns this list. *)
Fixpoint insert_by_distance (f : Flight) (l : list Flight) : list Flight :=
  match l with
  | [] => [f]
  | g :: l' =>
      if PrimFloat.ltb (distance_nm g) (distance_nm f)
      then g :: insert_by_distance f l'
      else f :: g :: l'
  end.

Definition sort_by_distance (l : list Flight) : list Flight :=
  foldr insert_by_distance [] l.

(** The test [f.on_ground or (f.altitude < 100 and f.ground_speed < 50)]. *)
Definition grounded (f : Flight) : bool :=
  on_ground f || ((altitude f <? 100) && (ground_speed f <? 50)).

Module DataSource.

(** [class DataSource]: instance attributes. *)
Record t : Type := mk {
  lat : float;
  lon : float;
  radius_nm : float;
  _cache : list Flight;
  _last_fetch_time : float;
  _cache_ttl : float
}.

(** [__init__] *)
Definition init (lat lon radius_nm : float) : t :=
  mk lat lon radius_nm [] 0%float 5%float.

(** The cache test at the head of [fetch_flights]:
    [now - self._last_fetch_time < self._cache_ttl and self._cache]. *)
Definition cache_fresh (now : float) (self : t) : bool :=
  PrimFloat.ltb (now - _last_fetch_time self)%float (_cache_ttl self)
  && negb (bool_decide (_cache self = [])).

Section Fetch.
Variable m : Math.

(** The [for f in raw] loop; [flights] is the list being appended to. *)
Fixpoint filter_loop (self : t) (raw flights : list Flight)
  : outcome (list Flight) :=
  match raw with
  | [] => Ok flights
  | f :: raw' =>
      if grounded f then filter_loop self raw' flights
      else if float_truthy (latitude f) && float_truthy (longitude f)
      then
        let! d := _haversine_nm m (lat self) (lon self)
                    (latitude f) (longitude f) in
        let f := set_distance_nm (py_round m d 1) f in
        if PrimFloat.leb (distance_nm f) (radius_nm self)
        then filter_loop self raw' (flights ++ [f])
        else filter_loop self raw' flights
      else filter_loop self raw' flights
  end.

(** What the [try] does with the raw records: filter, then sort. *)
Definition process (self : t) (raw : list Flight)
  : outcome (list Flight) :=
  let! flights := filter_loop self raw [] in
  Ok (sort_by_distance flights).

(** The body of the [try] up to the sort. *)
Definition try_fetch (self : t) (up : Upstream)
  : outcome (list Flight) * Upstream :=
  let (raw, up') := _fetch_raw up in
  (let! raw := raw in process self raw, up').

(** [fetch_flights(self)]; [now] is the value of [time.time()]. *)
Definition fetch_flights (now : float) (self : t) (up : Upstream)
  : list Flight * t * Upstream :=
  if cache_fresh now self then (_cache self, self, up)
  else
    match try_fetch self up with
    | (Ok flights, up') =>
        (flights,
         mk (lat self) (lon self) (radius_nm self) flights now
           (_cache_ttl self),
         up')
    | (Raise _, up') => (_cache self, self, up')
    end.
End Fetch.

End DataSource.

(** ** [data_sources.py]: the FlightRadar24 provider *)

Module FR24Source.

(** [class FR24Source(DataSource)]: the inherited attributes and the
    sandbox flag. *)
Record t : Type := mk {
  base : DataSource.t;
  sandbox : bool
}.

Section Fetch.
Variable m : Math.

(** The loop of the override: the radius test is
    [if not self.sandbox and f.distance_nm > self.radius_nm: continue]. *)
Fixpoint filter_loop (self : t) (raw flights : list Flight)
  : outcome (list Flight) :=
  match raw with
  | [] => Ok flights
  | f :: raw' =>
      if grounded f then filter_loop self raw' flights
      else if float_truthy (latitude f) && float_truthy (longitude f)
      then
        let! d := _haversine_nm m (DataSource.lat (base self))
                    (DataSource.lon (base self))
                    (latitude f) (longitude f) in
        let f := set_distance_nm (py_round m d 1) f in
        if negb (sandbox self)
           && PrimFloat.ltb (DataSource.radius_nm (base self))
                (distance_nm f)
        then filter_loop self raw' flights
        else filter_loop self raw' (flights ++ [f])
      else filter_loop self raw' flights
  end.

Definition process (self : t) (raw : list Flight)
  : outcome (list Flight) :=
  let! flights := filter_loop self raw [] in
  Ok (sort_by_distance flights).

Definition try_fetch (self : t) (up : Upstream)
  : outcome (list Flight) * Upstream :=
  let (raw, up') := _fetch_raw up in
  (let! raw := raw in process self raw, up').

(** [FR24Source.fetch_flights(self)] *)
Definition fetch_flights (now : float) (self : t) (up : Upstream)
  : list Flight * t * Upstream :=
  if DataSource.cache_fresh now (base self)
  then (DataSource._cache (base self), self, up)
  else
    match try_fetch self up with
    | (Ok flights, up') =>
        (flights,
         mk (DataSource.mk (DataSource.lat (base self))
               (DataSource.lon (base self))
               (DataSource.radius_nm (base self)) flights now
               (DataSource._cache_ttl (base self)))
            (sandbox self),
         up')
    | (Raise _, up') => (DataSource._cache (base self), self, up')
    end.
End Fetch.

End FR24Source.

(** ** Python strings (ASCII text) *)

Definition is_upper (c : ascii) : bool :=
  let n := nat_of_ascii c in (65 <=? n)%nat && (n <=? 90)%nat.

Definition is_lower (c : ascii) : bool :=
  let n := nat_of_ascii c in (97 <=? n)%nat && (n <=? 122)%nat.

(** Characters [str.strip()] removes: tab, line feed, vertical tab, form
    feed, carriage return, the separators 28..31 and space. *)
Definition is_space (c : ascii) : bool :=
  let n := nat_of_ascii c in
  ((9 <=? n)%nat && (n <=? 13)%nat) || ((28 <=? n)%nat && (n <=? 32)%nat).

Definition char_lower (c : ascii) : ascii :=
  if is_upper c then ascii_of_nat (nat_of_ascii c + 32) else c.

Definition char_upper (c : ascii) : ascii :=
  if is_lower c then ascii_of_nat (nat_of_ascii c - 32) else c.

Fixpoint string_map (f : ascii -> ascii) (s : string) : string :=
  match s with
  | EmptyString => EmptyString
  | String c s' => String (f c) (string_map f s')
  end.

(** [s.lower()], [s.upper()] *)
Definition py_lower : string -> string := string_map char_lower.
Definition py_upper : string -> string := string_map char_upper.

Fixpoint lstrip_by (p : ascii -> bool) (s : string) : string :=
  match s with
  | EmptyString => EmptyString
  | String c s' => if p c then lstrip_by p s' else s
  end.

Fixpoint rstrip_by (p : ascii -> bool) (s : string) : string :=
  match s with
  | EmptyString => EmptyString
  | String c s' =>
      match rstrip_by p s' with
      | EmptyString => if p c then EmptyString else String c EmptyString
      | r => String c r
      end
  end.

(** [s.strip()] *)
Definition py_strip (s : string) : string :=
  rstrip_by is_space (lstrip_by is_space s).

(** [s.strip(chars)] where [chars] holds the apostrophe (39) and the
    double quote (34). *)
Definition is_quote (c : ascii) : bool :=
  let n := nat_of_ascii c in (n =? 39)%nat || (n =? 34)%nat.

Definition py_strip_quotes (s : string) : string :=
  rstrip_by is_quote (lstrip_by is_quote s).

Fixpoint string_forall (p : ascii -> bool) (s : string) : bool :=
  match s with
  | EmptyString => true
  | String c s' => p c && string_forall p s'
  end.

(** [s.isalpha()]: non-empty and made of letters. *)
Definition py_isalpha (s : string) : bool :=
  negb (String.eqb s "") && string_forall (fun c => is_upper c || is_lower c) s.

(** Truth value of a [str]: non-empty. *)
Definition str_truthy (s : string) : bool := negb (String.eqb s "").

(** [a or b] on strings. *)
Definition str_or (a b : string) : string := if str_truthy a then a else b.

(** ** JSON values, as [r.json()] returns them *)

Inductive Json : Type :=
  | JNull
  | JBool (b : bool)
  | JInt (z : Z)
  | JFloat (x : float)
  | JStr (s : string)
  | JArr (l : list Json)
  | JObj (kv : list (string * Json)).

Definition json_truthy (j : Json) : bool :=
  match j with
  | JNull => false
  | JBool b => b
  | JInt z => negb (z =? 0)
  | JFloat x => float_truthy x
  | JStr s => str_truthy s
  | JArr l => match l with [] => false | _ => true end
  | JObj kv => match kv with [] => false | _ => true end
  end.

(** Lookup in a [dict]; of two equal keys the parser keeps the last. *)
Fixpoint dict_lookup (k : string) (kv : list (string * Json)) : option Json :=
  match kv with
  | [] => None
  | (k', v) :: kv' =>
      match dict_lookup k kv' with
      | Some v' => Some v'
      | None => if String.eqb k k' then Some v else None
      end
  end.

(** [j.get(k, default)]: [AttributeError] unless [j] is a dict. *)
Definition json_get (j : Json) (k : string) (default : Json) : outcome Json :=
  match j with
  | JObj kv => Ok (match dict_lookup k kv with Some v => v | None => default end)
  | _ => Raise AttributeError
  end.

(** [j[0]] on a value that is truthy. *)
Definition json_first (j : Json) : outcome Json :=
  match j with
  | JArr (x :: _) => Ok x
  | JArr [] => Raise IndexError
  | JStr (String c _) => Ok (JStr (String c EmptyString))
  | JStr EmptyString => Raise IndexError
  | JObj _ => Raise KeyError
  | _ => Raise TypeError
  end.

(** [(j.get(k) or EMPTY).strip()], [EMPTY] the empty string. *)
Definition json_field (j : Json) (k : string) : outcome string :=
  let! v := json_get j k JNull in
  if json_truthy v then
    match v with
    | JStr s => Ok (py_strip s)
    | _ => Raise AttributeError
    end
  else Ok (py_strip "").

(** [(j.get(k) or EMPTY).lower().strip()] *)
Definition json_field_lower (j : Json) (k : string) : outcome string :=
  let! v := json_get j k JNull in
  if json_truthy v then
    match v with
    | JStr s => Ok (py_strip (py_lower s))
    | _ => Raise AttributeError
    end
  else Ok (py_strip (py_lower "")).

(** ** [enrichment.py]: the persistent store *)

(** A row of [aircraft], keyed by [hex]. *)
Module Aircraft.
Record row : Type := mk {
  registration : string;
  typecode : string;
  model : string;
  operator : string;
  operator_icao : string;
  operator_iata : string;
  owner : string;
  source : string;
  updated_at : float
}.
End Aircraft.

(** A row of [routes], keyed by [callsign]. *)
Module Routes.
Record row : Type := mk {
  dep_iata : string;
  dep_icao : string;
  dep_name : string;
  arr_iata : string;
  arr_icao : string;
  arr_name : string;
  airline_name : string;
  aircraft_icao : string;
  flight_iata : string;
  source : string;
  updated_at : float
}.
End Routes.

(** A row of [airports], keyed by [iata]; [lat] and [lon] are stored as the
    API gave them. *)
Module Airports.
Record row : Type := mk {
  icao : string;
  name : string;
  city : string;
  country : string;
  lat : Json;
  lon : Json;
  source : string;
  updated_at : float
}.
End Airports.

(** The three tables.  [INSERT OR REPLACE] on a primary key is the insert
    of the map. *)
Record Db : Type := mkDb {
  aircraft : gmap string Aircraft.row;
  routes : gmap string Routes.row;
  airports : gmap string Airports.row
}.

Definition empty_db : Db := mkDb ∅ ∅ ∅.

(** ** [enrichment.py]: the world the engine talks to *)

(** A request to the AirLabs API: [/flights] by callsign, [/airports] by
    IATA code. *)
Inductive Request : Type :=
  | RouteQuery (api_key callsign : string)
  | AirportQuery (api_key iata : string).

(** What [session.get] does: raise (time-out, refused connection), or
    return a response with a status and a body, [None] when the body is
    not JSON. *)
Inductive Reply : Type :=
  | NetworkError
  | Response (status : Z) (body : option Json).

(** The surroundings of a session, fixed in advance: [http n q] answers
    the request [q] made after [n] earlier ones; [db_fault n] tells whether
    the [n]-th database statement of the session raises [sqlite3.Error];
    [clock n] is what the [n]-th call of [time.time()] returns. *)
Record Env : Type := mkEnv {
  http : nat -> Request -> Reply;
  db_fault : nat -> bool;
  clock : nat -> float
}.

(** What has happened so far: the requests sent, the number of database
    statements run and of clock readings taken. *)
Record World : Type := mkWorld {
  requests : list Request;
  db_stmts : nat;
  ticks : nat
}.

Definition new_world : World := mkWorld [] 0 0.

(** ** [enrichment.py]: the engine *)

Module Enricher.
(** [class Enricher]: instance attributes ([_conn] is [None] before
    [setup] and after [close]). *)
Record t : Type := mk {
  airlabs_key : string;
  _conn : option Db;
  _route_miss_cache : gset string;
  _aircraft_miss_cache : gset string;
  _api_calls_this_session : nat;
  _max_api_calls : Z
}.

(** [__init__], followed by [setup] on the store [db]. *)
Definition init (db : Db) (airlabs_key : string) (max_api_calls : Z) : t :=
  mk airlabs_key (Some db) ∅ ∅ 0 max_api_calls.
End Enricher.

(** The objects a call works on: the flight being enriched, the engine,
    and the world. *)
Record St : Type := mkSt {
  flight : Flight;
  self : Enricher.t;
  world : World
}.

(** Computations that read and write [St] and may raise; the state reached
    when an exception is raised is kept, as Python keeps the mutations made
    before a [raise]. *)
Definition M (A : Type) : Type := St -> outcome A * St.

Definition ret {A} (a : A) : M A := fun st => (Ok a, st).

Definition raise {A} (e : exn) : M A := fun st => (Raise e, st).

Definition bind {A B} (c : M A) (k : A -> M B) : M B :=
  fun st =>
    match c st with
    | (Ok a, st') => k a st'
    | (Raise e, st') => (Raise e, st')
    end.

(** [try: body  except Exception: handler] *)
Definition try_except {A} (body : M A) (handler : exn -> M A) : M A :=
  fun st =>
    match body st with
    | (Ok a, st') => (Ok a, st')
    | (Raise e, st') => handler e st'
    end.

Definition lift {A} (o : outcome A) : M A := fun st => (o, st).

Definition get_flight : M Flight := fun st => (Ok (flight st), st).

Definition get_self : M Enricher.t := fun st => (Ok (self st), st).

Definition modify_flight (f : Flight -> Flight) : M unit :=
  fun st => (Ok tt, mkSt (f (flight st)) (self st) (world st)).

Definition modify_self (f : Enricher.t -> Enricher.t) : M unit :=
  fun st => (Ok tt, mkSt (flight st) (f (self st)) (world st)).

Declare Scope monad_scope.
Delimit Scope monad_scope with monad.
Notation "x <- c ;; k" := (bind c (fun x => k))
  (at level 100, c at next level, right associativity) : monad_scope.
Notation "c ;; k" := (bind c (fun _ => k))
  (at level 100, right associativity) : monad_scope.

(** [AIRLINE_ICAO_MAP] *)
Definition AIRLINE_ICAO_MAP : list (string * string) :=
  [ ("AAL", "AMERICAN AIRLINES"); ("AAR", "ASIANA"); ("ACA", "AIR CANADA");
    ("AFR", "AIR FRANCE"); ("AIC", "AIR INDIA"); ("AMX", "AEROMEXICO");
    ("ANA", "ALL NIPPON AIRWAYS"); ("ASA", "ALASKA AIRLINES");
    ("AUA", "AUSTRIAN"); ("AUI", "UKRAINE INTL"); ("AZA", "ALITALIA");
    ("BAW", "BRITISH AIRWAYS"); ("BCS", "EUROPEAN AIR CHARTER");
    ("BEE", "BEE LINE"); ("BEL", "BRUSSELS AIRLINES");
    ("BER", "GERMANIA"); ("BOX", "AEROLOGIC");
    ("CAL", "CHINA AIRLINES"); ("CCA", "AIR CHINA");
    ("CES", "CHINA EASTERN"); ("CFG", "CONDOR");
    ("CLH", "LUFTHANSA CARGO"); ("CPA", "CATHAY PACIFIC");
    ("CSN", "CHINA SOUTHERN"); ("CTN", "CROATIA AIRLINES");
    ("CXA", "XIAMEN AIR"); ("DAL", "DELTA");
    ("DLH", "LUFTHANSA"); ("EAL", "EASTERN AIRWAYS");
    ("EDW", "EDELWEISS AIR"); ("EIN", "AER LINGUS");
    ("EJU", "EASYJET EUROPE"); ("ELY", "EL AL");
    ("ETD", "ETIHAD"); ("ETH", "ETHIOPIAN");
    ("EVA", "EVA AIR"); ("EWG", "EUROWINGS");
    ("EXS", "JET2"); ("EZE", "EASYJET EUROPE");
    ("EZS", "EASYJET SWITZERLAND"); ("EZY", "EASYJET");
    ("FDB", "FLYDUBAI"); ("FDX", "FEDEX");
    ("FIN", "FINNAIR"); ("GEC", "LUFTHANSA CARGO");
    ("GIA", "GARUDA"); ("GTI", "ATLAS AIR");
    ("GWI", "GERMANWINGS"); ("HAL", "HAWAIIAN");
    ("HVN", "VIETNAM AIRLINES"); ("IBE", "IBERIA");
    ("IBK", "NORWEGIAN"); ("ICE", "ICELANDAIR");
    ("JAL", "JAPAN AIRLINES"); ("JBU", "JETBLUE");
    ("KAL", "KOREAN AIR"); ("KLM", "KLM");
    ("KQA", "KENYA AIRWAYS"); ("LAN", "LATAM CHILE");
    ("LOG", "LOGANAIR"); ("LOT", "LOT POLISH");
    ("LZB", "WIZZ AIR"); ("MAH", "MALEV");
    ("MAS", "MALAYSIA AIRLINES"); ("MSR", "EGYPTAIR");
    ("NAX", "NORWEGIAN"); ("NKS", "SPIRIT AIRLINES");
    ("NOZ", "NORWEGIAN AIR"); ("NPT", "WEST ATLANTIC");
    ("OAL", "OLYMPIC"); ("PAC", "POLAR AIR CARGO");
    ("PGT", "PEGASUS"); ("PIA", "PIA");
    ("QFA", "QANTAS"); ("QTR", "QATAR AIRWAYS");
    ("RAM", "ROYAL AIR MAROC"); ("ROT", "TAROM");
    ("RYR", "RYANAIR"); ("RZO", "SAUDIA");
    ("SAA", "SOUTH AFRICAN"); ("SAS", "SAS");
    ("SIA", "SINGAPORE AIRLINES"); ("SKW", "SKYWEST");
    ("SLK", "SILK AIR"); ("SQC", "SINGAPORE CARGO");
    ("SWA", "SOUTHWEST"); ("SWR", "SWISS");
    ("TAM", "LATAM BRASIL"); ("TAP", "TAP PORTUGAL");
    ("THA", "THAI"); ("THY", "TURKISH AIRLINES");
    ("TOM", "TUI"); ("TSC", "AIR TRANSAT");
    ("TUI", "TUI FLY"); ("TVF", "TRANSAVIA FRANCE");
    ("UAE", "EMIRATES"); ("UAL", "UNITED");
    ("UPS", "UPS"); ("UZB", "UZBEKISTAN AIRWAYS");
    ("VIR", "VIRGIN ATLANTIC"); ("VLG", "VUELING");
    ("VOE", "VOLOTEA"); ("VOI", "VOLARIS");
    ("VTG", "VOLGA-DNEPR"); ("WJA", "WESTJET");
    ("WZZ", "WIZZ AIR"); ("WUK", "WIZZ AIR UK") ].

(** [AIRLINE_ICAO_MAP.get(prefix)]; the keys of the table are distinct. *)
Fixpoint table_lookup (k : string) (t : list (string * string))
  : option string :=
  match t with
  | [] => None
  | (k', v) :: t' => if String.eqb k k' then Some v else table_lookup k t'
  end.

(** ** Assignments to the flight *)

Definition set_airline (v : string) (f : Flight) : Flight :=
  mkFlight (callsign f) v (aircraft_type f) (registration f)
    (origin_iata f) (origin_name f) (destination_iata f)
    (destination_name f) (latitude f) (longitude f) (altitude f)
    (ground_speed f) (heading f) (vertical_speed f) (distance_nm f)
    (squawk f) (flight_id f) (on_ground f) (hex_code f).

Definition set_aircraft_type (v : string) (f : Flight) : Flight :=
  mkFlight (callsign f) (airline f) v (registration f)
    (origin_iata f) (origin_name f) (destination_iata f)
    (destination_name f) (latitude f) (longitude f) (altitude f)
    (ground_speed f) (heading f) (vertical_speed f) (distance_nm f)
    (squawk f) (flight_id f) (on_ground f) (hex_code f).

Definition set_registration (v : string) (f : Flight) : Flight :=
  mkFlight (callsign f) (airline f) (aircraft_type f) v
    (origin_iata f) (origin_name f) (destination_iata f)
    (destination_name f) (latitude f) (longitude f) (altitude f)
    (ground_speed f) (heading f) (vertical_speed f) (distance_nm f)
    (squawk f) (flight_id f) (on_ground f) (hex_code f).

Definition set_origin_iata (v : string) (f : Flight) : Flight :=
  mkFlight (callsign f) (airline f) (aircraft_type f) (registration f)
    v (origin_name f) (destination_iata f)
    (destination_name f) (latitude f) (longitude f) (altitude f)
    (ground_speed f) (heading f) (vertical_speed f) (distance_nm f)
    (squawk f) (flight_id f) (on_ground f) (hex_code f).

Definition set_origin_name (v : string) (f : Flight) : Flight :=
  mkFlight (callsign f) (airline f) (aircraft_type f) (registration f)
    (origin_iata f) v (destination_iata f)
    (destination_name f) (latitude f) (longitude f) (altitude f)
    (ground_speed f) (heading f) (vertical_speed f) (distance_nm f)
    (squawk f) (flight_id f) (on_ground f) (hex_code f).

Definition set_destination_iata (v : string) (f : Flight) : Flight :=
  mkFlight (callsign f) (airline f) (aircraft_type f) (registration f)
    (origin_iata f) (origin_name f) v
    (destination_name f) (latitude f) (longitude f) (altitude f)
    (ground_speed f) (heading f) (vertical_speed f) (distance_nm f)
    (squawk f) (flight_id f) (on_ground f) (hex_code f).

Definition set_destination_name (v : string) (f : Flight) : Flight :=
  mkFlight (callsign f) (airline f) (aircraft_type f) (registration f)
    (origin_iata f) (origin_name f) (destination_iata f)
    v (latitude f) (longitude f) (altitude f)
    (ground_speed f) (heading f) (vertical_speed f) (distance_nm f)
    (squawk f) (flight_id f) (on_ground f) (hex_code f).

(** Assignments to the engine. *)
Definition set_airlabs_key (v : string) (s : Enricher.t) : Enricher.t :=
  Enricher.mk v (Enricher._conn s) (Enricher._route_miss_cache s)
    (Enricher._aircraft_miss_cache s) (Enricher._api_calls_this_session s)
    (Enricher._max_api_calls s).

Definition set_conn (v : option Db) (s : Enricher.t) : Enricher.t :=
  Enricher.mk (Enricher.airlabs_key s) v (Enricher._route_miss_cache s)
    (Enricher._aircraft_miss_cache s) (Enricher._api_calls_this_session s)
    (Enricher._max_api_calls s).

Definition set_route_miss_cache (v : gset string) (s : Enricher.t)
  : Enricher.t :=
  Enricher.mk (Enricher.airlabs_key s) (Enricher._conn s) v
    (Enricher._aircraft_miss_cache s) (Enricher._api_calls_this_session s)
    (Enricher._max_api_calls s).

Definition set_api_calls (v : nat) (s : Enricher.t) : Enricher.t :=
  Enricher.mk (Enricher.airlabs_key s) (Enricher._conn s)
    (Enricher._route_miss_cache s) (Enricher._aircraft_miss_cache s) v
    (Enricher._max_api_calls s).

Definition set_max_api_calls (v : Z) (s : Enricher.t) : Enricher.t :=
  Enricher.mk (Enricher.airlabs_key s) (Enricher._conn s)
    (Enricher._route_miss_cache s) (Enricher._aircraft_miss_cache s)
    (Enricher._api_calls_this_session s) v.

(** ** [enrichment.py]: statements, requests and the clock *)

Section Engine.
Variable env : Env.

Local Open Scope monad_scope.

(** [time.time()] *)
Definition time_time : M float :=
  fun st =>
    let w := world st in
    (Ok (clock env (ticks w)),
     mkSt (flight st) (self st)
       (mkWorld (requests w) (db_stmts w) (S (ticks w)))).

(** One statement on [self._conn]: [q] computes its result and the store it
    leaves.  On a closed engine ([_conn] is [None]) the attribute access
    raises; a faulty statement raises [sqlite3.Error] and leaves the store
    as it is. *)
Definition db_execute {A} (q : Db -> A * Db) : M A :=
  fun st =>
    match Enricher._conn (self st) with
    | None => (Raise AttributeError, st)
    | Some db =>
        let w := world st in
        let w' := mkWorld (requests w) (S (db_stmts w)) (ticks w) in
        if db_fault env (db_stmts w)
        then (Raise DatabaseError, mkSt (flight st) (self st) w')
        else
          let (a, db') := q db in
          (Ok a, mkSt (flight st) (set_conn (Some db') (self st)) w')
    end.

(** [self._conn.commit()] *)
Definition db_commit : M unit := db_execute (fun db => (tt, db)).

(** [session.get(url, params)]: the request is sent (and logged), then the
    reply comes back or the call raises. *)
Definition session_get (q : Request) : M (Z * option Json) :=
  fun st =>
    let w := world st in
    let st' := mkSt (flight st) (self st)
                 (mkWorld (requests w ++ [q]) (db_stmts w) (ticks w)) in
    match http env (length (requests w)) q with
    | NetworkError => (Raise ConnectionError, st')
    | Response status body => (Ok (status, body), st')
    end.

(** [r.raise_for_status()] *)
Definition raise_for_status (status : Z) : M unit :=
  if (400 <=? status) && (status <? 600) then raise HTTPError else ret tt.

(** [r.json()] *)
Definition r_json (body : option Json) : M Json :=
  match body with
  | Some j => ret j
  | None => raise JSONDecodeError
  end.

(** [SELECT * FROM aircraft WHERE hex = ?] with [fetchone()] *)
Definition select_aircraft (hex : string) : M (option Aircraft.row) :=
  db_execute (fun db => (aircraft db !! hex, db)).

(** [SELECT * FROM routes WHERE callsign = ? AND updated_at > ?] *)
Definition select_fresh_route (callsign : string) (since : float)
  : M (option Routes.row) :=
  db_execute (fun db =>
    (match routes db !! callsign with
     | Some r =>
         if PrimFloat.ltb since (Routes.updated_at r) then Some r else None
     | None => None
     end, db)).

(** [SELECT name, city FROM airports WHERE iata = ?] *)
Definition select_airport (iata : string) : M (option Airports.row) :=
  db_execute (fun db => (airports db !! iata, db)).

(** [INSERT OR REPLACE INTO routes ...] *)
Definition replace_route (callsign : string) (r : Routes.row) : M unit :=
  db_execute (fun db =>
    (tt, mkDb (aircraft db) (<[callsign := r]> (routes db)) (airports db))).

(** [INSERT OR REPLACE INTO airports ...] *)
Definition replace_airport (iata : string) (r : Airports.row) : M unit :=
  db_execute (fun db =>
    (tt, mkDb (aircraft db) (routes db) (<[iata := r]> (airports db)))).

(** [INSERT INTO aircraft ...] and [UPDATE aircraft SET ... WHERE hex = ?]
    both leave [r] as the row of [hex]. *)
Definition write_aircraft (hex : string) (r : Aircraft.row) : M unit :=
  db_execute (fun db =>
    (tt, mkDb (<[hex := r]> (aircraft db)) (routes db) (airports db))).

(** [executemany("INSERT OR REPLACE INTO aircraft ...", batch)] *)
Definition replace_aircraft_many (batch : list (string * Aircraft.row))
  : M unit :=
  db_execute (fun db =>
    (tt, mkDb (foldl (fun t kr => <[kr.1 := kr.2]> t) (aircraft db) batch)
           (routes db) (airports db))).

(** ** [enrichment.py]: enrichment logic *)

(** [if not flight.X and v: flight.X = v] *)
Definition fill (get : Flight -> string) (set : string -> Flight -> Flight)
    (v : string) : M unit :=
  modify_flight (fun f =>
    if negb (str_truthy (get f)) && str_truthy v then set v f else f).

(** [_enrich_from_callsign(self, flight)] *)
Definition _enrich_from_callsign : M unit :=
  modify_flight (fun f =>
    if str_truthy (airline f) then f
    else
      let callsign := py_strip (callsign f) in
      if (4 <=? String.length callsign)%nat then
        let prefix := py_upper (substring 0 3 callsign) in
        if py_isalpha prefix then
          match table_lookup prefix AIRLINE_ICAO_MAP with
          | Some name => set_airline name f
          | None => f
          end
        else f
      else f).

(** [_apply_route(self, flight, row)] *)
Definition _apply_route (row : Routes.row) : M unit :=
  fill origin_iata set_origin_iata (Routes.dep_iata row);;
  fill origin_name set_origin_name (Routes.dep_name row);;
  fill destination_iata set_destination_iata (Routes.arr_iata row);;
  fill destination_name set_destination_name (Routes.arr_name row);;
  fill airline set_airline (Routes.airline_name row);;
  fill aircraft_type set_aircraft_type (Routes.aircraft_icao row).

(** [self._route_miss_cache.add(callsign)] *)
Definition add_route_miss (callsign : string) : M unit :=
  modify_self (fun s =>
    set_route_miss_cache ({[callsign]} ∪ Enricher._route_miss_cache s) s).

(** [self._api_calls_this_session += 1] *)
Definition count_api_call : M unit :=
  modify_self (fun s =>
    set_api_calls (S (Enricher._api_calls_this_session s)) s).

(** [self._api_calls_this_session >= self._max_api_calls] *)
Definition budget_spent (s : Enricher.t) : bool :=
  Enricher._max_api_calls s <=? Z.of_nat (Enricher._api_calls_this_session s).

(** The [data] argument of [_cache_route]: the nine fields of the route. *)
Record RouteData : Type := mkRouteData {
  rd_dep_iata : string;
  rd_dep_icao : string;
  rd_dep_name : string;
  rd_arr_iata : string;
  rd_arr_icao : string;
  rd_arr_name : string;
  rd_airline_name : string;
  rd_aircraft_icao : string;
  rd_flight_iata : string
}.

(** The empty dict: every [data.get(key, EMPTY)] is the empty string. *)
Definition no_route_data : RouteData := mkRouteData "" "" "" "" "" "" "" "" "".

(** [_cache_route(self, callsign, data)] *)
Definition _cache_route (callsign : string) (data : RouteData) : M unit :=
  now <- time_time;;
  replace_route callsign
    (Routes.mk (rd_dep_iata data) (rd_dep_icao data) (rd_dep_name data)
       (rd_arr_iata data) (rd_arr_icao data) (rd_arr_name data)
       (rd_airline_name data) (rd_aircraft_icao data) (rd_flight_iata data)
       "airlabs" now);;
  db_commit.

(** The row [UPDATE aircraft SET ...] leaves: a column is set when the new
    value is non-empty and the stored one is empty. *)
Definition merge_aircraft (existing : Aircraft.row)
    (registration typecode operator operator_icao : string) (now : float)
  : Aircraft.row :=
  let pick new old := if str_truthy new && negb (str_truthy old)
                      then new else old in
  Aircraft.mk
    (pick registration (Aircraft.registration existing))
    (pick typecode (Aircraft.typecode existing))
    (Aircraft.model existing)
    (pick operator (Aircraft.operator existing))
    (pick operator_icao (Aircraft.operator_icao existing))
    (Aircraft.operator_iata existing)
    (Aircraft.owner existing)
    "api_enriched" now.

(** [_cache_aircraft(self, hex_code, registration, typecode, operator,
    operator_icao)] *)
Definition _cache_aircraft (hex registration typecode operator
    operator_icao : string) : M unit :=
  if negb (str_truthy hex) then ret tt
  else
    existing <- select_aircraft hex;;
    match existing with
    | Some ex =>
        let updates :=
          (str_truthy registration
             && negb (str_truthy (Aircraft.registration ex)))
          || (str_truthy typecode
                && negb (str_truthy (Aircraft.typecode ex)))
          || (str_truthy operator
                && negb (str_truthy (Aircraft.operator ex)))
          || (str_truthy operator_icao
                && negb (str_truthy (Aircraft.operator_icao ex))) in
        if updates then
          now <- time_time;;
          write_aircraft hex
            (merge_aircraft ex registration typecode operator
               operator_icao now);;
          db_commit
        else ret tt
    | None =>
        now <- time_time;;
        write_aircraft hex
          (Aircraft.mk registration typecode "" operator operator_icao
             "" "" "api_enriched" now);;
        db_commit
    end.

(** A value that [sqlite3] can bind to a parameter. *)
Definition bindable (j : Json) : bool :=
  match j with
  | JArr _ | JObj _ => false
  | _ => true
  end.

(** [_lookup_airport_name(self, iata)] *)
Definition _lookup_airport_name (iata : string) : M string :=
  if negb (str_truthy iata) then ret ""
  else
    row <- select_airport iata;;
    let cached := match row with
                  | Some r => Airports.name r
                  | None => ""
                  end in
    if str_truthy cached then ret cached
    else
      s <- get_self;;
      if negb (str_truthy (Enricher.airlabs_key s)) then ret iata
      else if budget_spent s then ret iata
      else
        found <- try_except
          (count_api_call;;
           r <- session_get (AirportQuery (Enricher.airlabs_key s) iata);;
           raise_for_status r.1;;
           data <- r_json r.2;;
           airports <- lift (json_get data "response" (JArr []));;
           if json_truthy airports then
             apt <- lift (json_first airports);;
             name <- lift (json_field apt "name");;
             city <- lift (json_field apt "city");;
             country <- lift (json_field apt "country_code");;
             icao <- lift (json_field apt "icao_code");;
             lat <- lift (json_get apt "lat" (JInt 0));;
             lon <- lift (json_get apt "lng" (JInt 0));;
             now <- time_time;;
             (if bindable lat && bindable lon then ret tt
              else raise DatabaseError);;
             replace_airport iata
               (Airports.mk icao name city country lat lon "airlabs" now);;
             db_commit;;
             ret (Some name)
           else ret None)
          (fun _ => ret None);;
        match found with
        | Some name => ret name
        | None => ret iata
        end.

(** [_lookup_route_airlabs(self, flight, callsign)] *)
Definition _lookup_route_airlabs (callsign : string) : M unit :=
  try_except
    (count_api_call;;
     s <- get_self;;
     r <- session_get (RouteQuery (Enricher.airlabs_key s) callsign);;
     if r.1 =? 401 then modify_self (set_airlabs_key "")
     else if r.1 =? 429 then modify_self (set_max_api_calls 0)
     else
       raise_for_status r.1;;
       data <- r_json r.2;;
       response_list <- lift (json_get data "response" (JArr []));;
       if negb (json_truthy response_list) then
         add_route_miss callsign;;
         _cache_route callsign no_route_data
       else
         item <- lift (json_first response_list);;
         dep_iata <- lift (json_field item "dep_iata");;
         arr_iata <- lift (json_field item "arr_iata");;
         if negb (str_truthy dep_iata) && negb (str_truthy arr_iata) then
           add_route_miss callsign;;
           _cache_route callsign no_route_data
         else
           dep_icao <- lift (json_field item "dep_icao");;
           arr_icao <- lift (json_field item "arr_icao");;
           airline_name <- lift (json_field item "airline_name");;
           aircraft_icao <- lift (json_field item "aircraft_icao");;
           flight_iata <- lift (json_field item "flight_iata");;
           dep_name <- (if str_truthy dep_iata
                        then _lookup_airport_name dep_iata else ret "");;
           arr_name <- (if str_truthy arr_iata
                        then _lookup_airport_name arr_iata else ret "");;
           _cache_route callsign
             (mkRouteData dep_iata dep_icao dep_name arr_iata arr_icao
                arr_name airline_name aircraft_icao flight_iata);;
           fill origin_iata set_origin_iata dep_iata;;
           fill origin_name set_origin_name dep_name;;
           fill destination_iata set_destination_iata arr_iata;;
           fill destination_name set_destination_name arr_name;;
           fill airline set_airline airline_name;;
           fill aircraft_type set_aircraft_type aircraft_icao;;
           hex <- lift (json_field_lower item "hex");;
           if str_truthy hex then
             reg <- lift (json_field item "reg_number");;
             ac_type <- lift (json_field item "aircraft_icao");;
             airline <- lift (json_field item "airline_name");;
             airline_icao <- lift (json_field item "airline_icao");;
             _cache_aircraft hex reg ac_type airline airline_icao
           else ret tt)
    (fun _ => add_route_miss callsign).

(** [_enrich_route(self, flight, callsign)] *)
Definition _enrich_route (callsign : string) : M unit :=
  now <- time_time;;
  row <- select_fresh_route callsign (now - 86400)%float;;
  match row with
  | Some r => _apply_route r
  | None =>
      s <- get_self;;
      if negb (str_truthy (Enricher.airlabs_key s)) then ret tt
      else if bool_decide (callsign ∈ Enricher._route_miss_cache s)
      then ret tt
      else if budget_spent s then ret tt
      else _lookup_route_airlabs callsign
  end.

(** The hex step of [enrich]: what a row of [aircraft] fills in. *)
Definition fill_from_aircraft (row : Aircraft.row) : M unit :=
  fill registration set_registration (Aircraft.registration row);;
  fill aircraft_type set_aircraft_type (Aircraft.typecode row);;
  modify_flight (fun f =>
    if negb (str_truthy (airline f))
    then set_airline
           (str_or (Aircraft.operator row) (str_or (Aircraft.owner row) ""))
           f
    else f).

(** [enrich(self, flight)] *)
Definition enrich : M unit :=
  s <- get_self;;
  match Enricher._conn s with
  | None => _enrich_from_callsign
  | Some _ =>
      f <- get_flight;;
      let hex := py_strip (py_lower (hex_code f)) in
      let cs := py_upper (py_strip (callsign f)) in
      (if str_truthy hex then
         row <- select_aircraft hex;;
         match row with
         | Some r => fill_from_aircraft r
         | None => ret tt
         end
       else ret tt);;
      _enrich_from_callsign;;
      f <- get_flight;;
      if str_truthy cs
         && (negb (str_truthy (origin_iata f))
             || negb (str_truthy (destination_iata f)))
      then _enrich_route cs
      else ret tt
  end.

(** ** [enrichment.py]: bulk import *)

(** [col_map.get(name)]: the dict comprehension keeps, of equal names, the
    last index. *)
Fixpoint col_index (name : string) (header : list string) (i : nat)
  : option nat :=
  match header with
  | [] => None
  | h :: header' =>
      match col_index name header' (S i) with
      | Some j => Some j
      | None => if String.eqb name h then Some i else None
      end
  end.

(** [get_col(row, name)] with the default empty string. *)
Definition get_col (header : list string) (row : list string)
    (name : string) : string :=
  match col_index name header 0 with
  | Some idx =>
      match row !! idx with
      | Some cell => py_strip_quotes (py_strip cell)
      | None => ""
      end
  | None => ""
  end.

(** The [for row in reader] loop, which [seed_from_file] and
    [_seed_from_opensky] both have: [batch] is the list of pending rows,
    flushed when it reaches 5000.  The two copies differ in the provenance
    tag [source] and in the test [len(row) < 3], which only the OpenSky
    seed makes ([min_len] is 3 there and 0 for the file import). *)
Fixpoint seed_loop (min_len : nat) (source : string) (header : list string)
    (rows : list (list string)) (batch : list (string * Aircraft.row))
  : M (list (string * Aircraft.row)) :=
  match rows with
  | [] => ret batch
  | row :: rows' =>
      if (length row <? min_len)%nat
      then seed_loop min_len source header rows' batch
      else
      let hex := py_lower (get_col header row "icao24") in
      if negb (str_truthy hex)
      then seed_loop min_len source header rows' batch
      else
        now <- time_time;;
        let batch :=
          batch ++ [(hex,
            Aircraft.mk (get_col header row "registration")
              (get_col header row "typecode")
              (get_col header row "model")
              (get_col header row "operator")
              (get_col header row "operatorIcao")
              (get_col header row "operatorIata")
              (get_col header row "owner")
              source now)] in
        if (5000 <=? length batch)%nat then
          replace_aircraft_many batch;;
          seed_loop min_len source header rows' []
        else seed_loop min_len source header rows' batch
  end.

(** Header, loop, last flush and commit; [csv] is what [csv.reader]
    yields, header first. *)
Definition import_csv (min_len : nat) (source : string)
    (csv : list (list string)) : M unit :=
  match csv with
  | [] => raise StopIteration
  | header :: rows =>
      let header := map (fun h => py_strip_quotes (py_strip h)) header in
      batch <- seed_loop min_len source header rows [];;
      (match batch with
       | [] => ret tt
       | _ => replace_aircraft_many batch
       end);;
      db_commit
  end.

(** [seed_from_file(self, csv_path)]; [csv] is what [csv.reader] yields for
    the file. *)
Definition seed_from_file (csv : list (list string)) : M unit :=
  import_csv 0 "csv_import" csv.

(** [_seed_from_opensky(self)]; [download] is what the download of the
    snapshot and its reading as CSV give, or the exception they raise. *)
Definition _seed_from_opensky (download : outcome (list (list string)))
  : M unit :=
  try_except
    (csv <- lift download;;
     import_csv 3 "opensky" csv)
    (fun _ => ret tt).

(** The rows the loop hands to [executemany], in file order: for every row
    of the file with a hex address, the address in lower case and the
    eight columns, stamped with the clock reading taken for it ([tick]
    counts the readings taken before). *)
Fixpoint parsed_rows (min_len : nat) (source : string)
    (header : list string) (rows : list (list string)) (tick : nat)
  : list (string * Aircraft.row) :=
  match rows with
  | [] => []
  | row :: rows' =>
      if (length row <? min_len)%nat
      then parsed_rows min_len source header rows' tick
      else
      let hex := py_lower (get_col header row "icao24") in
      if negb (str_truthy hex)
      then parsed_rows min_len source header rows' tick
      else
        (hex,
         Aircraft.mk (get_col header row "registration")
           (get_col header row "typecode")
           (get_col header row "model")
           (get_col header row "operator")
           (get_col header row "operatorIcao")
           (get_col header row "operatorIata")
           (get_col header row "owner")
           source (clock env tick))
        :: parsed_rows min_len source header rows' (S tick)
  end.

(** ** [main.py]: the enrichment loop of a poll

    [for f in flights: try: self.enricher.enrich(f) except Exception: ...]
    The engine and the world go from one record to the next; an exception
    is logged and the loop goes on. *)
Fixpoint enrich_each (flights : list Flight) (s : Enricher.t) (w : World)
  : list Flight * Enricher.t * World :=
  match flights with
  | [] => ([], s, w)
  | f :: flights' =>
      let st := (enrich (mkSt f s w)).2 in
      let r := enrich_each flights' (self st) (world st) in
      (flight st :: r.1.1, r.1.2, r.2)
  end.

End Engine.

(** ** [data_sources.py]: the factory

    The configuration is what [yaml.safe_load] gives, a value of
    [Json].  [create_source] ends with a call of one of the four
    constructors; the call is the result here. *)

Inductive SourceCall : Type :=
  | NewRTLSDRSource (lat lon radius_nm url : Json)
  | NewFR24Source (lat lon radius_nm api_token sandbox : Json)
  | NewOpenSkySource (lat lon radius_nm username password : Json)
  | NewMockSource (lat lon : Json).

(** [d[k] = v]: the entry at the end is the one [dict_lookup] finds. *)
Definition dict_set (k : string) (v : Json) (kv : list (string * Json))
  : list (string * Json) :=
  kv ++ [(k, v)].

(** [d.setdefault(k, v)] *)
Definition dict_setdefault (k : string) (v : Json)
    (kv : list (string * Json)) : list (string * Json) :=
  match dict_lookup k kv with
  | Some _ => kv
  | None => kv ++ [(k, v)]
  end.

(** [d.get(k, default)] on a dict. *)
Definition dict_get (kv : list (string * Json)) (k : string)
    (default : Json) : Json :=
  match dict_lookup k kv with
  | Some v => v
  | None => default
  end.

(** [j.lower()]: [AttributeError] unless [j] is a string. *)
Definition json_lower (j : Json) : outcome string :=
  match j with
  | JStr s => Ok (py_lower s)
  | _ => Raise AttributeError
  end.

(** [j == s] for a string [s]. *)
Definition json_is_str (j : Json) (s : string) : bool :=
  match j with
  | JStr s' => String.eqb s' s
  | _ => false
  end.

Definition TOKEN_PLACEHOLDER : string := "YOUR_API_TOKEN_HERE".

(** [create_source(config)].  [source_cfg] is the dict under [source] (the
    writes to it change no key that is read from [config] itself). *)
Definition create_source (config : Json) : outcome SourceCall :=
  let! loc := json_get config "location" (JObj []) in
  let! lat := json_get loc "latitude" (JFloat 51.5074%float) in
  let! lon := json_get loc "longitude" (JFloat (-0.1278)%float) in
  let! radius := json_get config "radius_nm" (JInt 10) in
  let! source := json_get config "source" (JObj []) in
  let! type := json_get source "type" (JStr "") in
  let! source_type := json_lower type in
  match config, source with
  | JObj config, JObj source_cfg =>
      let source_type :=
        if json_truthy (dict_get config "_use_mock" JNull)
        then "mock" else source_type in
      let '(source_cfg, source_type) :=
        if json_truthy (dict_get config "_use_sandbox" JNull)
        then (dict_set "sandbox" (JBool true) source_cfg,
              if negb (String.eqb source_type "fr24")
              then "fr24" else source_type)
        else (source_cfg, source_type) in
      let '(source_cfg, source_type) :=
        if negb (str_truthy source_type) then
          if json_truthy (dict_get config "fr24_api_token" JNull)
             && negb (json_is_str (dict_get config "fr24_api_token" JNull)
                        TOKEN_PLACEHOLDER)
          then
            (dict_setdefault "sandbox"
               (dict_get config "sandbox" (JBool false))
               (dict_setdefault "api_token"
                  (dict_get config "fr24_api_token" JNull) source_cfg),
             "fr24")
          else (source_cfg, "mock")
        else (source_cfg, source_type) in
      if String.eqb source_type "rtlsdr" then
        Ok (NewRTLSDRSource lat lon radius (dict_get source_cfg "url" JNull))
      else if String.eqb source_type "fr24" then
        let token :=
          dict_get source_cfg "api_token"
            (dict_get config "fr24_api_token" (JStr "")) in
        if negb (json_truthy token) || json_is_str token TOKEN_PLACEHOLDER
        then Ok (NewMockSource lat lon)
        else
          Ok (NewFR24Source lat lon radius token
                (dict_get source_cfg "sandbox" (JBool false)))
      else if String.eqb source_type "opensky" then
        Ok (NewOpenSkySource lat lon radius
              (dict_get source_cfg "username" (JStr ""))
              (dict_get source_cfg "password" (JStr "")))
      else if String.eqb source_type "mock" then
        Ok (NewMockSource lat lon)
      else Ok (NewMockSource lat lon)
  | _, _ => Raise AttributeError
  end.

(** * Properties *)

(** ** Facts on IEEE-754 comparisons

    A value that compares below anything is not a NaN, and on non-NaN
    values the order is total and transitive. *)

Module FloatOrderFacts.
Import FloatOrder.

Lemma lex_compare_refl a : lex_compare a a = Eq.
Proof.
  destruct a as [[a1 a2] a3]; simpl. now rewrite !Z.compare_refl.
Qed.

Lemma lex_compare_antisym a b :
  lex_compare b a = CompOpp (lex_compare a b).
Proof.
  destruct a as [[a1 a2] a3], b as [[b1 b2] b3]; simpl.
  rewrite (Z.compare_antisym a1 b1), (Z.compare_antisym a2 b2),
    (Z.compare_antisym a3 b3).
  destruct (a1 ?= b1), (a2 ?= b2), (a3 ?= b3); reflexivity.
Qed.

Lemma lex_compare_trans a b c :
  lex_compare a b <> Gt -> lex_compare b c <> Gt -> lex_compare a c <> Gt.
Proof.
  destruct a as [[a1 a2] a3], b as [[b1 b2] b3], c as [[c1 c2] c3]; simpl.
  destruct (Z.compare_spec a1 b1), (Z.compare_spec b1 c1),
    (Z.compare_spec a1 c1); try lia; try congruence;
  destruct (Z.compare_spec a2 b2), (Z.compare_spec b2 c2),
    (Z.compare_spec a2 c2); try lia; try congruence;
  destruct (Z.compare_spec a3 b3), (Z.compare_spec b3 c3),
    (Z.compare_spec a3 c3); try lia; congruence.
Qed.

Lemma SFcompare_key a b :
  SFis_nan a = false -> SFis_nan b = false ->
  SFcompare a b = Some (lex_compare (key a) (key b)).
Proof.
  destruct a as [sa|sa| |sa ma ea], b as [sb|sb| |sb mb eb];
    simpl; try discriminate; intros _ _;
    try (destruct sa; reflexivity); try (destruct sb; reflexivity);
    try (destruct sa, sb; reflexivity).
  destruct sa, sb; simpl; try reflexivity.
  rewrite Z.compare_opp, (Z.compare_antisym ea eb).
  destruct (ea ?= eb); reflexivity.
Qed.

Lemma SFcompare_nan a b :
  SFis_nan a || SFis_nan b = true -> SFcompare a b = None.
Proof.
  destruct a, b; simpl; intros H; try discriminate; reflexivity.
Qed.

Lemma is_nan_spec x : is_nan x = SFis_nan (Prim2SF x).
Proof.
  unfold is_nan. rewrite FloatAxioms.eqb_spec. unfold SFeqb.
  destruct (SFis_nan (Prim2SF x)) eqn:E.
  - rewrite SFcompare_nan by (rewrite E; reflexivity). reflexivity.
  - rewrite SFcompare_key, lex_compare_refl by assumption. reflexivity.
Qed.

Lemma leb_key x y :
  PrimFloat.leb x y = true <->
  is_nan x = false /\ is_nan y = false /\
  lex_compare (key (Prim2SF x)) (key (Prim2SF y)) <> Gt.
Proof.
  rewrite FloatAxioms.leb_spec, !is_nan_spec. unfold SFleb.
  destruct (SFis_nan (Prim2SF x)) eqn:Ex.
  { rewrite SFcompare_nan by (rewrite Ex; reflexivity).
    split; [discriminate | intros (? & _); discriminate]. }
  destruct (SFis_nan (Prim2SF y)) eqn:Ey.
  { rewrite SFcompare_nan by (rewrite Ex, Ey; reflexivity).
    split; [discriminate | intros (_ & ? & _); discriminate]. }
  rewrite SFcompare_key by assumption.
  destruct (lex_compare _ _); split; intros H; try discriminate;
    try (repeat split; congruence);
    destruct H as (_ & _ & H); congruence.
Qed.

Lemma ltb_key x y :
  PrimFloat.ltb x y = true <->
  is_nan x = false /\ is_nan y = false /\
  lex_compare (key (Prim2SF x)) (key (Prim2SF y)) = Lt.
Proof.
  rewrite FloatAxioms.ltb_spec, !is_nan_spec. unfold SFltb.
  destruct (SFis_nan (Prim2SF x)) eqn:Ex.
  { rewrite SFcompare_nan by (rewrite Ex; reflexivity).
    split; [discriminate | intros (? & _); discriminate]. }
  destruct (SFis_nan (Prim2SF y)) eqn:Ey.
  { rewrite SFcompare_nan by (rewrite Ex, Ey; reflexivity).
    split; [discriminate | intros (_ & ? & _); discriminate]. }
  rewrite SFcompare_key by assumption.
  destruct (lex_compare _ _); split; intros H; try discriminate;
    try (repeat split; congruence);
    destruct H as (_ & _ & H); congruence.
Qed.

(** A float that compares [<=] something is a number, and so is the
    bound. *)
Lemma leb_not_nan x y :
  PrimFloat.leb x y = true -> is_nan x = false /\ is_nan y = false.
Proof. rewrite leb_key. tauto. Qed.

Lemma leb_trans x y z :
  PrimFloat.leb x y = true -> PrimFloat.leb y z = true ->
  PrimFloat.leb x z = true.
Proof.
  rewrite !leb_key. intros (Hx & Hy & Hxy) (_ & Hz & Hyz).
  repeat split; try assumption. eapply lex_compare_trans; eassumption.
Qed.

(** On numbers, [not (x < y)] is [y <= x]. *)
Lemma ltb_false_leb x y :
  is_nan x = false -> is_nan y = false ->
  PrimFloat.ltb x y = false -> PrimFloat.leb y x = true.
Proof.
  intros Hx Hy Hlt. apply leb_key. repeat split; try assumption.
  rewrite lex_compare_antisym. intros Hgt.
  assert (PrimFloat.ltb x y = true) as Habs; [|congruence].
  apply ltb_key. repeat split; try assumption.
  destruct (lex_compare _ _); simpl in Hgt; congruence.
Qed.

Lemma ltb_leb x y : PrimFloat.ltb x y = true -> PrimFloat.leb x y = true.
Proof.
  rewrite ltb_key, leb_key. intros (Hx & Hy & H).
  repeat split; try assumption. congruence.
Qed.

End FloatOrderFacts.

(** ** The sort *)

Section SortFacts.
Import FloatOrder FloatOrderFacts.

Definition dist_le (f g : Flight) : Prop :=
  PrimFloat.leb (distance_nm f) (distance_nm g) = true.

Definition dist_number (f : Flight) : Prop :=
  is_nan (distance_nm f) = false.

Lemma insert_by_distance_perm f l :
  Permutation (insert_by_distance f l) (f :: l).
Proof.
  induction l as [|g l IH]; simpl; [reflexivity|].
  destruct (PrimFloat.ltb _ _); [|reflexivity].
  rewrite IH. apply perm_swap.
Qed.

Lemma sort_by_distance_perm l : Permutation (sort_by_distance l) l.
Proof.
  induction l as [|f l IH]; simpl; [reflexivity|].
  rewrite insert_by_distance_perm. now constructor.
Qed.

Lemma sort_by_distance_Forall (P : Flight -> Prop) l :
  Forall P l -> Forall P (sort_by_distance l).
Proof.
  intros H. eapply Permutation_Forall; [|exact H].
  symmetry. apply sort_by_distance_perm.
Qed.

Lemma insert_by_distance_sorted f l :
  dist_number f -> Forall dist_number l ->
  StronglySorted dist_le l ->
  StronglySorted dist_le (insert_by_distance f l).
Proof.
  intros Hf Hl Hs. induction Hs as [|g l Hs IH Hg]; simpl.
  - repeat constructor.
  - apply Forall_cons in Hl as [Hgn Hl].
    destruct (PrimFloat.ltb (distance_nm g) (distance_nm f)) eqn:E.
    + constructor; [now apply IH|].
      eapply Permutation_Forall;
        [symmetry; apply insert_by_distance_perm|].
      constructor; [now apply ltb_leb | assumption].
    + assert (dist_le f g) as Hfg by now apply ltb_false_leb.
      constructor; [now constructor|].
      constructor; [assumption|].
      eapply Forall_impl; [exact Hg|].
      intros h Hh. eapply leb_trans; eassumption.
Qed.

Lemma sort_by_distance_sorted l :
  Forall dist_number l -> StronglySorted dist_le (sort_by_distance l).
Proof.
  induction 1 as [|f l Hf Hl IH]; simpl; [constructor|].
  apply insert_by_distance_sorted; try assumption.
  now apply sort_by_distance_Forall.
Qed.
End SortFacts.

(** ** The filtering loop of the wrapper *)

Module DataSourceFacts.
Import FloatOrder FloatOrderFacts DataSource.

Section Loop.
Variable m : Math.
Variable self : DataSource.t.

(** What the loop does with one record: [None] when it is skipped,
    [Some f'] when [f'] (the record with its distance set) is appended. *)
Definition visit (f : Flight) : outcome (option Flight) :=
  if grounded f then Ok None
  else if float_truthy (latitude f) && float_truthy (longitude f) then
    let! d := _haversine_nm m (lat self) (lon self)
                (latitude f) (longitude f) in
    let f' := set_distance_nm (py_round m d 1) f in
    if PrimFloat.leb (distance_nm f') (radius_nm self)
    then Ok (Some f') else Ok None
  else Ok None.

Lemma filter_loop_cons f raw flights :
  filter_loop m self (f :: raw) flights =
  let! v := visit f in
  filter_loop m self raw
    (match v with Some f' => flights ++ [f'] | None => flights end).
Proof.
  unfold visit; simpl.
  destruct (grounded f); [reflexivity|].
  destruct (float_truthy (latitude f) && float_truthy (longitude f));
    [|reflexivity].
  destruct (_haversine_nm m _ _ _ _) as [d|e]; simpl; [|reflexivity].
  destruct (PrimFloat.leb _ _); reflexivity.
Qed.

Lemma filter_loop_acc raw : forall flights,
  filter_loop m self raw flights =
  let! rest := filter_loop m self raw [] in Ok (flights ++ rest).
Proof.
  induction raw as [|f raw IH]; intros flights.
  - simpl. now rewrite app_nil_r.
  - rewrite !filter_loop_cons.
    destruct (visit f) as [[f'|]|e]; simpl; [| apply IH | reflexivity].
    rewrite (IH (flights ++ [f'])), (IH [f']).
    destruct (filter_loop m self raw []); simpl; [|reflexivity].
    now rewrite <- app_assoc.
Qed.

Lemma filter_loop_app l1 l2 : forall flights,
  filter_loop m self (l1 ++ l2) flights =
  let! fl := filter_loop m self l1 flights in filter_loop m self l2 fl.
Proof.
  induction l1 as [|f l1 IH]; intros flights; [reflexivity|].
  rewrite <- app_comm_cons, !filter_loop_cons.
  destruct (visit f) as [[f'|]|e]; simpl; auto.
Qed.

(** A record the loop skips leaves no trace: the loop runs as if the
    record were not in the raw list. *)
Lemma filter_loop_skip l1 f l2 flights :
  visit f = Ok None ->
  filter_loop m self (l1 ++ f :: l2) flights =
  filter_loop m self (l1 ++ l2) flights.
Proof.
  intros Hv. rewrite !filter_loop_app.
  destruct (filter_loop m self l1 flights); cbn [obind]; [|reflexivity].
  now rewrite filter_loop_cons, Hv.
Qed.

(** The records the loop appends. *)
Definition kept (g : Flight) : Prop :=
  grounded g = false /\
  float_truthy (latitude g) = true /\ float_truthy (longitude g) = true /\
  PrimFloat.leb (distance_nm g) (radius_nm self) = true.

Lemma visit_kept f f' : visit f = Ok (Some f') -> kept f'.
Proof.
  unfold visit, kept.
  destruct (grounded f) eqn:Eg; [discriminate|].
  destruct (float_truthy (latitude f)) eqn:Ela; [|discriminate].
  destruct (float_truthy (longitude f)) eqn:Elo; [|discriminate]. simpl.
  destruct (_haversine_nm m _ _ _ _) as [d|e]; simpl; [|discriminate].
  destruct (PrimFloat.leb _ _) eqn:El; [|discriminate].
  intros [= <-]. auto.
Qed.

Lemma filter_loop_kept raw : forall flights out,
  filter_loop m self raw flights = Ok out ->
  Forall kept flights -> Forall kept out.
Proof.
  induction raw as [|f raw IH]; intros flights out.
  - simpl. now intros [= <-].
  - rewrite filter_loop_cons.
    destruct (visit f) as [[f'|]|e] eqn:Ev; simpl; [| apply IH | discriminate].
    intros H Hfl. apply (IH _ _ H).
    apply Forall_app. split; [assumption|].
    constructor; [|constructor]. eapply visit_kept; eassumption.
Qed.

(** What was appended stays, and what the loop appends for a record of the
    raw list is in the result. *)
Lemma filter_loop_incl raw : forall flights out g,
  filter_loop m self raw flights = Ok out -> In g flights -> In g out.
Proof.
  induction raw as [|f raw IH]; intros flights out g.
  - simpl. now intros [= <-].
  - rewrite filter_loop_cons.
    destruct (visit f) as [[f'|]|e]; simpl; [| apply IH | discriminate].
    intros H Hg. apply (IH _ _ _ H). apply in_or_app. now left.
Qed.

Lemma filter_loop_appended raw : forall flights out f f',
  filter_loop m self raw flights = Ok out ->
  In f raw -> visit f = Ok (Some f') -> In f' out.
Proof.
  induction raw as [|g raw IH]; intros flights out f f'; [intros _ []|].
  rewrite filter_loop_cons. intros H [->|Hin] Hv.
  - rewrite Hv in H. simpl in H.
    apply (filter_loop_incl _ _ _ _ H). apply in_or_app. right. now left.
  - destruct (visit g) as [[g'|]|e]; simpl in H; [| |discriminate];
      eapply IH; eassumption.
Qed.

End Loop.
End DataSourceFacts.

(** ** The filtering loop of the FlightRadar24 override *)

Module FR24SourceFacts.
Import FloatOrder FloatOrderFacts FR24Source.

Section Loop.
Variable m : Math.
Variable self : FR24Source.t.

Definition fr24_visit (f : Flight) : outcome (option Flight) :=
  if grounded f then Ok None
  else if float_truthy (latitude f) && float_truthy (longitude f) then
    let! d := _haversine_nm m (DataSource.lat (base self))
                (DataSource.lon (base self)) (latitude f) (longitude f) in
    let f' := set_distance_nm (py_round m d 1) f in
    if negb (sandbox self)
       && PrimFloat.ltb (DataSource.radius_nm (base self)) (distance_nm f')
    then Ok None else Ok (Some f')
  else Ok None.

Lemma fr24_filter_loop_cons f raw flights :
  filter_loop m self (f :: raw) flights =
  let! v := fr24_visit f in
  filter_loop m self raw
    (match v with Some f' => flights ++ [f'] | None => flights end).
Proof.
  unfold fr24_visit; simpl.
  destruct (grounded f); [reflexivity|].
  destruct (float_truthy (latitude f) && float_truthy (longitude f));
    [|reflexivity].
  destruct (_haversine_nm m _ _ _ _) as [d|e]; simpl; [|reflexivity].
  destruct (negb (sandbox self) && PrimFloat.ltb _ _); reflexivity.
Qed.

Lemma fr24_filter_loop_app l1 l2 : forall flights,
  filter_loop m self (l1 ++ l2) flights =
  let! fl := filter_loop m self l1 flights in filter_loop m self l2 fl.
Proof.
  induction l1 as [|f l1 IH]; intros flights; [reflexivity|].
  rewrite <- app_comm_cons, !fr24_filter_loop_cons.
  destruct (fr24_visit f) as [[f'|]|e]; simpl; auto.
Qed.

Lemma fr24_filter_loop_skip l1 f l2 flights :
  fr24_visit f = Ok None ->
  filter_loop m self (l1 ++ f :: l2) flights =
  filter_loop m self (l1 ++ l2) flights.
Proof.
  intros Hv. rewrite !fr24_filter_loop_app.
  destruct (filter_loop m self l1 flights); cbn [obind]; [|reflexivity].
  now rewrite fr24_filter_loop_cons, Hv.
Qed.

Definition fr24_kept (g : Flight) : Prop :=
  grounded g = false /\
  float_truthy (latitude g) = true /\ float_truthy (longitude g) = true.

Lemma fr24_visit_kept f f' : fr24_visit f = Ok (Some f') -> fr24_kept f'.
Proof.
  unfold fr24_visit, fr24_kept.
  destruct (grounded f) eqn:Eg; [discriminate|].
  destruct (float_truthy (latitude f)) eqn:Ela; [|discriminate].
  destruct (float_truthy (longitude f)) eqn:Elo; [|discriminate]. simpl.
  destruct (_haversine_nm m _ _ _ _) as [d|e]; simpl; [|discriminate].
  destruct (negb (sandbox self) && PrimFloat.ltb _ _); [discriminate|].
  intros [= <-]. auto.
Qed.

Lemma fr24_filter_loop_kept raw : forall flights out,
  filter_loop m self raw flights = Ok out ->
  Forall fr24_kept flights -> Forall fr24_kept out.
Proof.
  induction raw as [|f raw IH]; intros flights out.
  - simpl. now intros [= <-].
  - rewrite fr24_filter_loop_cons.
    destruct (fr24_visit f) as [[f'|]|e] eqn:Ev; simpl; [| apply IH | discriminate].
    intros H Hfl. apply (IH _ _ H).
    apply Forall_app. split; [assumption|].
    constructor; [|constructor]. eapply fr24_visit_kept; eassumption.
Qed.

Lemma fr24_filter_loop_incl raw : forall flights out g,
  filter_loop m self raw flights = Ok out -> In g flights -> In g out.
Proof.
  induction raw as [|f raw IH]; intros flights out g.
  - simpl. now intros [= <-].
  - rewrite fr24_filter_loop_cons.
    destruct (fr24_visit f) as [[f'|]|e]; simpl; [| apply IH | discriminate].
    intros H Hg. apply (IH _ _ _ H). apply in_or_app. now left.
Qed.

Lemma fr24_filter_loop_appended raw : forall flights out f f',
  filter_loop m self raw flights = Ok out ->
  In f raw -> fr24_visit f = Ok (Some f') -> In f' out.
Proof.
  induction raw as [|g raw IH]; intros flights out f f'; [intros _ []|].
  rewrite fr24_filter_loop_cons. intros H [->|Hin] Hv.
  - rewrite Hv in H. simpl in H.
    apply (fr24_filter_loop_incl _ _ _ _ H). apply in_or_app. right. now left.
  - destruct (fr24_visit g) as [[g'|]|e]; simpl in H; [| |discriminate];
      eapply IH; eassumption.
Qed.

End Loop.
End FR24SourceFacts.

(** ** Sample data for the provider

    A stand-in for the platform's [math] module, enough to run the wrapper
    on concrete records: [radians] multiplies by pi/180, [sin] and [asin]
    are the identity, [cos] is [1], rounding keeps the value.  [math.sin]
    raises [ValueError] on an infinity, as the platform's does. *)

Definition is_infinite (x : float) : bool :=
  PrimFloat.eqb x infinity || PrimFloat.eqb x neg_infinity.

Definition sample_math : Math :=
  mkMath (fun x => x * 0.017453292519943295)%float
    (fun x => if is_infinite x then Raise ValueError else Ok x)
    (fun x => if is_infinite x then Raise ValueError else Ok 1%float)
    (fun x => Ok x)
    (fun x => if PrimFloat.ltb x 0 then Raise ValueError
              else Ok (PrimFloat.sqrt x))
    (fun x _ => Ok (x * x)%float)
    (fun x _ => x).

Definition sample_flight (cs : string) (la lo : float) (alt gs : Z)
  : Flight :=
  mkFlight cs "" "" "" "" "" "" "" la lo alt gs 0 0 0%float "" "" false "".

Definition sample_source : DataSource.t :=
  DataSource.mk 51.5074%float (-0.1278)%float 10%float
    [sample_flight "BAW117" 51.5075%float (-0.1278)%float 38000 487]
    1000%float 5%float.

(** An upstream that is down: every raw fetch raises. *)
Definition upstream_down : Upstream :=
  mkUpstream (fun _ => Raise ConnectionError) 0.

(** An upstream that serves the same raw list at every fetch. *)
Definition upstream_serving (raw : list Flight) : Upstream :=
  mkUpstream (fun _ => Ok raw) 0.

(** ** The cache window (C8) *)

Section CacheWindow.
Import DataSource.
Variable m : Math.

Lemma fetch_flights_returns_cache now self up :
  (fetch_flights m now self up).1.1 = _cache (fetch_flights m now self up).1.2.
Proof.
  unfold fetch_flights. destruct (cache_fresh now self); [reflexivity|].
  destruct (try_fetch m self up) as [[fl|e] up']; reflexivity.
Qed.

(** C8, as the code has it.  Within the TTL of the last fetch and with a
    non-empty cache, [fetch_flights] returns the cached list itself,
    leaves the provider as it is and makes no raw fetch.  Of two calls at
    [t1] and [t2], when the first one makes a raw fetch that gives a
    non-empty list and [t2 - t1] is less than the TTL, the second returns
    the list of the first, changes nothing, and the two calls make one raw
    fetch together.  Both hold for the wrapper and for the FlightRadar24
    override. *)
Theorem fetch_flights_within_ttl :
  (forall now self up,
     PrimFloat.ltb (now - _last_fetch_time self)%float (_cache_ttl self)
       = true ->
     _cache self <> [] ->
     fetch_flights m now self up = (_cache self, self, up))
  /\ (forall t1 t2 self0 up0 raw out,
       cache_fresh t1 self0 = false ->
       feed up0 (polls up0) = Ok raw ->
       process m self0 raw = Ok out ->
       out <> [] ->
       PrimFloat.ltb (t2 - t1)%float (_cache_ttl self0) = true ->
       let r1 := fetch_flights m t1 self0 up0 in
       r1.1.1 = out
       /\ fetch_flights m t2 r1.1.2 r1.2 = r1
       /\ polls (fetch_flights m t2 r1.1.2 r1.2).2 = S (polls up0))
  /\ (forall now self up,
       PrimFloat.ltb (now - _last_fetch_time (FR24Source.base self))%float
         (_cache_ttl (FR24Source.base self)) = true ->
       _cache (FR24Source.base self) <> [] ->
       FR24Source.fetch_flights m now self up
       = (_cache (FR24Source.base self), self, up))
  /\ (forall t1 t2 self0 up0 raw out,
       cache_fresh t1 (FR24Source.base self0) = false ->
       feed up0 (polls up0) = Ok raw ->
       FR24Source.process m self0 raw = Ok out ->
       out <> [] ->
       PrimFloat.ltb (t2 - t1)%float (_cache_ttl (FR24Source.base self0))
         = true ->
       let r1 := FR24Source.fetch_flights m t1 self0 up0 in
       r1.1.1 = out
       /\ FR24Source.fetch_flights m t2 r1.1.2 r1.2 = r1
       /\ polls (FR24Source.fetch_flights m t2 r1.1.2 r1.2).2
          = S (polls up0)).
Proof.
  split; [|split; [|split]].
  - intros now self up Hlt Hne. unfold fetch_flights, cache_fresh.
    rewrite Hlt, bool_decide_eq_false_2 by assumption. reflexivity.
  - intros t1 t2 self0 up0 raw out Hstale Hfeed Hproc Hne Hlt. cbv zeta.
    assert (fetch_flights m t1 self0 up0
            = (out,
               mk (lat self0) (lon self0) (radius_nm self0) out t1
                 (_cache_ttl self0),
               mkUpstream (feed up0) (S (polls up0)))) as ->.
    { unfold fetch_flights. rewrite Hstale.
      unfold try_fetch, _fetch_raw. rewrite Hfeed. cbn [obind].
      now rewrite Hproc. }
    cbn [fst snd]. unfold fetch_flights, cache_fresh.
    cbn [_last_fetch_time _cache_ttl _cache]. rewrite Hlt.
    rewrite bool_decide_eq_false_2 by assumption.
    repeat split.
  - intros now self up Hlt Hne. unfold FR24Source.fetch_flights, cache_fresh.
    rewrite Hlt, bool_decide_eq_false_2 by assumption. reflexivity.
  - intros t1 t2 self0 up0 raw out Hstale Hfeed Hproc Hne Hlt. cbv zeta.
    assert (FR24Source.fetch_flights m t1 self0 up0
            = (out,
               FR24Source.mk
                 (mk (lat (FR24Source.base self0))
                    (lon (FR24Source.base self0))
                    (radius_nm (FR24Source.base self0)) out t1
                    (_cache_ttl (FR24Source.base self0)))
                 (FR24Source.sandbox self0),
               mkUpstream (feed up0) (S (polls up0)))) as ->.
    { unfold FR24Source.fetch_flights. rewrite Hstale.
      unfold FR24Source.try_fetch, _fetch_raw. rewrite Hfeed. cbn [obind].
      now rewrite Hproc. }
    cbn [fst snd]. unfold FR24Source.fetch_flights, cache_fresh.
    cbn [FR24Source.base _last_fetch_time _cache_ttl _cache]. rewrite Hlt.
    rewrite bool_decide_eq_false_2 by assumption.
    repeat split.
Qed.

End CacheWindow.

(** The list the wrapper computes from the cache of [sample_source] served
    as raw list. *)
Definition sample_out : list Flight :=
  match DataSource.process sample_math sample_source
          (DataSource._cache sample_source) with
  | Ok out => out
  | Raise _ => []
  end.

(** The wrapper at work: a hit at [t = 1003] on the cache filled at
    [t = 1000], and two calls three seconds apart on a live upstream, the
    first one a raw fetch (the cache of [t = 1000] is stale at
    [t = 2000]). *)
Lemma fetch_flights_within_ttl_witness :
  DataSource.fetch_flights sample_math 1003%float sample_source upstream_down
    = (DataSource._cache sample_source, sample_source, upstream_down)
  /\ polls (DataSource.fetch_flights sample_math 2003%float
              (DataSource.fetch_flights sample_math 2000%float sample_source
                 (upstream_serving (DataSource._cache sample_source))).1.2
              (DataSource.fetch_flights sample_math 2000%float sample_source
                 (upstream_serving (DataSource._cache sample_source))).2).2
     = 1%nat.
Proof.
  split.
  - apply (proj1 (fetch_flights_within_ttl sample_math));
      [vm_compute; reflexivity | discriminate].
  - apply (proj1 (proj2 (fetch_flights_within_ttl sample_math)) 2000%float
             2003%float sample_source
             (upstream_serving (DataSource._cache sample_source))
             (DataSource._cache sample_source) sample_out);
      [vm_compute; reflexivity | reflexivity | vm_compute; reflexivity
      | vm_compute; discriminate | vm_compute; reflexivity].
Defined.

(** Two calls one second apart, the TTL being five seconds, on an upstream
    with nothing to serve: the first result is empty, so the second call
    makes a raw fetch as well.  The sentence on two calls within the TTL
    window does not hold of every pair of calls. *)
Lemma fetch_flights_twice_fetches_twice :
  polls (DataSource.fetch_flights sample_math 2001%float
           (DataSource.fetch_flights sample_math 2000%float
              (DataSource.init 51.5074%float (-0.1278)%float 10%float)
              (upstream_serving [])).1.2
           (DataSource.fetch_flights sample_math 2000%float
              (DataSource.init 51.5074%float (-0.1278)%float 10%float)
              (upstream_serving [])).2).2
    = 2%nat
  /\ ~ (forall m t1 t2 self up,
         PrimFloat.ltb (t2 - t1)%float (DataSource._cache_ttl self) = true ->
         polls (DataSource.fetch_flights m t2
                  (DataSource.fetch_flights m t1 self up).1.2
                  (DataSource.fetch_flights m t1 self up).2).2
         = S (polls up)).
Proof.
  assert (polls (DataSource.fetch_flights sample_math 2001%float
           (DataSource.fetch_flights sample_math 2000%float
              (DataSource.init 51.5074%float (-0.1278)%float 10%float)
              (upstream_serving [])).1.2
           (DataSource.fetch_flights sample_math 2000%float
              (DataSource.init 51.5074%float (-0.1278)%float 10%float)
              (upstream_serving [])).2).2
          = 2%nat) as H by (vm_compute; reflexivity).
  split; [exact H|].
  intros Hall.
  specialize (Hall sample_math 2000%float 2001%float
                (DataSource.init 51.5074%float (-0.1278)%float 10%float)
                (upstream_serving [])).
  rewrite H in Hall. specialize (Hall eq_refl). discriminate.
Qed.

(** ** Failure of a poll (C4) *)

Definition sample_fr24 (sandbox : bool) : FR24Source.t :=
  FR24Source.mk sample_source sandbox.

(** A record whose latitude is an infinity: [math.sin] raises on it. *)
Definition flight_at_infinity : Flight :=
  sample_flight "N0WHERE" infinity 1%float 30000 400.

(** C4.  When the raw fetch raises, or the filtering, distance computation
    and sort of the records it returned raise, [fetch_flights] returns the
    previous cache and leaves the provider (cache and last fetch time
    included) as it was; nothing is raised to the caller.  This holds for
    the wrapper and for the FlightRadar24 override. *)
Theorem fetch_flights_failure_keeps_cache (m : Math) (now : float) :
  (forall self up e,
     feed up (polls up) = Raise e
     \/ (exists raw, feed up (polls up) = Ok raw
                     /\ DataSource.process m self raw = Raise e) ->
     (DataSource.fetch_flights m now self up).1
       = (DataSource._cache self, self))
  /\ (forall self up e,
     feed up (polls up) = Raise e
     \/ (exists raw, feed up (polls up) = Ok raw
                     /\ FR24Source.process m self raw = Raise e) ->
     (FR24Source.fetch_flights m now self up).1
       = (DataSource._cache (FR24Source.base self), self)).
Proof.
  split; intros self up e H.
  - unfold DataSource.fetch_flights.
    destruct (DataSource.cache_fresh now self); [reflexivity|].
    unfold DataSource.try_fetch, _fetch_raw.
    destruct H as [-> | (raw & -> & Hp)]; simpl; [reflexivity|].
    now rewrite Hp.
  - unfold FR24Source.fetch_flights.
    destruct (DataSource.cache_fresh now (FR24Source.base self));
      [reflexivity|].
    unfold FR24Source.try_fetch, _fetch_raw.
    destruct H as [-> | (raw & -> & Hp)]; simpl; [reflexivity|].
    now rewrite Hp.
Qed.

(** A poll at [t = 2000], the cache of [t = 1000] being stale: with the
    upstream down, and with a record on which the distance computation
    raises, the call returns the cache of [t = 1000]. *)
Lemma fetch_flights_failure_keeps_cache_witness :
  (DataSource.fetch_flights sample_math 2000%float sample_source
     upstream_down).1
    = (DataSource._cache sample_source, sample_source)
  /\ (FR24Source.fetch_flights sample_math 2000%float (sample_fr24 false)
        (upstream_serving [flight_at_infinity])).1
    = (DataSource._cache sample_source, sample_fr24 false).
Proof.
  split.
  - apply (proj1 (fetch_flights_failure_keeps_cache sample_math 2000%float)
             sample_source upstream_down ConnectionError).
    left. reflexivity.
  - apply (proj2 (fetch_flights_failure_keeps_cache sample_math 2000%float)
             (sample_fr24 false) (upstream_serving [flight_at_infinity])
             ValueError).
    right. exists [flight_at_infinity]. split; vm_compute; reflexivity.
Defined.

(** ** Records the loop skips (C6, C10) *)

Section Skipped.
Variable m : Math.

Lemma grounded_visit self f :
  grounded f = true -> DataSourceFacts.visit m self f = Ok None.
Proof. unfold DataSourceFacts.visit. now intros ->. Qed.

Lemma grounded_fr24_visit self f :
  grounded f = true -> FR24SourceFacts.fr24_visit m self f = Ok None.
Proof. unfold FR24SourceFacts.fr24_visit. now intros ->. Qed.

Lemma zero_coordinate_visit self f :
  float_truthy (latitude f) && float_truthy (longitude f) = false ->
  DataSourceFacts.visit m self f = Ok None.
Proof.
  unfold DataSourceFacts.visit. intros ->. now destruct (grounded f).
Qed.

Lemma zero_coordinate_fr24_visit self f :
  float_truthy (latitude f) && float_truthy (longitude f) = false ->
  FR24SourceFacts.fr24_visit m self f = Ok None.
Proof.
  unfold FR24SourceFacts.fr24_visit. intros ->. now destruct (grounded f).
Qed.

(** A record the wrapper skips has no effect on a call: list returned and
    provider state are those of the call on the raw list without it. *)
Lemma skipped_record_no_effect now self up up' l1 f l2 :
  DataSourceFacts.visit m self f = Ok None ->
  feed up (polls up) = Ok (l1 ++ f :: l2) ->
  feed up' (polls up') = Ok (l1 ++ l2) ->
  (DataSource.fetch_flights m now self up).1
    = (DataSource.fetch_flights m now self up').1.
Proof.
  intros Hv Hup Hup'. unfold DataSource.fetch_flights.
  destruct (DataSource.cache_fresh now self); [reflexivity|].
  unfold DataSource.try_fetch, _fetch_raw. rewrite Hup, Hup'.
  cbn [obind]. unfold DataSource.process.
  rewrite (DataSourceFacts.filter_loop_skip m self l1 f l2 [] Hv).
  now destruct (DataSource.filter_loop m self (l1 ++ l2) []).
Qed.

Lemma fr24_skipped_record_no_effect now self up up' l1 f l2 :
  FR24SourceFacts.fr24_visit m self f = Ok None ->
  feed up (polls up) = Ok (l1 ++ f :: l2) ->
  feed up' (polls up') = Ok (l1 ++ l2) ->
  (FR24Source.fetch_flights m now self up).1
    = (FR24Source.fetch_flights m now self up').1.
Proof.
  intros Hv Hup Hup'. unfold FR24Source.fetch_flights.
  destruct (DataSource.cache_fresh now (FR24Source.base self));
    [reflexivity|].
  unfold FR24Source.try_fetch, _fetch_raw. rewrite Hup, Hup'.
  cbn [obind]. unfold FR24Source.process.
  rewrite (FR24SourceFacts.fr24_filter_loop_skip m self l1 f l2 [] Hv).
  now destruct (FR24Source.filter_loop m self (l1 ++ l2) []).
Qed.

Lemma grounded_cases f :
  on_ground f = true \/ (altitude f < 100 /\ ground_speed f < 50) ->
  grounded f = true.
Proof.
  unfold grounded. intros [-> | [Ha Hs]]; [reflexivity|].
  apply Z.ltb_lt in Ha, Hs. rewrite Ha, Hs. apply orb_true_r.
Qed.

Lemma airborne_cases f :
  on_ground f = false -> 100 <= altitude f \/ 50 <= ground_speed f ->
  grounded f = false.
Proof.
  unfold grounded. intros -> [H | H]; simpl.
  - apply Z.ltb_ge in H. now rewrite H.
  - apply Z.ltb_ge in H. rewrite H. apply andb_false_r.
Qed.

Lemma zero_coordinate_cases f :
  latitude f = 0%float \/ longitude f = 0%float ->
  float_truthy (latitude f) && float_truthy (longitude f) = false.
Proof.
  intros [-> | ->]; [reflexivity|]. apply andb_false_r.
Qed.

End Skipped.

(** ** What a computed poll returns *)

Section Computed.
Import FloatOrder FloatOrderFacts.
Variable m : Math.

(** The list the wrapper computes holds only records it keeps (airborne,
    both coordinates non-zero, distance at most the radius) and is sorted
    by ascending distance. *)
Lemma process_kept_sorted self raw out :
  DataSource.process m self raw = Ok out ->
  Forall (DataSourceFacts.kept self) out /\ StronglySorted dist_le out.
Proof.
  unfold DataSource.process.
  destruct (DataSource.filter_loop m self raw []) as [fl|e] eqn:E;
    simpl; [|discriminate].
  intros [= <-].
  assert (Forall (DataSourceFacts.kept self) fl) as Hk.
  { eapply DataSourceFacts.filter_loop_kept; [exact E | constructor]. }
  split; [now apply sort_by_distance_Forall|].
  apply sort_by_distance_sorted.
  eapply Forall_impl; [exact Hk|].
  intros g (_ & _ & _ & Hle). unfold dist_number.
  now apply leb_not_nan in Hle.
Qed.

Lemma fr24_process_kept self raw out :
  FR24Source.process m self raw = Ok out ->
  Forall FR24SourceFacts.fr24_kept out.
Proof.
  unfold FR24Source.process.
  destruct (FR24Source.filter_loop m self raw []) as [fl|e] eqn:E;
    simpl; [|discriminate].
  intros [= <-]. apply sort_by_distance_Forall.
  eapply FR24SourceFacts.fr24_filter_loop_kept; [exact E | constructor].
Qed.

(** A record of the raw list that passes the tests of the loop is in the
    computed list, with its distance set. *)
Lemma process_appended self raw out f d :
  DataSource.process m self raw = Ok out ->
  In f raw -> grounded f = false ->
  float_truthy (latitude f) = true -> float_truthy (longitude f) = true ->
  _haversine_nm m (DataSource.lat self) (DataSource.lon self)
    (latitude f) (longitude f) = Ok d ->
  PrimFloat.leb (py_round m d 1) (DataSource.radius_nm self) = true ->
  In (set_distance_nm (py_round m d 1) f) out.
Proof.
  unfold DataSource.process.
  destruct (DataSource.filter_loop m self raw []) as [fl|e] eqn:E;
    simpl; [|discriminate].
  intros [= <-] Hin Hg Hla Hlo Hd Hle.
  eapply Permutation_in; [symmetry; apply sort_by_distance_perm|].
  eapply DataSourceFacts.filter_loop_appended; [exact E | exact Hin |].
  unfold DataSourceFacts.visit. rewrite Hg, Hla, Hlo, Hd. simpl.
  now rewrite Hle.
Qed.

(** On a cache miss with a raw fetch that succeeds, the call returns the
    computed list. *)
Lemma fetch_flights_computed now self up raw out :
  DataSource.cache_fresh now self = false ->
  feed up (polls up) = Ok raw ->
  DataSource.process m self raw = Ok out ->
  (DataSource.fetch_flights m now self up).1.1 = out.
Proof.
  intros Hc Hf Hp. unfold DataSource.fetch_flights. rewrite Hc.
  unfold DataSource.try_fetch, _fetch_raw. rewrite Hf. cbn [obind].
  now rewrite Hp.
Qed.

End Computed.

(** ** The ground filter (C6) *)

(** C6.  A record with [on_ground] set, or with altitude below 100 ft and
    ground speed below 50 kn, is excluded whatever its other fields: the
    call returns the list, and leaves the provider in the state, of the
    same call on the raw list without that record (wrapper and
    FlightRadar24 override), and no list the wrapper computes holds such a
    record.  A record that is not on the ground and has altitude at least
    100 ft or ground speed at least 50 kn, with non-zero coordinates and a
    distance within the radius, is in the list returned by a poll that
    computes one. *)
Theorem fetch_flights_ground_filter (m : Math) (now : float) :
  (forall f l1 l2,
     on_ground f = true \/ (altitude f < 100 /\ ground_speed f < 50) ->
     (forall self up up',
        feed up (polls up) = Ok (l1 ++ f :: l2) ->
        feed up' (polls up') = Ok (l1 ++ l2) ->
        (DataSource.fetch_flights m now self up).1
          = (DataSource.fetch_flights m now self up').1)
     /\ (forall self up up',
        feed up (polls up) = Ok (l1 ++ f :: l2) ->
        feed up' (polls up') = Ok (l1 ++ l2) ->
        (FR24Source.fetch_flights m now self up).1
          = (FR24Source.fetch_flights m now self up').1))
  /\ (forall self raw out,
        DataSource.process m self raw = Ok out ->
        Forall (fun g => grounded g = false) out)
  /\ (forall self up raw out f d,
        DataSource.cache_fresh now self = false ->
        feed up (polls up) = Ok raw ->
        DataSource.process m self raw = Ok out ->
        In f raw ->
        on_ground f = false ->
        100 <= altitude f \/ 50 <= ground_speed f ->
        float_truthy (latitude f) = true ->
        float_truthy (longitude f) = true ->
        _haversine_nm m (DataSource.lat self) (DataSource.lon self)
          (latitude f) (longitude f) = Ok d ->
        PrimFloat.leb (py_round m d 1) (DataSource.radius_nm self) = true ->
        In (set_distance_nm (py_round m d 1) f)
           (DataSource.fetch_flights m now self up).1.1).
Proof.
  split; [|split].
  - intros f l1 l2 Hg. apply grounded_cases in Hg.
    split; intros self up up' Hup Hup'.
    + eapply skipped_record_no_effect; eauto using grounded_visit.
    + eapply fr24_skipped_record_no_effect; eauto using grounded_fr24_visit.
  - intros self raw out Hp.
    eapply Forall_impl; [apply (process_kept_sorted m self raw out Hp)|].
    now intros g (Hg & _).
  - intros self up raw out f d Hc Hf Hp Hin Hog Hab Hla Hlo Hd Hle.
    rewrite (fetch_flights_computed m now self up raw out Hc Hf Hp).
    eapply process_appended; eauto using airborne_cases.
Qed.

(** The two records of the design document, at the observer's position
    shifted by a hundredth of a degree: altitude 50 ft with speed 20 kn
    and with speed 80 kn. *)
Definition flight_taxiing : Flight :=
  sample_flight "TAXI20" 51.5174%float (-0.1278)%float 50 20.

Definition flight_low_fast : Flight :=
  sample_flight "FAST80" 51.5174%float (-0.1278)%float 50 80.

Lemma fetch_flights_ground_filter_witness :
  (DataSource.fetch_flights sample_math 2000%float sample_source
     (upstream_serving [flight_taxiing; flight_low_fast])).1
    = (DataSource.fetch_flights sample_math 2000%float sample_source
         (upstream_serving [flight_low_fast])).1
  /\ In (set_distance_nm
          (py_round sample_math 0.60040460732649448%float 1) flight_low_fast)
       (DataSource.fetch_flights sample_math 2000%float sample_source
          (upstream_serving [flight_taxiing; flight_low_fast])).1.1.
Proof.
  split.
  - apply (proj1 (proj1 (fetch_flights_ground_filter sample_math 2000%float)
             flight_taxiing [] [flight_low_fast]
             (or_intror (conj eq_refl eq_refl)))
             sample_source
             (upstream_serving [flight_taxiing; flight_low_fast])
             (upstream_serving [flight_low_fast]));
      reflexivity.
  - eapply (proj2 (proj2 (fetch_flights_ground_filter sample_math
             2000%float)) sample_source
             (upstream_serving [flight_taxiing; flight_low_fast])
             [flight_taxiing; flight_low_fast]);
      [ vm_compute; reflexivity | reflexivity | vm_compute; reflexivity
      | right; left; reflexivity | reflexivity | right; vm_compute; discriminate
      | vm_compute; reflexivity | vm_compute; reflexivity
      | vm_compute; reflexivity | vm_compute; reflexivity ].
Defined.

(** ** Exact-zero coordinates (C10) *)

(** C10.  A record whose latitude is exactly [0.0] or whose longitude is
    exactly [0.0] is dropped, silently and whatever its other fields (so
    also when it is airborne and within the radius): the call returns the
    list, and leaves the provider in the state, of the same call on the raw
    list without that record (wrapper and FlightRadar24 override), and no
    list the wrapper computes holds a record with a zero coordinate. *)
Theorem fetch_flights_zero_coordinate (m : Math) (now : float) :
  (forall f l1 l2,
     latitude f = 0%float \/ longitude f = 0%float ->
     (forall self up up',
        feed up (polls up) = Ok (l1 ++ f :: l2) ->
        feed up' (polls up') = Ok (l1 ++ l2) ->
        (DataSource.fetch_flights m now self up).1
          = (DataSource.fetch_flights m now self up').1)
     /\ (forall self up up',
        feed up (polls up) = Ok (l1 ++ f :: l2) ->
        feed up' (polls up') = Ok (l1 ++ l2) ->
        (FR24Source.fetch_flights m now self up).1
          = (FR24Source.fetch_flights m now self up').1))
  /\ (forall self raw out,
        DataSource.process m self raw = Ok out ->
        Forall (fun g => latitude g <> 0%float /\ longitude g <> 0%float)
          out).
Proof.
  split.
  - intros f l1 l2 Hz. apply zero_coordinate_cases in Hz.
    split; intros self up up' Hup Hup'.
    + eapply skipped_record_no_effect; eauto using zero_coordinate_visit.
    + eapply fr24_skipped_record_no_effect;
        eauto using zero_coordinate_fr24_visit.
  - intros self raw out Hp.
    eapply Forall_impl; [apply (process_kept_sorted m self raw out Hp)|].
    intros g (_ & Hla & Hlo & _).
    split; intros E; rewrite E in *; discriminate.
Qed.

(** An observer a hundredth of a degree off the equator, and an airliner
    on the equator, 0.6 nm away: the poll returns what it returns without
    it. *)
Definition equator_source : DataSource.t :=
  DataSource.mk 0.01%float 0.01%float 10%float [] 0%float 5%float.

Definition flight_on_equator : Flight :=
  sample_flight "KQA100" 0%float 0.01%float 35000 450.

Definition flight_off_equator : Flight :=
  sample_flight "KQA101" 0.02%float 0.01%float 35000 450.

Lemma fetch_flights_zero_coordinate_witness :
  (DataSource.fetch_flights sample_math 2000%float equator_source
     (upstream_serving [flight_on_equator; flight_off_equator])).1
    = (DataSource.fetch_flights sample_math 2000%float equator_source
         (upstream_serving [flight_off_equator])).1.
Proof.
  apply (proj1 (proj1 (fetch_flights_zero_coordinate sample_math 2000%float)
           flight_on_equator [] [flight_off_equator]
           (or_introl eq_refl))
           equator_source
           (upstream_serving [flight_on_equator; flight_off_equator])
           (upstream_serving [flight_off_equator]));
    reflexivity.
Defined.

(** ** Radius filter and order (C5) *)

Section Radius.
Import FloatOrder FloatOrderFacts.
Variable m : Math.

Definition within_radius (self : DataSource.t) (g : Flight) : Prop :=
  PrimFloat.leb (distance_nm g) (DataSource.radius_nm self) = true.

(** The shared wrapper, [DataSource.fetch_flights]: starting from a cache
    that is within the radius and sorted (the empty cache of [__init__]
    is), every call returns a list of records whose distance is at most the
    radius, sorted by ascending distance, and leaves such a cache behind.
    On a cache miss with a successful raw fetch the list is the one
    computed from the raw records. *)
Lemma wrapper_within_radius_sorted now self up :
  Forall (within_radius self) (DataSource._cache self) ->
  StronglySorted dist_le (DataSource._cache self) ->
  let r := DataSource.fetch_flights m now self up in
  Forall (within_radius self) r.1.1 /\ StronglySorted dist_le r.1.1
  /\ DataSource._cache r.1.2 = r.1.1
  /\ DataSource.radius_nm r.1.2 = DataSource.radius_nm self.
Proof.
  intros Hw Hs. unfold DataSource.fetch_flights.
  destruct (DataSource.cache_fresh now self); [now simpl|].
  unfold DataSource.try_fetch, _fetch_raw.
  destruct (feed up (polls up)) as [raw|e]; cbn [obind]; [|now simpl].
  destruct (DataSource.process m self raw) as [out|e] eqn:Hp; [|now simpl].
  destruct (process_kept_sorted m self raw out Hp) as [Hk Hso].
  simpl. repeat split; try assumption.
  eapply Forall_impl; [exact Hk|]. now intros g (_ & _ & _ & Hle).
Qed.

(** The FlightRadar24 override outside sandbox mode drops a record when
    [f.distance_nm > self.radius_nm], where the wrapper keeps it when
    [f.distance_nm <= self.radius_nm].  On numbers the two tests agree. *)
Lemma leb_ltb_numbers x y :
  is_nan x = false -> is_nan y = false ->
  PrimFloat.ltb y x = negb (PrimFloat.leb x y).
Proof.
  intros Hx Hy. destruct (PrimFloat.ltb y x) eqn:Elt.
  - destruct (PrimFloat.leb x y) eqn:Ele; [|reflexivity].
    apply ltb_key in Elt as (_ & _ & Hlt).
    apply leb_key in Ele as (_ & _ & Hle).
    rewrite lex_compare_antisym, Hlt in Hle. now elim Hle.
  - now rewrite (ltb_false_leb y x Hy Hx Elt).
Qed.

(** Outside sandbox mode, with a radius that is a number, the override
    does what the wrapper does on every raw list whose computed distances
    are numbers. *)
Lemma fr24_live_matches_wrapper (self : FR24Source.t) raw : forall flights,
  FR24Source.sandbox self = false ->
  is_nan (DataSource.radius_nm (FR24Source.base self)) = false ->
  (forall f d, In f raw ->
     _haversine_nm m (DataSource.lat (FR24Source.base self))
       (DataSource.lon (FR24Source.base self)) (latitude f) (longitude f)
       = Ok d ->
     is_nan (py_round m d 1) = false) ->
  FR24Source.filter_loop m self raw flights
  = DataSource.filter_loop m (FR24Source.base self) raw flights.
Proof.
  induction raw as [|f raw IH]; intros flights Hsb Hr Hnum; [reflexivity|].
  cbn [FR24Source.filter_loop DataSource.filter_loop].
  assert (forall fl, FR24Source.filter_loop m self raw fl
                     = DataSource.filter_loop m (FR24Source.base self) raw fl)
    as IH'.
  { intros fl. apply IH; try assumption.
    intros g d Hg. apply Hnum. now right. }
  destruct (grounded f); [apply IH'|].
  destruct (_ && _); [|apply IH'].
  destruct (_haversine_nm m _ _ _ _) as [d|e] eqn:Hd; [|reflexivity].
  cbn [obind distance_nm set_distance_nm]. rewrite Hsb. cbn [negb andb].
  rewrite (leb_ltb_numbers (py_round m d 1) _
             (Hnum f d (or_introl eq_refl) Hd) Hr).
  destruct (PrimFloat.leb _ _); cbn [negb]; apply IH'.
Qed.

End Radius.

(** The end-to-end case of the design document on the wrapper: observer at
    (51.5074, -0.1278), radius 10 nm, two airborne records, 1.2 nm and
    15 nm away (two and twenty-five hundredths of a degree to the north):
    only the first is returned. *)
Definition flight_near : Flight :=
  sample_flight "NEAR12" 51.5274%float (-0.1278)%float 30000 400.

Definition flight_far : Flight :=
  sample_flight "FAR150" 51.7574%float (-0.1278)%float 30000 400.

Example wrapper_end_to_end :
  (DataSource.fetch_flights sample_math 2000%float sample_source
     (upstream_serving [flight_far; flight_near])).1.1
  = [set_distance_nm 1.2008092146525624%float flight_near]
  /\ _haversine_nm sample_math 51.5074%float (-0.1278)%float
       (latitude flight_far) (longitude flight_far)
     = Ok 15.010115183154683%float.
Proof. split; vm_compute; reflexivity. Qed.

(** C5.  The override [FR24Source.fetch_flights] outside sandbox mode
    returns a record whose computed distance is not at most the radius:
    when the distance computes to a NaN (a NaN coordinate in the raw
    record), the test [f.distance_nm > self.radius_nm] is false and the
    record is appended, where the wrapper's test
    [f.distance_nm <= self.radius_nm] drops it. *)
Theorem fr24_live_keeps_nan_distance (m : Math) (now : float)
    (self : FR24Source.t) (up : Upstream) (raw out : list Flight)
    (f : Flight) (d : float) :
  FR24Source.sandbox self = false ->
  DataSource.cache_fresh now (FR24Source.base self) = false ->
  feed up (polls up) = Ok raw ->
  FR24Source.process m self raw = Ok out ->
  In f raw ->
  grounded f = false ->
  float_truthy (latitude f) = true ->
  float_truthy (longitude f) = true ->
  _haversine_nm m (DataSource.lat (FR24Source.base self))
    (DataSource.lon (FR24Source.base self)) (latitude f) (longitude f)
    = Ok d ->
  FloatOrder.is_nan (py_round m d 1) = true ->
  let f' := set_distance_nm (py_round m d 1) f in
  In f' (FR24Source.fetch_flights m now self up).1.1
  /\ PrimFloat.leb (distance_nm f')
       (DataSource.radius_nm (FR24Source.base self)) = false
  /\ DataSource.process m (FR24Source.base self) [f] = Ok [].
Proof.
  intros Hsb Hc Hf Hp Hin Hg Hla Hlo Hd Hnan f'.
  assert (PrimFloat.leb (py_round m d 1)
            (DataSource.radius_nm (FR24Source.base self)) = false) as Hle.
  { destruct (PrimFloat.leb _ _) eqn:E; [|reflexivity].
    apply FloatOrderFacts.leb_not_nan in E as [E _]. congruence. }
  assert (PrimFloat.ltb (DataSource.radius_nm (FR24Source.base self))
            (py_round m d 1) = false) as Hlt.
  { destruct (PrimFloat.ltb _ _) eqn:E; [|reflexivity].
    apply FloatOrderFacts.ltb_leb, FloatOrderFacts.leb_not_nan in E
      as [_ E]. congruence. }
  split; [|split; [exact Hle|]].
  - unfold FR24Source.fetch_flights. rewrite Hc.
    unfold FR24Source.try_fetch, _fetch_raw. rewrite Hf. cbn [obind].
    rewrite Hp. cbn [fst].
    unfold FR24Source.process in Hp.
    destruct (FR24Source.filter_loop m self raw []) as [fl|e] eqn:E;
      simpl in Hp; [|discriminate].
    injection Hp as <-.
    eapply Permutation_in; [symmetry; apply sort_by_distance_perm|].
    eapply FR24SourceFacts.fr24_filter_loop_appended;
      [exact E | exact Hin |].
    unfold FR24SourceFacts.fr24_visit. rewrite Hg, Hla, Hlo, Hd.
    cbn [obind andb distance_nm set_distance_nm].
    now rewrite Hlt, andb_false_r.
  - unfold DataSource.process. cbn [DataSource.filter_loop].
    rewrite Hg, Hla, Hlo, Hd.
    cbn [obind andb distance_nm set_distance_nm]. now rewrite Hle.
Qed.

(** The failing poll: observer at (51.5074, -0.1278), radius 10 nm, live
    mode, one airborne record with a NaN latitude. *)
Definition flight_nan_latitude : Flight :=
  sample_flight "NAN1" nan (-0.1278)%float 30000 400.

Lemma fr24_live_keeps_nan_distance_witness :
  In (set_distance_nm nan flight_nan_latitude)
     (FR24Source.fetch_flights sample_math 2000%float (sample_fr24 false)
        (upstream_serving [flight_nan_latitude])).1.1
  /\ PrimFloat.leb nan 10%float = false
  /\ DataSource.process sample_math sample_source [flight_nan_latitude]
     = Ok [].
Proof.
  apply (fr24_live_keeps_nan_distance sample_math 2000%float
           (sample_fr24 false) (upstream_serving [flight_nan_latitude])
           [flight_nan_latitude]
           [set_distance_nm nan flight_nan_latitude]
           flight_nan_latitude nan);
    try (vm_compute; reflexivity).
  left. reflexivity.
Defined.

(** ** Relations kept by a computation

    [stable R c]: from every state, [c] ends (normally or by raising) in a
    state related to the initial one.  For a reflexive and transitive [R]
    the property is closed under the combinators the engine is written
    with. *)

Section Stable.
Variable R : St -> St -> Prop.
Hypothesis R_refl : forall st, R st st.
Hypothesis R_trans : forall a b c, R a b -> R b c -> R a c.

Definition stable {A} (c : M A) : Prop := forall st, R st (c st).2.

Lemma stable_ret {A} (a : A) : stable (ret a).
Proof. intros st. apply R_refl. Qed.

Lemma stable_raise {A} (e : exn) : stable (@raise A e).
Proof. intros st. apply R_refl. Qed.

Lemma stable_lift {A} (o : outcome A) : stable (lift o).
Proof. intros st. apply R_refl. Qed.

Lemma stable_get_flight : stable get_flight.
Proof. intros st. apply R_refl. Qed.

Lemma stable_get_self : stable get_self.
Proof. intros st. apply R_refl. Qed.

Lemma stable_bind {A B} (c : M A) (k : A -> M B) :
  stable c -> (forall a, stable (k a)) -> stable (bind c k).
Proof.
  intros Hc Hk st. unfold bind. specialize (Hc st).
  destruct (c st) as [[a|e] st']; simpl in *; [|assumption].
  eapply R_trans; [exact Hc | apply Hk].
Qed.

Lemma stable_try_except {A} (body : M A) (handler : exn -> M A) :
  stable body -> (forall e, stable (handler e)) ->
  stable (try_except body handler).
Proof.
  intros Hb Hh st. unfold try_except. specialize (Hb st).
  destruct (body st) as [[a|e] st']; simpl in *; [assumption|].
  eapply R_trans; [exact Hb | apply Hh].
Qed.

Lemma stable_raise_for_status status : stable (raise_for_status status).
Proof.
  unfold raise_for_status.
  destruct (_ && _); [apply stable_raise | apply stable_ret].
Qed.

Lemma stable_r_json body : stable (r_json body).
Proof. destruct body; [apply stable_ret | apply stable_raise]. Qed.

End Stable.

(** Decomposes a goal [stable R c] along the structure of [c], leaving the
    statements, requests, clock readings and assignments to the caller's
    lemmas (hint database [stable]). *)
Create HintDb stable discriminated.

Ltac stable_step Hrefl Htrans :=
  match goal with
  | |- stable _ (bind _ _) => apply (stable_bind _ Htrans); [| intros ?]
  | |- stable _ (try_except _ _) =>
      apply (stable_try_except _ Htrans); [| intros ?]
  | |- stable _ (ret _) => apply (stable_ret _ Hrefl)
  | |- stable _ (raise _) => apply (stable_raise _ Hrefl)
  | |- stable _ (lift _) => apply (stable_lift _ Hrefl)
  | |- stable _ get_flight => apply (stable_get_flight _ Hrefl)
  | |- stable _ get_self => apply (stable_get_self _ Hrefl)
  | |- stable _ (raise_for_status _) =>
      apply (stable_raise_for_status _ Hrefl)
  | |- stable _ (r_json _) => apply (stable_r_json _ Hrefl)
  | |- stable _ (if ?b then _ else _) => destruct b
  | |- stable _ (match ?x with _ => _ end) => destruct x
  | |- stable _ _ => solve [auto with stable]
  end.

Ltac stable_auto Hrefl Htrans := repeat stable_step Hrefl Htrans.

(** ** Running the combinators *)

Section Run.
Variable env : Env.

Lemma bind_run {A B} (c : M A) (k : A -> M B) st :
  bind c k st = match c st with
                | (Ok a, st') => k a st'
                | (Raise e, st') => (Raise e, st')
                end.
Proof. reflexivity. Qed.

Lemma bind_ret {A B} (a : A) (k : A -> M B) st : bind (ret a) k st = k a st.
Proof. reflexivity. Qed.

Lemma bind_get_self {B} (k : Enricher.t -> M B) st :
  bind get_self k st = k (self st) st.
Proof. reflexivity. Qed.

Lemma bind_get_flight {B} (k : Flight -> M B) st :
  bind get_flight k st = k (flight st) st.
Proof. reflexivity. Qed.

Lemma bind_modify_self {B} g (k : unit -> M B) st :
  bind (modify_self g) k st
  = k tt (mkSt (flight st) (g (self st)) (world st)).
Proof. reflexivity. Qed.

Lemma bind_modify_flight {B} g (k : unit -> M B) st :
  bind (modify_flight g) k st
  = k tt (mkSt (g (flight st)) (self st) (world st)).
Proof. reflexivity. Qed.

Lemma bind_time_time {B} (k : float -> M B) st :
  bind (time_time env) k st
  = k (clock env (ticks (world st)))
      (mkSt (flight st) (self st)
         (mkWorld (requests (world st)) (db_stmts (world st))
            (S (ticks (world st))))).
Proof. reflexivity. Qed.

Lemma bind_session_get {B} q (k : Z * option Json -> M B) st :
  bind (session_get env q) k st
  = let st' := mkSt (flight st) (self st)
                 (mkWorld (requests (world st) ++ [q])
                    (db_stmts (world st)) (ticks (world st))) in
    match http env (length (requests (world st))) q with
    | NetworkError => (Raise ConnectionError, st')
    | Response status body => k (status, body) st'
    end.
Proof.
  unfold bind, session_get. cbv zeta.
  now destruct (http env _ q).
Qed.

(** A statement on an open engine whose turn is not faulty. *)
Lemma bind_db_execute {A B} (q : Db -> A * Db) (k : A -> M B) st db :
  Enricher._conn (self st) = Some db ->
  db_fault env (db_stmts (world st)) = false ->
  bind (db_execute env q) k st
  = k (q db).1
      (mkSt (flight st) (set_conn (Some (q db).2) (self st))
         (mkWorld (requests (world st)) (S (db_stmts (world st)))
            (ticks (world st)))).
Proof.
  intros Hc Hf. unfold bind, db_execute. rewrite Hc, Hf. cbv zeta.
  now destruct (q db).
Qed.

End Run.

(** ** Only empty fields are filled (C1) *)

Section Frame.

(** A field that holds something keeps it. *)
Definition keeps_filled (get : Flight -> string) (f f' : Flight) : Prop :=
  str_truthy (get f) = true -> get f' = get f.

(** [frame f f']: from [f] to [f'] the fields the engine never assigns are
    the same, and each of the seven it fills is the same if it was
    non-empty in [f]. *)
Definition frame (f f' : Flight) : Prop :=
  (callsign f' = callsign f /\ latitude f' = latitude f
   /\ longitude f' = longitude f /\ altitude f' = altitude f
   /\ ground_speed f' = ground_speed f /\ heading f' = heading f
   /\ vertical_speed f' = vertical_speed f
   /\ distance_nm f' = distance_nm f /\ squawk f' = squawk f
   /\ flight_id f' = flight_id f /\ on_ground f' = on_ground f
   /\ hex_code f' = hex_code f)
  /\ (keeps_filled airline f f' /\ keeps_filled aircraft_type f f'
      /\ keeps_filled registration f f' /\ keeps_filled origin_iata f f'
      /\ keeps_filled origin_name f f'
      /\ keeps_filled destination_iata f f'
      /\ keeps_filled destination_name f f').

Definition frame_st (st st' : St) : Prop := frame (flight st) (flight st').

Lemma frame_refl f : frame f f.
Proof. unfold frame, keeps_filled. tauto. Qed.

Lemma frame_trans f g h : frame f g -> frame g h -> frame f h.
Proof.
  unfold frame, keeps_filled.
  intros (E1 & K1) (E2 & K2).
  destruct E1 as (?&?&?&?&?&?&?&?&?&?&?&?),
    E2 as (?&?&?&?&?&?&?&?&?&?&?&?).
  destruct K1 as (?&?&?&?&?&?&?), K2 as (?&?&?&?&?&?&?).
  split; [repeat split; congruence|].
  repeat split; intros Hne;
    match goal with
    | H1 : str_truthy (?p f) = true -> ?p g = ?p f,
      H2 : str_truthy (?p g) = true -> ?p h = ?p g
      |- ?p h = ?p f =>
        specialize (H1 Hne); rewrite H1 in H2; specialize (H2 Hne);
        congruence
    end.
Qed.

Lemma frame_st_refl st : frame_st st st.
Proof. apply frame_refl. Qed.

Lemma frame_st_trans a b c : frame_st a b -> frame_st b c -> frame_st a c.
Proof. apply frame_trans. Qed.

Variable env : Env.

Lemma frame_time_time : stable frame_st (time_time env).
Proof. intros st. apply frame_refl. Qed.

Lemma frame_db_execute {A} (q : Db -> A * Db) :
  stable frame_st (db_execute env q).
Proof.
  intros st. unfold db_execute.
  destruct (Enricher._conn (self st)); [|apply frame_refl].
  destruct (db_fault env _); [apply frame_refl|].
  destruct (q d). apply frame_refl.
Qed.

Lemma frame_session_get q : stable frame_st (session_get env q).
Proof.
  intros st. unfold session_get.
  destruct (http env _ q); apply frame_refl.
Qed.

Lemma frame_modify_self g : stable frame_st (modify_self g).
Proof. intros st. apply frame_refl. Qed.

Lemma frame_modify_flight g :
  (forall f, frame f (g f)) -> stable frame_st (modify_flight g).
Proof. intros H st. apply H. Qed.

End Frame.

Section FrameEngine.
Variable env : Env.

Ltac frame_set :=
  intros; unfold frame, keeps_filled; simpl;
  repeat split; try reflexivity; intros; congruence.

Lemma frame_set_airline v f :
  str_truthy (airline f) = false -> frame f (set_airline v f).
Proof. frame_set. Qed.

Lemma frame_set_aircraft_type v f :
  str_truthy (aircraft_type f) = false -> frame f (set_aircraft_type v f).
Proof. frame_set. Qed.

Lemma frame_set_registration v f :
  str_truthy (registration f) = false -> frame f (set_registration v f).
Proof. frame_set. Qed.

Lemma frame_set_origin_iata v f :
  str_truthy (origin_iata f) = false -> frame f (set_origin_iata v f).
Proof. frame_set. Qed.

Lemma frame_set_origin_name v f :
  str_truthy (origin_name f) = false -> frame f (set_origin_name v f).
Proof. frame_set. Qed.

Lemma frame_set_destination_iata v f :
  str_truthy (destination_iata f) = false ->
  frame f (set_destination_iata v f).
Proof. frame_set. Qed.

Lemma frame_set_destination_name v f :
  str_truthy (destination_name f) = false ->
  frame f (set_destination_name v f).
Proof. frame_set. Qed.

Lemma frame_fill get set v :
  (forall f, str_truthy (get f) = false -> frame f (set v f)) ->
  stable frame_st (fill get set v).
Proof.
  intros H. apply frame_modify_flight. intros f.
  destruct (str_truthy (get f)) eqn:E; simpl; [apply frame_refl|].
  destruct (str_truthy v); [now apply H | apply frame_refl].
Qed.

Lemma frame_enrich_from_callsign : stable frame_st _enrich_from_callsign.
Proof.
  apply frame_modify_flight. intros f.
  destruct (str_truthy (airline f)) eqn:E; [apply frame_refl|].
  cbv zeta. repeat case_match; try apply frame_refl.
  now apply frame_set_airline.
Qed.

Hint Resolve frame_time_time frame_db_execute frame_session_get
  frame_modify_self frame_enrich_from_callsign : stable.
Hint Extern 1 (stable frame_st (fill _ _ _)) =>
  apply frame_fill;
  auto using frame_set_airline, frame_set_aircraft_type,
    frame_set_registration, frame_set_origin_iata, frame_set_origin_name,
    frame_set_destination_iata, frame_set_destination_name : stable.
Hint Extern 2 (stable frame_st _) => apply frame_db_execute : stable.

Ltac frame_auto := stable_auto frame_st_refl frame_st_trans.

Lemma frame_apply_route row : stable frame_st (_apply_route row).
Proof. unfold _apply_route. frame_auto. Qed.

Lemma frame_fill_from_aircraft row :
  stable frame_st (fill_from_aircraft row).
Proof.
  unfold fill_from_aircraft. frame_auto.
  apply frame_modify_flight. intros f.
  destruct (str_truthy (airline f)) eqn:E; simpl;
    [apply frame_refl | now apply frame_set_airline].
Qed.

Lemma frame_add_route_miss cs : stable frame_st (add_route_miss cs).
Proof. apply frame_modify_self. Qed.

Lemma frame_count_api_call : stable frame_st count_api_call.
Proof. apply frame_modify_self. Qed.

Hint Resolve frame_apply_route frame_fill_from_aircraft
  frame_add_route_miss frame_count_api_call : stable.

Lemma frame_cache_route cs data : stable frame_st (_cache_route env cs data).
Proof. unfold _cache_route. frame_auto. Qed.

Lemma frame_cache_aircraft hex reg ty op opi :
  stable frame_st (_cache_aircraft env hex reg ty op opi).
Proof. unfold _cache_aircraft. frame_auto. Qed.

Lemma frame_lookup_airport_name iata :
  stable frame_st (_lookup_airport_name env iata).
Proof. unfold _lookup_airport_name. frame_auto. Qed.

Hint Resolve frame_cache_route frame_cache_aircraft
  frame_lookup_airport_name : stable.

Lemma frame_lookup_route_airlabs cs :
  stable frame_st (_lookup_route_airlabs env cs).
Proof. unfold _lookup_route_airlabs. frame_auto. Qed.

Hint Resolve frame_lookup_route_airlabs : stable.

Lemma frame_enrich_route cs : stable frame_st (_enrich_route env cs).
Proof. unfold _enrich_route. frame_auto. Qed.

Hint Resolve frame_enrich_route : stable.

Lemma frame_enrich : stable frame_st (enrich env).
Proof. unfold enrich. frame_auto. Qed.

End FrameEngine.

(** ** Sample data for the engine *)

(** No network, a store that works, a clock that starts at 1.7e9 s. *)
Definition offline_env : Env :=
  mkEnv (fun _ _ => NetworkError) (fun _ => false)
    (fun n => (1700000000 + PrimFloat.of_uint63 (Uint63.of_nat n))%float).

(** A Ryanair 737 in the store, with an operator name that differs from
    the one the provider reports. *)
Definition sample_db : Db :=
  mkDb {[ "4ca1fa" := Aircraft.mk "EI-DCP" "B738" "BOEING 737-8AS"
            "DIFFERENT" "" "" "" "opensky" 1600000000%float ]}
       ∅ ∅.

Definition ryanair_flight : Flight :=
  mkFlight "RYR4421" "RYANAIR" "" "" "" "" "" ""
    51.55%float (-0.08)%float 24500 412 310 1200 3.8%float "7402" "" false
    "4CA1FA".

Definition sample_state (f : Flight) (db : Db) (key : string) (max : Z)
  : St :=
  mkSt f (Enricher.init db key max) new_world.

(** C1.  [enrich] leaves every field it does not fill as it is, and a field
    it fills (airline, aircraft type, registration, origin and destination
    code and name) keeps its value when it was not empty before the call,
    whatever the store holds, whatever the network answers and whether the
    call returns or raises.  In particular an airline [RYANAIR] is still
    [RYANAIR] after the call. *)
Theorem enrich_fills_only_empty_fields (env : Env) (st : St) :
  frame (flight st) (flight (enrich env st).2)
  /\ (airline (flight st) = "RYANAIR" ->
      airline (flight (enrich env st).2) = "RYANAIR").
Proof.
  pose proof (frame_enrich env st) as H. split; [exact H|].
  intros E. destruct H as (_ & Ha & _).
  rewrite <- E. apply Ha. now rewrite E.
Qed.

(** The record of the design document: airline [RYANAIR], and a metadata
    row for its hex address with operator [DIFFERENT].  The row is used
    (it gives the registration), the airline stays. *)
Lemma enrich_fills_only_empty_fields_witness :
  airline (flight (enrich offline_env
             (sample_state ryanair_flight sample_db "" 200)).2) = "RYANAIR"
  /\ registration (flight (enrich offline_env
             (sample_state ryanair_flight sample_db "" 200)).2) = "EI-DCP".
Proof.
  split.
  - apply (proj2 (enrich_fills_only_empty_fields offline_env
                    (sample_state ryanair_flight sample_db "" 200))).
    reflexivity.
  - vm_compute. reflexivity.
Defined.

(** ** The session budget (C7) *)

Section Budget.
Variable env : Env.

Definition spent (st : St) : Prop := budget_spent (self st) = true.

(** [quiet st st']: if the budget is spent in [st], then no request was
    sent between [st] and [st'], and the budget is spent in [st']. *)
Definition quiet (st st' : St) : Prop :=
  spent st -> requests (world st') = requests (world st) /\ spent st'.

Lemma quiet_refl st : quiet st st.
Proof. now intros H. Qed.

Lemma quiet_trans a b c : quiet a b -> quiet b c -> quiet a c.
Proof.
  intros Hab Hbc Ha. destruct (Hab Ha) as [E1 Hb].
  destruct (Hbc Hb) as [E2 Hc]. split; [congruence | assumption].
Qed.

Lemma quiet_time_time : stable quiet (time_time env).
Proof. intros st H. now split. Qed.

Lemma quiet_db_execute {A} (q : Db -> A * Db) :
  stable quiet (db_execute env q).
Proof.
  intros st H. unfold db_execute.
  destruct (Enricher._conn (self st)); [|now split].
  destruct (db_fault env _); [now split|].
  destruct (q d). now split.
Qed.

Lemma quiet_modify_flight g : stable quiet (modify_flight g).
Proof. intros st H. now split. Qed.

Hint Resolve quiet_time_time quiet_modify_flight : stable.
Hint Extern 2 (stable quiet _) => apply quiet_db_execute : stable.
Hint Extern 1 (stable quiet (fill _ _ _)) =>
  apply quiet_modify_flight : stable.
Hint Extern 1 (stable quiet _enrich_from_callsign) =>
  apply quiet_modify_flight : stable.

Ltac quiet_auto := stable_auto quiet_refl quiet_trans.

Lemma quiet_apply_route row : stable quiet (_apply_route row).
Proof. unfold _apply_route. quiet_auto. Qed.

Lemma quiet_fill_from_aircraft row : stable quiet (fill_from_aircraft row).
Proof. unfold fill_from_aircraft. quiet_auto. Qed.

Hint Resolve quiet_apply_route quiet_fill_from_aircraft : stable.

(** The remote lookup is behind the budget test. *)
Lemma quiet_enrich_route cs : stable quiet (_enrich_route env cs).
Proof.
  unfold _enrich_route.
  apply (stable_bind _ quiet_trans); [auto with stable | intros now].
  apply (stable_bind _ quiet_trans); [auto with stable | intros [r|]].
  { auto with stable. }
  intros st. unfold bind, get_self. simpl.
  destruct (negb _); [apply quiet_refl|].
  destruct (bool_decide _); [apply quiet_refl|].
  destruct (budget_spent (self st)) eqn:E; [apply quiet_refl|].
  intros H. unfold spent in H. congruence.
Qed.

Hint Resolve quiet_enrich_route : stable.

Lemma quiet_enrich : stable quiet (enrich env).
Proof. unfold enrich. quiet_auto. Qed.

Lemma quiet_enrich_each flights : forall s w,
  budget_spent s = true ->
  requests (enrich_each env flights s w).2 = requests w
  /\ budget_spent (enrich_each env flights s w).1.2 = true.
Proof.
  induction flights as [|f flights IH]; intros s w H; [now split|].
  simpl. destruct (quiet_enrich (mkSt f s w) H) as [E Hs].
  destruct (IH _ (world (enrich env (mkSt f s w)).2) Hs) as [E' Hs'].
  simpl in E. split; [congruence | assumption].
Qed.

(** An HTTP 429 to the route query leaves the budget spent. *)
Lemma rate_limit_spends_budget cs st body :
  http env (length (requests (world st)))
    (RouteQuery (Enricher.airlabs_key (self st)) cs) = Response 429 body ->
  spent (_lookup_route_airlabs env cs st).2.
Proof.
  intros H. unfold _lookup_route_airlabs, try_except, count_api_call.
  rewrite bind_modify_self, bind_get_self, bind_session_get.
  cbn [self world requests flight Enricher.airlabs_key set_api_calls].
  rewrite H. cbn [fst].
  change (429 =? 401) with false. change (429 =? 429) with true.
  cbv iota. unfold modify_self, spent, budget_spent.
  cbn [snd self set_max_api_calls Enricher._max_api_calls].
  apply Z.leb_le. lia.
Qed.

End Budget.

(** A network that answers every route query with STN to DUB. *)
Definition stn_dub : Json :=
  JObj [("response",
         JArr [JObj [("dep_iata", JStr "STN"); ("arr_iata", JStr "DUB")]])].

Definition answering_env : Env :=
  mkEnv (fun _ _ => Response 200 (Some stn_dub)) (fun _ => false)
    (fun n => (1700000000 + PrimFloat.of_uint63 (Uint63.of_nat n))%float).

(** A store with a route for EZY6012 cached ten seconds before the clock
    starts. *)
Definition route_db : Db :=
  mkDb ∅
    {[ "EZY6012" := Routes.mk "LGW" "EGKK" "LONDON GATWICK" "EDI" "EGPH"
         "EDINBURGH" "" "" "" "airlabs" 1699999990%float ]}
    ∅.

(** An engine with a key whose one allowed call has been made. *)
Definition spent_engine : Enricher.t :=
  Enricher.mk "KEY" (Some route_db) ∅ ∅ 1 1.

Definition bare_flight (cs : string) : Flight :=
  mkFlight cs "" "" "" "" "" "" "" 51.5%float (-0.1)%float 30000 400 0 0
    1%float "" "" false "".

(** ** Exceptions that reach the caller of [enrich] (C3) *)

Section Landing.
Variable env : Env.

(** [lands c st Q]: run from [st], [c] returns (does not raise) and ends in
    a state satisfying [Q]. *)
Definition lands {A} (c : M A) (st : St) (Q : St -> Prop) : Prop :=
  (exists a, (c st).1 = Ok a) /\ Q (c st).2.

Lemma lands_ret {A} (a : A) st (Q : St -> Prop) : Q st -> lands (ret a) st Q.
Proof. intros H. split; [now exists a | exact H]. Qed.

Lemma lands_bind {A B} (c : M A) (k : A -> M B) st (Q R : St -> Prop) :
  lands c st Q ->
  (forall a st', Q st' -> lands (k a) st' R) ->
  lands (bind c k) st R.
Proof.
  intros [[a Ha] HQ] Hk. unfold lands, bind.
  destruct (c st) as [[a'|e] st']; simpl in *; [|discriminate].
  exact (Hk a' st' HQ).
Qed.

Lemma lands_weaken {A} (c : M A) st (Q R : St -> Prop) :
  lands c st Q -> (forall st', Q st' -> R st') -> lands c st R.
Proof. intros [Ha HQ] H. split; [exact Ha | now apply H]. Qed.



Lemma lands_time_time st (Q : St -> Prop) :
  Q (mkSt (flight st) (self st)
       (mkWorld (requests (world st)) (db_stmts (world st))
          (S (ticks (world st))))) ->
  lands (time_time env) st Q.
Proof. intros H. split; [eexists; reflexivity | exact H]. Qed.

Lemma lands_db_execute {A} (q : Db -> A * Db) st db (Q : St -> Prop) :
  Enricher._conn (self st) = Some db ->
  db_fault env (db_stmts (world st)) = false ->
  Q (mkSt (flight st) (set_conn (Some (q db).2) (self st))
       (mkWorld (requests (world st)) (S (db_stmts (world st)))
          (ticks (world st)))) ->
  lands (db_execute env q) st Q.
Proof.
  intros Hc Hf HQ. unfold lands, db_execute. rewrite Hc, Hf. cbv zeta.
  destruct (q db) as [a db']. split; [now exists a | exact HQ].
Qed.

(** Whatever the body does, a [try] whose handler returns returns. *)
Lemma lands_try_except {A} (body : M A) (handler : exn -> M A) st :
  (forall e st', lands (handler e) st' (fun _ => True)) ->
  lands (try_except body handler) st (fun _ => True).
Proof.
  intros H. unfold lands, try_except.
  destruct (body st) as [[a|e] st']; [split; [now exists a | exact I]|].
  apply H.
Qed.



Lemma lands_get_self {B} (k : Enricher.t -> M B) st (Q : St -> Prop) :
  lands (k (self st)) st Q -> lands (bind get_self k) st Q.
Proof. exact (fun H => H). Qed.

Lemma lands_get_flight {B} (k : Flight -> M B) st (Q : St -> Prop) :
  lands (k (flight st)) st Q -> lands (bind get_flight k) st Q.
Proof. exact (fun H => H). Qed.


End Landing.



(** ** Writes to the aircraft table (C2) *)

Section AircraftWrites.
Variable env : Env.

(** From [r] to [r'] no field that held something is empty. *)
Definition never_emptied (r r' : Aircraft.row) : Prop :=
  (str_truthy (Aircraft.registration r) = true ->
   str_truthy (Aircraft.registration r') = true)
  /\ (str_truthy (Aircraft.typecode r) = true ->
      str_truthy (Aircraft.typecode r') = true)
  /\ (str_truthy (Aircraft.model r) = true ->
      str_truthy (Aircraft.model r') = true)
  /\ (str_truthy (Aircraft.operator r) = true ->
      str_truthy (Aircraft.operator r') = true)
  /\ (str_truthy (Aircraft.operator_icao r) = true ->
      str_truthy (Aircraft.operator_icao r') = true)
  /\ (str_truthy (Aircraft.operator_iata r) = true ->
      str_truthy (Aircraft.operator_iata r') = true)
  /\ (str_truthy (Aircraft.owner r) = true ->
      str_truthy (Aircraft.owner r') = true)
  /\ (str_truthy (Aircraft.source r) = true ->
      str_truthy (Aircraft.source r') = true).

(** Every row of [t] is still in [t'], no field of it emptied. *)
Definition table_never_emptied (t t' : gmap string Aircraft.row) : Prop :=
  forall hex r, t !! hex = Some r ->
    exists r', t' !! hex = Some r' /\ never_emptied r r'.

(** The aircraft table of the engine ([None] when it is closed). *)
Definition aircraft_of (st : St) : option (gmap string Aircraft.row) :=
  aircraft <$> Enricher._conn (self st).

Lemma never_emptied_refl r : never_emptied r r.
Proof. unfold never_emptied. tauto. Qed.

Lemma table_never_emptied_refl t : table_never_emptied t t.
Proof. intros hex r H. exists r. split; [exact H | apply never_emptied_refl]. Qed.

Lemma never_emptied_merge ex reg ty op opi now :
  never_emptied ex (merge_aircraft ex reg ty op opi now).
Proof.
  unfold never_emptied, merge_aircraft. simpl.
  repeat split; intros H; try exact H; try reflexivity;
    rewrite H; simpl; now rewrite ?andb_false_r.
Qed.

Lemma table_never_emptied_insert t hex r' :
  (forall r, t !! hex = Some r -> never_emptied r r') ->
  table_never_emptied t (<[hex := r']> t).
Proof.
  intros H k r Hk. destruct (decide (hex = k)) as [<-|Hne].
  - exists r'. rewrite lookup_insert_eq. split; [reflexivity | now apply H].
  - exists r. rewrite lookup_insert_ne by assumption.
    split; [exact Hk | apply never_emptied_refl].
Qed.

(** What one statement does to an open engine. *)
Lemma db_execute_cases {A} (q : Db -> A * Db) st db :
  Enricher._conn (self st) = Some db ->
  let w' := mkWorld (requests (world st)) (S (db_stmts (world st)))
              (ticks (world st)) in
  db_execute env q st = (Raise DatabaseError, mkSt (flight st) (self st) w')
  \/ db_execute env q st
     = (Ok (q db).1,
        mkSt (flight st) (set_conn (Some (q db).2) (self st)) w').
Proof.
  intros Hc w'. unfold db_execute. rewrite Hc. cbv zeta.
  destruct (db_fault env _); [now left|]. right. now destruct (q db).
Qed.

(** [_cache_aircraft] never empties a field of a row of the table. *)
Lemma cache_aircraft_never_empties hex reg ty op opi st db :
  Enricher._conn (self st) = Some db ->
  exists db',
    Enricher._conn (self (_cache_aircraft env hex reg ty op opi st).2)
      = Some db'
    /\ table_never_emptied (aircraft db) (aircraft db').
Proof.
  intros Hc. unfold _cache_aircraft.
  destruct (negb (str_truthy hex)).
  { exists db. split; [exact Hc | apply table_never_emptied_refl]. }
  unfold select_aircraft. rewrite bind_run.
  destruct (db_execute_cases (fun db => (aircraft db !! hex, db)) st db Hc)
    as [-> | ->]; cbn [fst snd].
  { exists db. split; [exact Hc | apply table_never_emptied_refl]. }
  set (st1 := mkSt _ _ _).
  assert (Enricher._conn (self st1) = Some db) as Hc1 by reflexivity.
  assert (forall r st2,
            Enricher._conn (self st2) = Some db ->
            (forall r0, aircraft db !! hex = Some r0 -> never_emptied r0 r) ->
            exists db',
              Enricher._conn
                (self ((bind (write_aircraft env hex r)
                          (fun _ => db_commit env)) st2).2) = Some db'
              /\ table_never_emptied (aircraft db) (aircraft db')) as Hw.
  { intros r st2 Hc2 Hr. unfold write_aircraft. rewrite bind_run.
    destruct (db_execute_cases
                (fun db => (tt, mkDb (<[hex := r]> (aircraft db))
                                  (routes db) (airports db))) st2 db Hc2)
      as [-> | ->]; cbn [fst snd].
    { exists db. split; [exact Hc2 | apply table_never_emptied_refl]. }
    set (st3 := mkSt _ _ _).
    assert (Enricher._conn (self st3)
            = Some (mkDb (<[hex := r]> (aircraft db)) (routes db)
                      (airports db))) as Hc3 by reflexivity.
    unfold db_commit.
    destruct (db_execute_cases (fun db => (tt, db)) st3 _ Hc3)
      as [-> | ->]; cbn [fst snd];
      (eexists; split; [reflexivity|]);
      now apply table_never_emptied_insert. }
  destruct (aircraft db !! hex) as [ex|] eqn:Hex.
  - destruct (_ || _).
    + rewrite bind_time_time. apply Hw; [reflexivity|].
      intros r0 [= <-]. apply never_emptied_merge.
    + exists db. split; [exact Hc1 | apply table_never_emptied_refl].
  - rewrite bind_time_time. apply Hw; [reflexivity|].
    intros r0 [=].
Qed.

End AircraftWrites.

(** ** Bulk import (C2) *)

Section Seed.
Variable env : Env.
Hypothesis no_fault : forall n, db_fault env n = false.

(** [INSERT OR REPLACE] of a list of rows, in order. *)
Definition upsert_all (t : gmap string Aircraft.row)
    (l : list (string * Aircraft.row)) : gmap string Aircraft.row :=
  foldl (fun t kr => <[kr.1 := kr.2]> t) t l.

Lemma upsert_all_app t l1 l2 :
  upsert_all t (l1 ++ l2) = upsert_all (upsert_all t l1) l2.
Proof. apply foldl_app. Qed.

Lemma upsert_all_untouched l : forall t hex,
  hex ∉ l.*1 -> upsert_all t l !! hex = t !! hex.
Proof.
  induction l as [|[k v] l IH]; intros t hex Hn; [reflexivity|].
  simpl in *. apply not_elem_of_cons in Hn as [Hne Hn].
  rewrite IH by assumption. now apply lookup_insert_ne.
Qed.

Lemma upsert_all_last t l1 hex r l2 :
  hex ∉ l2.*1 -> upsert_all t (l1 ++ (hex, r) :: l2) !! hex = Some r.
Proof.
  intros Hn. rewrite upsert_all_app. simpl.
  rewrite upsert_all_untouched by assumption. apply lookup_insert_eq.
Qed.

(** The loop, on an open store that does not fail: it returns, and the
    table with the pending batch written is the table it started from with
    the batch and the rows of the file written, in order. *)
Lemma seed_loop_upserts min_len source header rows : forall batch st db,
  Enricher._conn (self st) = Some db ->
  exists batch' st' db',
    seed_loop env min_len source header rows batch st = (Ok batch', st')
    /\ Enricher._conn (self st') = Some db'
    /\ upsert_all (aircraft db') batch'
       = upsert_all (aircraft db)
           (batch ++ parsed_rows env min_len source header rows
                       (ticks (world st))).
Proof.
  induction rows as [|row rows IH]; intros batch st db Hc.
  - exists batch, st, db. simpl. now rewrite app_nil_r.
  - cbn [seed_loop parsed_rows]. cbv zeta.
    destruct (length row <? min_len)%nat; [now apply IH|].
    destruct (negb (str_truthy _)); [now apply IH|].
    rewrite bind_time_time. cbv beta zeta.
    set (entry := (_, Aircraft.mk _ _ _ _ _ _ _ _ _)).
    set (st1 := mkSt _ _ _).
    assert (Enricher._conn (self st1) = Some db) as Hc1 by exact Hc.
    replace (batch ++ entry :: parsed_rows env min_len source header rows
                                 (S (ticks (world st))))
      with ((batch ++ [entry])
              ++ parsed_rows env min_len source header rows
                   (ticks (world st1)))
      by (now rewrite <- app_assoc).
    destruct (5000 <=? length (batch ++ [entry]))%nat.
    + unfold replace_aircraft_many.
      rewrite (bind_db_execute env _ _ st1 db Hc1 (no_fault _)).
      cbn [fst snd].
      set (st2 := mkSt _ _ _).
      destruct (IH [] st2 _ eq_refl) as (b' & st' & db' & E & Hc' & Hu).
      exists b', st', db'. split; [exact E|]. split; [exact Hc'|].
      rewrite Hu. cbn [aircraft app]. subst st2. cbn [world ticks].
      symmetry. apply upsert_all_app.
    + apply (IH _ st1 db Hc1).
Qed.

(** The import on an open store that does not fail. *)
Lemma import_csv_upserts min_len source header rows st db :
  Enricher._conn (self st) = Some db ->
  exists st' db',
    import_csv env min_len source (header :: rows) st = (Ok tt, st')
    /\ Enricher._conn (self st') = Some db'
    /\ aircraft db'
       = upsert_all (aircraft db)
           (parsed_rows env min_len source
              (map (fun h => py_strip_quotes (py_strip h)) header) rows
              (ticks (world st))).
Proof.
  intros Hc. unfold import_csv. rewrite bind_run.
  destruct (seed_loop_upserts min_len source
              (map (fun h => py_strip_quotes (py_strip h)) header) rows
              [] st db Hc) as (b' & st1 & db1 & -> & Hc1 & Hu).
  simpl in Hu. rewrite <- Hu. clear Hu.
  destruct b' as [|e b'].
  - rewrite bind_ret. unfold db_commit.
    pose proof (bind_db_execute env (fun db => (tt, db)) ret st1 db1 Hc1
                  (no_fault _)) as E.
    unfold bind in E at 1. unfold db_commit, bind.
    destruct (db_execute env (fun db => (tt, db)) st1) as [[[]|?] ?];
      [|discriminate].
    injection E as ->. eexists _, db1. repeat split.
  - unfold replace_aircraft_many.
    rewrite (bind_db_execute env _ _ st1 db1 Hc1 (no_fault _)).
    cbn [fst snd]. set (st2 := mkSt _ _ _).
    pose proof (bind_db_execute env (fun db => (tt, db)) ret st2 _ eq_refl
                  (no_fault _)) as E.
    unfold db_commit. unfold bind in E.
    destruct (db_execute env (fun db => (tt, db)) st2) as [[[]|?] ?];
      [|discriminate].
    injection E as ->. eexists _, _. repeat split.
Qed.

(** The OpenSky seed, when the download succeeds, is the same import. *)
Lemma seed_from_opensky_import csv st :
  (import_csv env 3 "opensky" csv st).1 = Ok tt ->
  _seed_from_opensky env (Ok csv) st = import_csv env 3 "opensky" csv st.
Proof.
  intros H. unfold _seed_from_opensky, try_except, bind, lift.
  destruct (import_csv env 3 "opensky" csv st) as [[[]|e] st'];
    [reflexivity | discriminate].
Qed.

End Seed.

(** A registry export with two columns, and one row for the aircraft of
    [sample_db] whose registration cell is empty. *)
Definition sample_csv : list (list string) :=
  [ ["icao24"; "registration"]; ["4CA1FA"; ""] ].

(** C2, as the code has it.  The merge of an API result
    ([_cache_aircraft]) keeps every row of the table and never turns a
    non-empty field of a row into an empty one.  The bulk imports
    ([seed_from_file], and [_seed_from_opensky] once the snapshot is
    downloaded; on a store that works) are an [INSERT OR REPLACE] of the
    rows of the file in file order: a row whose hex address is not in the
    file is untouched, and a hex address in the file ends with the row the
    file gives last for it, every column replaced (an absent or empty
    column by the empty string). *)
Theorem aircraft_writes (env : Env) :
  (forall hex reg ty op opi st db,
     Enricher._conn (self st) = Some db ->
     exists db',
       Enricher._conn (self (_cache_aircraft env hex reg ty op opi st).2)
         = Some db'
       /\ table_never_emptied (aircraft db) (aircraft db'))
  /\ ((forall n, db_fault env n = false) ->
      forall header rows st db,
        Enricher._conn (self st) = Some db ->
        let tidy := map (fun h => py_strip_quotes (py_strip h)) header in
        (let file :=
           parsed_rows env 0 "csv_import" tidy rows (ticks (world st)) in
         exists st' db',
           seed_from_file env (header :: rows) st = (Ok tt, st')
           /\ Enricher._conn (self st') = Some db'
           /\ aircraft db' = upsert_all (aircraft db) file
           /\ (forall hex, hex ∉ file.*1 ->
                 aircraft db' !! hex = aircraft db !! hex)
           /\ (forall l1 hex r l2,
                 file = l1 ++ (hex, r) :: l2 -> hex ∉ l2.*1 ->
                 aircraft db' !! hex = Some r))
        /\ (let file :=
              parsed_rows env 3 "opensky" tidy rows (ticks (world st)) in
            exists st' db',
              _seed_from_opensky env (Ok (header :: rows)) st = (Ok tt, st')
              /\ Enricher._conn (self st') = Some db'
              /\ aircraft db' = upsert_all (aircraft db) file
              /\ (forall hex, hex ∉ file.*1 ->
                    aircraft db' !! hex = aircraft db !! hex)
              /\ (forall l1 hex r l2,
                    file = l1 ++ (hex, r) :: l2 -> hex ∉ l2.*1 ->
                    aircraft db' !! hex = Some r))).
Proof.
  split.
  - intros hex reg ty op opi st db Hc.
    now apply cache_aircraft_never_empties.
  - intros Hnf header rows st db Hc tidy. split; intros file.
    + destruct (import_csv_upserts env Hnf 0 "csv_import" header rows st db
                  Hc) as (st' & db' & E & Hc' & Hu).
      exists st', db'. fold tidy in Hu. fold file in Hu.
      split; [exact E|]. split; [exact Hc'|]. split; [exact Hu|]. split.
      * intros hex Hn. rewrite Hu. now apply upsert_all_untouched.
      * intros l1 hex r l2 Hf Hn. rewrite Hu, Hf.
        now apply upsert_all_last.
    + destruct (import_csv_upserts env Hnf 3 "opensky" header rows st db
                  Hc) as (st' & db' & E & Hc' & Hu).
      exists st', db'. fold tidy in Hu. fold file in Hu.
      split; [rewrite seed_from_opensky_import; [exact E | now rewrite E]|].
      split; [exact Hc'|]. split; [exact Hu|]. split.
      * intros hex Hn. rewrite Hu. now apply upsert_all_untouched.
      * intros l1 hex r l2 Hf Hn. rewrite Hu, Hf.
        now apply upsert_all_last.
Qed.

(** The merge of an API result for the aircraft of [sample_db] that names
    another operator leaves the operator of the row; the import of
    [sample_csv] returns. *)
Lemma aircraft_writes_witness :
  (exists db',
     Enricher._conn
       (self (_cache_aircraft offline_env "4ca1fa" "" "B738" "RYANAIR" "RYR"
                (sample_state default_flight sample_db "" 200)).2)
       = Some db'
     /\ table_never_emptied (aircraft sample_db) (aircraft db'))
  /\ (seed_from_file offline_env sample_csv
        (sample_state default_flight sample_db "" 200)).1 = Ok tt.
Proof.
  split.
  - apply (proj1 (aircraft_writes offline_env)). reflexivity.
  - destruct (proj1 (proj2 (aircraft_writes offline_env) (fun _ => eq_refl)
                ["icao24"; "registration"] [["4CA1FA"; ""]]
                (sample_state default_flight sample_db "" 200) sample_db
                eq_refl)) as (st' & db' & E & _).
    unfold sample_csv. now rewrite E.
Defined.

(** The import of [sample_csv] empties the registration [EI-DCP] of the
    aircraft of [sample_db]: the import does not keep the invariant. *)
Lemma seed_from_file_empties_field :
  Aircraft.registration <$> (aircraft sample_db !! "4ca1fa") = Some "EI-DCP"
  /\ Aircraft.registration <$>
       (aircraft_of (seed_from_file offline_env sample_csv
                       (sample_state default_flight sample_db "" 200)).2
          ≫= (.!! "4ca1fa")) = Some ""
  /\ ~ (forall env csv st db db',
          Enricher._conn (self st) = Some db ->
          Enricher._conn (self (seed_from_file env csv st).2) = Some db' ->
          table_never_emptied (aircraft db) (aircraft db')).
Proof.
  assert (Aircraft.registration <$>
       (aircraft_of (seed_from_file offline_env sample_csv
                       (sample_state default_flight sample_db "" 200)).2
          ≫= (.!! "4ca1fa")) = Some "") as H by (vm_compute; reflexivity).
  split; [vm_compute; reflexivity|]. split; [exact H|].
  intros Hall.
  destruct (Enricher._conn (self (seed_from_file offline_env sample_csv
              (sample_state default_flight sample_db "" 200)).2))
    as [db'|] eqn:Hc'.
  2:{ unfold aircraft_of in H. rewrite Hc' in H. discriminate. }
  specialize (Hall offline_env sample_csv
                (sample_state default_flight sample_db "" 200)
                sample_db db' eq_refl Hc').
  unfold aircraft_of in H. rewrite Hc' in H. simpl in H.
  destruct (Hall "4ca1fa"
              (Aircraft.mk "EI-DCP" "B738" "BOEING 737-8AS" "DIFFERENT"
                 "" "" "" "opensky" 1600000000%float))
    as (r' & Hr' & Hne & _); [vm_compute; reflexivity|].
  rewrite Hr' in H. simpl in H. injection H as H.
  specialize (Hne eq_refl). rewrite H in Hne. discriminate.
Qed.

(** * More of the provider wrapper *)

(** A run of polls: [fetch_flights] called at each of [times] in turn, the
    provider and the upstream going from one call to the next; the lists
    returned, in order.  The caller only reads the lists: the list
    returned is the object the provider keeps as [_cache], and a caller
    that reorders it in place (as [_poll_flights] of [main.py] does when
    [sort_by] is not the distance) is outside this run. *)
Fixpoint poll_all (m : Math) (times : list float) (self : DataSource.t)
    (up : Upstream) : list (list Flight) :=
  match times with
  | [] => []
  | now :: times' =>
      let r := DataSource.fetch_flights m now self up in
      r.1.1 :: poll_all m times' r.1.2 r.2
  end.

Section WrapperRuns.
Import FloatOrder FloatOrderFacts.
Variable m : Math.

Lemma poll_all_within_radius_sorted times : forall self up,
  Forall (within_radius self) (DataSource._cache self) ->
  StronglySorted dist_le (DataSource._cache self) ->
  Forall (fun out => Forall (within_radius self) out
                     /\ StronglySorted dist_le out)
    (poll_all m times self up).
Proof.
  induction times as [|now times IH]; intros self up Hw Hs; [constructor|].
  cbn [poll_all].
  destruct (wrapper_within_radius_sorted m now self up Hw Hs)
    as (Hw1 & Hs1 & Hc & Hr).
  constructor; [now split|].
  assert (forall g, within_radius
            (DataSource.fetch_flights m now self up).1.2 g
          <-> within_radius self g) as Hiff.
  { intros g. unfold within_radius. now rewrite Hr. }
  eapply Forall_impl.
  - apply IH; rewrite Hc; [|exact Hs1].
    eapply Forall_impl; [exact Hw1|]. intros g. apply Hiff.
  - intros out [Ho Hso]. split; [|exact Hso].
    eapply Forall_impl; [exact Ho|]. intros g. apply Hiff.
Qed.

(** X1.  From a new provider (the wrapper of [DataSource], whatever the
    upstream serves or raises and whenever the polls are made), and with a
    caller that only reads the lists it gets, every list [fetch_flights]
    returns holds only records whose distance is at most the radius and is
    sorted by ascending distance. *)
Theorem wrapper_runs_within_radius_sorted lat lon radius up times :
  Forall (fun out =>
            Forall (fun g => PrimFloat.leb (distance_nm g) radius = true) out
            /\ StronglySorted dist_le out)
    (poll_all m times (DataSource.init lat lon radius) up).
Proof.
  apply (poll_all_within_radius_sorted times (DataSource.init lat lon radius));
    constructor.
Qed.

(** With an empty cache every call makes a raw fetch. *)
Lemma fetch_flights_empty_polls now self up :
  DataSource._cache self = [] ->
  polls (DataSource.fetch_flights m now self up).2 = S (polls up).
Proof.
  intros Hc. unfold DataSource.fetch_flights, DataSource.cache_fresh.
  rewrite Hc, bool_decide_eq_true_2 by reflexivity.
  rewrite andb_false_r.
  unfold DataSource.try_fetch, _fetch_raw.
  now destruct (let! raw := feed up (polls up) in DataSource.process m self raw).
Qed.

(** X5.  An empty list is never served from the cache: when a call
    returns the empty list, the next call makes a raw fetch, however soon
    it comes. *)
Theorem empty_result_is_fetched_again t1 t2 self up :
  let r1 := DataSource.fetch_flights m t1 self up in
  r1.1.1 = [] ->
  polls (DataSource.fetch_flights m t2 r1.1.2 r1.2).2 = S (polls r1.2).
Proof.
  intros r1 He. apply fetch_flights_empty_polls.
  subst r1. now rewrite <- fetch_flights_returns_cache.
Qed.

End WrapperRuns.

(** Two polls one second apart on an upstream with nothing in range: two
    raw fetches. *)
Lemma empty_result_is_fetched_again_witness :
  polls (DataSource.fetch_flights sample_math 2001%float
           (DataSource.fetch_flights sample_math 2000%float
              (DataSource.init 51.5074%float (-0.1278)%float 10%float)
              (upstream_serving [flight_far])).1.2
           (DataSource.fetch_flights sample_math 2000%float
              (DataSource.init 51.5074%float (-0.1278)%float 10%float)
              (upstream_serving [flight_far])).2).2
  = 2%nat.
Proof.
  apply (empty_result_is_fetched_again sample_math 2000%float 2001%float
           (DataSource.init 51.5074%float (-0.1278)%float 10%float)
           (upstream_serving [flight_far])).
  vm_compute. reflexivity.
Defined.

Section WrapperRecords.
Import FloatOrder FloatOrderFacts.
Variable m : Math.

Lemma visit_origin self f f' :
  DataSourceFacts.visit m self f = Ok (Some f') ->
  f' = set_distance_nm (distance_nm f') f.
Proof.
  unfold DataSourceFacts.visit.
  destruct (grounded f); [discriminate|].
  destruct (_ && _); [|discriminate].
  destruct (_haversine_nm m _ _ _ _) as [d|e]; simpl; [|discriminate].
  destruct (PrimFloat.leb _ _); [|discriminate].
  now intros [= <-].
Qed.

Lemma filter_loop_origin self raw : forall flights out,
  DataSource.filter_loop m self raw flights = Ok out ->
  (length out <= length flights + length raw)%nat
  /\ forall g, In g out ->
       In g flights
       \/ exists f, In f raw /\ g = set_distance_nm (distance_nm g) f.
Proof.
  induction raw as [|f raw IH]; intros flights out.
  - simpl. intros [= <-]. split; [lia | now left].
  - rewrite DataSourceFacts.filter_loop_cons.
    destruct (DataSourceFacts.visit m self f) as [[f'|]|e] eqn:Ev;
      simpl; [| |discriminate]; intros H;
      destruct (IH _ _ H) as [Hlen Hin]; split.
    + rewrite length_app in Hlen. simpl in *. lia.
    + intros g Hg. destruct (Hin g Hg) as [Hacc | (f0 & Hf0 & E)].
      * apply in_app_or in Hacc as [Hacc | [<- | []]]; [now left|].
        right. exists f. split; [now left | now apply (visit_origin self)].
      * right. exists f0. split; [now right | exact E].
    + simpl. lia.
    + intros g Hg. destruct (Hin g Hg) as [Hacc | (f0 & Hf0 & E)];
        [now left|].
      right. exists f0. split; [now right | exact E].
Qed.

(** X4.  The wrapper invents nothing: the list it computes is no longer
    than the raw list, and each of its records is a record of the raw list
    in which only [distance_nm] was assigned. *)
Theorem wrapper_records_come_from_raw self raw out :
  DataSource.process m self raw = Ok out ->
  (length out <= length raw)%nat
  /\ forall g, In g out ->
       exists f, In f raw /\ g = set_distance_nm (distance_nm g) f.
Proof.
  unfold DataSource.process.
  destruct (DataSource.filter_loop m self raw []) as [fl|e] eqn:E;
    simpl; [|discriminate].
  intros [= <-]. destruct (filter_loop_origin self raw [] fl E) as [Hlen Hin].
  split.
  - rewrite (Permutation_length (sort_by_distance_perm fl)). simpl in Hlen.
    exact Hlen.
  - intros g Hg.
    apply (Permutation_in _ (sort_by_distance_perm fl)) in Hg.
    destruct (Hin g Hg) as [[] | H]. exact H.
Qed.

(** The records the override keeps in sandbox mode. *)
Definition airborne_with_position (f : Flight) : bool :=
  negb (grounded f)
  && (float_truthy (latitude f) && float_truthy (longitude f)).

Lemma sandbox_filter_loop_length (self : FR24Source.t) raw :
  FR24Source.sandbox self = true ->
  forall flights out,
  FR24Source.filter_loop m self raw flights = Ok out ->
  length out
  = (length flights + length (List.filter airborne_with_position raw))%nat.
Proof.
  intros Hsb. induction raw as [|f raw IH]; intros flights out.
  - simpl. intros [= <-]. lia.
  - cbn [FR24Source.filter_loop List.filter].
    destruct (airborne_with_position f) eqn:Ha;
      unfold airborne_with_position in Ha.
    + apply andb_true_iff in Ha as [Hg Hc]. apply negb_true_iff in Hg.
      rewrite Hg, Hc.
      destruct (_haversine_nm m _ _ _ _) as [d|e]; [|discriminate].
      cbn [obind]. rewrite Hsb. cbn [negb andb]. intros H.
      rewrite (IH _ _ H), length_app. simpl. lia.
    + destruct (grounded f); [apply IH|]. cbn [negb andb] in Ha.
      rewrite Ha. apply IH.
Qed.

(** X3.  In sandbox mode the override applies no radius test: a poll that
    computes a list returns every raw record that is airborne and has both
    coordinates non-zero, whatever its distance, and nothing else. *)
Theorem fr24_sandbox_keeps_every_distance (self : FR24Source.t) raw out :
  FR24Source.sandbox self = true ->
  FR24Source.process m self raw = Ok out ->
  length out = length (List.filter airborne_with_position raw)
  /\ forall f d,
       In f raw -> airborne_with_position f = true ->
       _haversine_nm m (DataSource.lat (FR24Source.base self))
         (DataSource.lon (FR24Source.base self)) (latitude f) (longitude f)
         = Ok d ->
       In (set_distance_nm (py_round m d 1) f) out.
Proof.
  intros Hsb. unfold FR24Source.process.
  destruct (FR24Source.filter_loop m self raw []) as [fl|e] eqn:E;
    simpl; [|discriminate].
  intros [= <-]. split.
  - rewrite (Permutation_length (sort_by_distance_perm fl)).
    now rewrite (sandbox_filter_loop_length self raw Hsb [] fl E).
  - intros f d Hin Ha Hd.
    eapply Permutation_in; [symmetry; apply sort_by_distance_perm|].
    eapply FR24SourceFacts.fr24_filter_loop_appended; [exact E | exact Hin|].
    unfold FR24SourceFacts.fr24_visit. unfold airborne_with_position in Ha.
    apply andb_true_iff in Ha as [Hg Hc]. apply negb_true_iff in Hg.
    rewrite Hg, Hc, Hd. cbn [obind]. now rewrite Hsb.
Qed.

(** X2.  Outside sandbox mode, with a radius that is a number and a raw
    fetch whose computed distances are numbers, the override returns what
    the wrapper returns and leaves the same cache and last fetch time. *)
Theorem fr24_live_agrees_with_wrapper now (self : FR24Source.t) up :
  FR24Source.sandbox self = false ->
  is_nan (DataSource.radius_nm (FR24Source.base self)) = false ->
  (forall raw f d,
     feed up (polls up) = Ok raw -> In f raw ->
     _haversine_nm m (DataSource.lat (FR24Source.base self))
       (DataSource.lon (FR24Source.base self)) (latitude f) (longitude f)
       = Ok d ->
     is_nan (py_round m d 1) = false) ->
  let r := FR24Source.fetch_flights m now self up in
  let r' := DataSource.fetch_flights m now (FR24Source.base self) up in
  r.1.1 = r'.1.1 /\ FR24Source.base r.1.2 = r'.1.2 /\ r.2 = r'.2.
Proof.
  intros Hsb Hr Hnum. unfold FR24Source.fetch_flights, DataSource.fetch_flights.
  destruct (DataSource.cache_fresh now (FR24Source.base self));
    [now repeat split|].
  unfold FR24Source.try_fetch, DataSource.try_fetch, _fetch_raw.
  destruct (feed up (polls up)) as [raw|e] eqn:Hf; cbn [obind];
    [|now repeat split].
  unfold FR24Source.process, DataSource.process.
  rewrite (fr24_live_matches_wrapper m self raw [] Hsb Hr
             (fun f d => Hnum raw f d eq_refl)).
  destruct (DataSource.filter_loop m (FR24Source.base self) raw []);
    cbn [obind]; repeat split; destruct self as [[] ?]; reflexivity.
Qed.

End WrapperRecords.

Lemma wrapper_records_come_from_raw_witness :
  exists f, In f [flight_far; flight_near]
            /\ set_distance_nm 1.2008092146525624%float flight_near
               = set_distance_nm 1.2008092146525624%float f.
Proof.
  apply (proj2 (wrapper_records_come_from_raw sample_math sample_source
                  [flight_far; flight_near]
                  [set_distance_nm 1.2008092146525624%float flight_near]
                  eq_refl)
           (set_distance_nm 1.2008092146525624%float flight_near)).
  now left.
Defined.

(** In sandbox mode the record 15 nm away, beyond the radius of 10 nm, is
    returned. *)
Lemma fr24_sandbox_keeps_every_distance_witness :
  In (set_distance_nm 15.010115183154683%float flight_far)
     [set_distance_nm 1.2008092146525624%float flight_near;
      set_distance_nm 15.010115183154683%float flight_far].
Proof.
  apply (proj2 (fr24_sandbox_keeps_every_distance sample_math
                  (sample_fr24 true) [flight_far; flight_near] _
                  eq_refl eq_refl) flight_far 15.010115183154683%float);
    [now left | reflexivity | vm_compute; reflexivity].
Defined.

Lemma fr24_live_agrees_with_wrapper_witness :
  (FR24Source.fetch_flights sample_math 2000%float (sample_fr24 false)
     (upstream_serving [flight_far; flight_near])).1.1
  = (DataSource.fetch_flights sample_math 2000%float sample_source
       (upstream_serving [flight_far; flight_near])).1.1.
Proof.
  apply (fr24_live_agrees_with_wrapper sample_math 2000%float
           (sample_fr24 false) (upstream_serving [flight_far; flight_near])
           eq_refl eq_refl).
  intros raw f d [= <-] [<- | [<- | []]] Hd;
    vm_compute in Hd; injection Hd as <-; reflexivity.
Defined.

(** * More of the enrichment engine *)

(** ** The counter and the budget *)

Section Counter.
Variable env : Env.
Variable cap : Z.

Definition calls (st : St) : nat := Enricher._api_calls_this_session (self st).

(** Between [st] and [st'] the counter grew by the number of requests
    sent. *)
Definition counted (st st' : St) : Prop :=
  (length (requests (world st')) + calls st
   = length (requests (world st)) + calls st')%nat.

(** Counter and maximum are at most [cap]. *)
Definition within_budget (st : St) : Prop :=
  Z.of_nat (calls st) <= cap /\ Enricher._max_api_calls (self st) <= cap.

Definition budgeted (st st' : St) : Prop :=
  counted st st' /\ (within_budget st -> within_budget st').

Lemma budgeted_refl st : budgeted st st.
Proof. split; [reflexivity | tauto]. Qed.

Lemma budgeted_trans a b c : budgeted a b -> budgeted b c -> budgeted a c.
Proof.
  unfold budgeted, counted. intros [E1 H1] [E2 H2]. split; [lia | tauto].
Qed.

Ltac budgeted_same := split; [reflexivity | exact (fun H => H)].

Lemma budgeted_time_time : stable budgeted (time_time env).
Proof. intros st. budgeted_same. Qed.

Lemma budgeted_db_execute {A} (q : Db -> A * Db) :
  stable budgeted (db_execute env q).
Proof.
  intros st. unfold db_execute.
  destruct (Enricher._conn (self st)); [|budgeted_same].
  destruct (db_fault env _); [budgeted_same|].
  destruct (q d). budgeted_same.
Qed.

Lemma budgeted_modify_flight g : stable budgeted (modify_flight g).
Proof. intros st. budgeted_same. Qed.

Lemma budgeted_add_route_miss cs : stable budgeted (add_route_miss cs).
Proof. intros st. budgeted_same. Qed.

Lemma budgeted_set_key : stable budgeted (modify_self (set_airlabs_key "")).
Proof. intros st. budgeted_same. Qed.

Lemma budgeted_set_max : stable budgeted (modify_self (set_max_api_calls 0)).
Proof.
  intros st. split; [reflexivity|]. unfold within_budget, calls. simpl.
  intros [H _]. split; [exact H | lia].
Qed.

Hint Resolve budgeted_time_time budgeted_modify_flight
  budgeted_add_route_miss budgeted_set_key budgeted_set_max : stable.
Hint Extern 2 (stable budgeted _) => apply budgeted_db_execute : stable.
Hint Extern 1 (stable budgeted (fill _ _ _)) =>
  apply budgeted_modify_flight : stable.
Hint Extern 1 (stable budgeted _enrich_from_callsign) =>
  apply budgeted_modify_flight : stable.

Ltac budgeted_auto := stable_auto budgeted_refl budgeted_trans.

Lemma budgeted_apply_route row : stable budgeted (_apply_route row).
Proof. unfold _apply_route. budgeted_auto. Qed.

Lemma budgeted_fill_from_aircraft row :
  stable budgeted (fill_from_aircraft row).
Proof. unfold fill_from_aircraft. budgeted_auto. Qed.

Lemma budgeted_cache_route cs data :
  stable budgeted (_cache_route env cs data).
Proof. unfold _cache_route, replace_route, db_commit. budgeted_auto. Qed.

Lemma budgeted_cache_aircraft hex reg ty op opi :
  stable budgeted (_cache_aircraft env hex reg ty op opi).
Proof.
  unfold _cache_aircraft, select_aircraft, write_aircraft, db_commit.
  budgeted_auto.
Qed.

Hint Resolve budgeted_apply_route budgeted_fill_from_aircraft
  budgeted_cache_route budgeted_cache_aircraft : stable.

Lemma budgeted_bind_at {A B} (c : M A) (k : A -> M B) st :
  budgeted st (c st).2 -> (forall a, stable budgeted (k a)) ->
  budgeted st (bind c k st).2.
Proof.
  intros Hc Hk. unfold bind.
  destruct (c st) as [[a|e] st']; simpl in *; [|exact Hc].
  eapply budgeted_trans; [exact Hc | apply Hk].
Qed.

Lemma budgeted_try_at {A} (body : M A) (h : exn -> M A) st :
  budgeted st (body st).2 -> (forall e, stable budgeted (h e)) ->
  budgeted st (try_except body h st).2.
Proof.
  intros Hb Hh. unfold try_except.
  destruct (body st) as [[a|e] st']; simpl in *; [exact Hb|].
  eapply budgeted_trans; [exact Hb | apply Hh].
Qed.

(** Counting a call and sending the request, with budget left. *)
Lemma budgeted_counted_request {B} q (k : Z * option Json -> M B) st :
  budget_spent (self st) = false ->
  (forall r, stable budgeted (k r)) ->
  budgeted st
    (bind (session_get env q) k
       (mkSt (flight st)
          (set_api_calls (S (Enricher._api_calls_this_session (self st)))
             (self st))
          (world st))).2.
Proof.
  intros Hb Hk. rewrite bind_session_get. cbv zeta.
  cbn [flight self world].
  set (st' := mkSt _ _ _).
  assert (budgeted st st') as Hst.
  { split.
    - unfold counted, calls. subst st'. simpl. rewrite length_app. simpl.
      lia.
    - unfold within_budget, calls. subst st'. simpl. intros [H1 H2].
      unfold budget_spent in Hb. apply Z.leb_gt in Hb. split; lia. }
  destruct (http env _ q); [exact Hst|].
  eapply budgeted_trans; [exact Hst | apply Hk].
Qed.

Lemma budgeted_lookup_airport_name iata :
  stable budgeted (_lookup_airport_name env iata).
Proof.
  unfold _lookup_airport_name.
  destruct (negb (str_truthy iata)); [apply (stable_ret _ budgeted_refl)|].
  apply (stable_bind _ budgeted_trans); [auto with stable | intros row].
  destruct (str_truthy _); [apply (stable_ret _ budgeted_refl)|].
  intros st. rewrite bind_get_self.
  destruct (negb _); [apply budgeted_refl|].
  destruct (budget_spent (self st)) eqn:Hb; [apply budgeted_refl|].
  apply budgeted_bind_at.
  2:{ intros [name|]; apply (stable_ret _ budgeted_refl). }
  apply budgeted_try_at.
  2:{ intros e. apply (stable_ret _ budgeted_refl). }
  unfold count_api_call. rewrite bind_modify_self.
  apply budgeted_counted_request; [exact Hb|].
  intros r. unfold replace_airport, db_commit. budgeted_auto.
Qed.

Hint Resolve budgeted_lookup_airport_name : stable.

Lemma budgeted_lookup_route_airlabs cs st :
  budget_spent (self st) = false ->
  budgeted st (_lookup_route_airlabs env cs st).2.
Proof.
  intros Hb. unfold _lookup_route_airlabs.
  apply budgeted_try_at; [|intros e; auto with stable].
  unfold count_api_call. rewrite bind_modify_self, bind_get_self.
  apply budgeted_counted_request; [exact Hb|].
  intros r. budgeted_auto.
Qed.

Lemma budgeted_enrich_route cs : stable budgeted (_enrich_route env cs).
Proof.
  unfold _enrich_route.
  apply (stable_bind _ budgeted_trans); [auto with stable | intros now].
  apply (stable_bind _ budgeted_trans);
    [unfold select_fresh_route; auto with stable | intros [r|]].
  { auto with stable. }
  intros st. rewrite bind_get_self.
  destruct (negb _); [apply budgeted_refl|].
  destruct (bool_decide _); [apply budgeted_refl|].
  destruct (budget_spent (self st)) eqn:E; [apply budgeted_refl|].
  now apply budgeted_lookup_route_airlabs.
Qed.

Hint Resolve budgeted_enrich_route : stable.

Lemma budgeted_enrich : stable budgeted (enrich env).
Proof. unfold enrich, select_aircraft. budgeted_auto. Qed.

Lemma budgeted_enrich_each flights : forall s w,
  let r := enrich_each env flights s w in
  (length (requests r.2) + Enricher._api_calls_this_session s
   = length (requests w) + Enricher._api_calls_this_session r.1.2)%nat
  /\ (Z.of_nat (Enricher._api_calls_this_session s) <= cap ->
      Enricher._max_api_calls s <= cap ->
      Z.of_nat (Enricher._api_calls_this_session r.1.2) <= cap
      /\ Enricher._max_api_calls r.1.2 <= cap).
Proof.
  induction flights as [|f flights IH]; intros s w.
  - simpl. split; [reflexivity | tauto].
  - cbn [enrich_each]. cbv zeta. cbn [fst snd].
    destruct (budgeted_enrich (mkSt f s w)) as [E1 H1].
    unfold counted, within_budget, calls in E1, H1. cbn [self world] in E1, H1.
    destruct (IH (self (enrich env (mkSt f s w)).2)
                (world (enrich env (mkSt f s w)).2)) as [E2 H2].
    cbv zeta in E2, H2. split; [lia|].
    intros Ha Hb. destruct (H1 (conj Ha Hb)) as [Ha' Hb'].
    now apply H2.
Qed.

End Counter.

(** X6.  The session counter counts the requests: over a call of
    [enrich], whatever happens in it, [_api_calls_this_session] grows by
    exactly the number of requests sent to the API. *)
Theorem counter_counts_requests (env : Env) (st : St) :
  (length (requests (world (enrich env st).2))
   + Enricher._api_calls_this_session (self st)
   = length (requests (world st))
     + Enricher._api_calls_this_session (self (enrich env st).2))%nat.
Proof. exact (proj1 (budgeted_enrich env 0 st)). Qed.

(** X7.  The budget bounds the session: an engine set up with a maximum
    of [max] calls sends, over the enrichment of any list of flights, at
    most [max] requests (none when [max] is negative), route and airport
    queries counted together. *)
Theorem session_requests_within_budget (env : Env) (db : Db)
    (key : string) (max : Z) (flights : list Flight) :
  Z.of_nat
    (length (requests
       (enrich_each env flights (Enricher.init db key max) new_world).2))
  <= Z.max 0 max.
Proof.
  destruct (budgeted_enrich_each env (Z.max 0 max) flights
              (Enricher.init db key max) new_world) as [E H].
  cbv zeta in E, H. simpl in E, H.
  destruct H as [H _]; lia.
Qed.

(** ** What stops the remote lookup *)

Section StableAt.
Variable R : St -> St -> Prop.
Hypothesis R_trans : forall a b c, R a b -> R b c -> R a c.

Lemma stable_bind_at {A B} (c : M A) (k : A -> M B) st :
  R st (c st).2 -> (forall a, stable R (k a)) -> R st (bind c k st).2.
Proof.
  intros Hc Hk. unfold bind.
  destruct (c st) as [[a|e] st']; simpl in *; [|exact Hc].
  eapply R_trans; [exact Hc | apply Hk].
Qed.

End StableAt.

Section Gate.
Variable env : Env.

(** [closed s]: a condition on the engine under which [_enrich_route c0]
    stops before the remote lookup (no key, [c0] among the misses, or no
    budget), and which a statement on the store does not change. *)
Variable closed : Enricher.t -> Prop.
Variable c0 : string.
Hypothesis closed_guard : forall s,
  closed s ->
  negb (str_truthy (Enricher.airlabs_key s))
  || bool_decide (c0 ∈ Enricher._route_miss_cache s)
  || budget_spent s = true.
Hypothesis closed_conn : forall s db, closed s -> closed (set_conn db s).

Definition gated (st st' : St) : Prop :=
  closed (self st) ->
  requests (world st') = requests (world st) /\ closed (self st').

Lemma gated_refl st : gated st st.
Proof. now intros H. Qed.

Lemma gated_trans a b c : gated a b -> gated b c -> gated a c.
Proof.
  intros Hab Hbc Ha. destruct (Hab Ha) as [E1 Hb].
  destruct (Hbc Hb) as [E2 Hc]. split; [congruence | assumption].
Qed.

Lemma gated_time_time : stable gated (time_time env).
Proof. intros st H. now split. Qed.

Lemma gated_db_execute {A} (q : Db -> A * Db) :
  stable gated (db_execute env q).
Proof.
  intros st H. unfold db_execute.
  destruct (Enricher._conn (self st)); [|now split].
  destruct (db_fault env _); [now split|].
  destruct (q d). split; [reflexivity | now apply closed_conn].
Qed.

Lemma gated_modify_flight g : stable gated (modify_flight g).
Proof. intros st H. now split. Qed.

Hint Resolve gated_time_time gated_modify_flight : stable.
Hint Extern 2 (stable gated _) => apply gated_db_execute : stable.
Hint Extern 1 (stable gated (fill _ _ _)) =>
  apply gated_modify_flight : stable.
Hint Extern 1 (stable gated _enrich_from_callsign) =>
  apply gated_modify_flight : stable.

Ltac gated_auto := stable_auto gated_refl gated_trans.

Lemma gated_apply_route row : stable gated (_apply_route row).
Proof. unfold _apply_route. gated_auto. Qed.

Lemma gated_fill_from_aircraft row : stable gated (fill_from_aircraft row).
Proof. unfold fill_from_aircraft. gated_auto. Qed.

Hint Resolve gated_apply_route gated_fill_from_aircraft : stable.

Lemma gated_enrich_route : stable gated (_enrich_route env c0).
Proof.
  unfold _enrich_route.
  apply (stable_bind _ gated_trans); [auto with stable | intros now].
  apply (stable_bind _ gated_trans);
    [unfold select_fresh_route; auto with stable | intros [r|]].
  { auto with stable. }
  intros st. rewrite bind_get_self. intros Hc.
  pose proof (closed_guard _ Hc) as Hg.
  destruct (negb _); [now split|].
  destruct (bool_decide _); [now split|].
  destruct (budget_spent (self st)); [now split | discriminate].
Qed.

Hint Resolve gated_enrich_route : stable.

(** [enrich] of a flight whose callsign normalises to [c0]. *)
Lemma gated_enrich st :
  py_upper (py_strip (callsign (flight st))) = c0 ->
  gated st (enrich env st).2.
Proof.
  intros Hcs. unfold enrich. rewrite bind_get_self.
  destruct (Enricher._conn (self st)); [|now apply gated_modify_flight].
  rewrite bind_get_flight. rewrite Hcs.
  apply (stable_bind_at _ gated_trans).
  - destruct (str_truthy _); [|apply gated_refl].
    apply (stable_bind _ gated_trans);
      [unfold select_aircraft; auto with stable | intros [r|]];
      [auto with stable | apply (stable_ret _ gated_refl)].
  - intros _. gated_auto.
Qed.

End Gate.

(** The set of misses only grows. *)
Section Misses.
Variable env : Env.

Definition misses_kept (st st' : St) : Prop :=
  Enricher._route_miss_cache (self st)
  ⊆ Enricher._route_miss_cache (self st').

Lemma misses_kept_refl st : misses_kept st st.
Proof. unfold misses_kept. set_solver. Qed.

Lemma misses_kept_trans a b c :
  misses_kept a b -> misses_kept b c -> misses_kept a c.
Proof. unfold misses_kept. set_solver. Qed.

Ltac misses_same := intros st; unfold misses_kept; simpl; set_solver.

Lemma misses_time_time : stable misses_kept (time_time env).
Proof. misses_same. Qed.

Lemma misses_db_execute {A} (q : Db -> A * Db) :
  stable misses_kept (db_execute env q).
Proof.
  intros st. unfold db_execute, misses_kept.
  destruct (Enricher._conn (self st)); [|set_solver].
  destruct (db_fault env _); [simpl; set_solver|].
  destruct (q d). simpl. set_solver.
Qed.

Lemma misses_session_get q : stable misses_kept (session_get env q).
Proof.
  intros st. unfold session_get, misses_kept.
  destruct (http env _ q); simpl; set_solver.
Qed.

Lemma misses_modify_flight g : stable misses_kept (modify_flight g).
Proof. misses_same. Qed.

Lemma misses_add_route_miss cs : stable misses_kept (add_route_miss cs).
Proof. misses_same. Qed.

Lemma misses_count_api_call : stable misses_kept count_api_call.
Proof. misses_same. Qed.

Lemma misses_set_key v : stable misses_kept (modify_self (set_airlabs_key v)).
Proof. misses_same. Qed.

Lemma misses_set_max v :
  stable misses_kept (modify_self (set_max_api_calls v)).
Proof. misses_same. Qed.

Hint Resolve misses_time_time misses_session_get misses_modify_flight
  misses_add_route_miss misses_count_api_call misses_set_key misses_set_max
  : stable.
Hint Extern 2 (stable misses_kept _) => apply misses_db_execute : stable.
Hint Extern 1 (stable misses_kept (fill _ _ _)) =>
  apply misses_modify_flight : stable.
Hint Extern 1 (stable misses_kept _enrich_from_callsign) =>
  apply misses_modify_flight : stable.

Ltac misses_auto := stable_auto misses_kept_refl misses_kept_trans.

Lemma misses_enrich : stable misses_kept (enrich env).
Proof.
  unfold enrich, _enrich_route, _lookup_route_airlabs, _lookup_airport_name,
    _cache_route, _cache_aircraft, _apply_route, fill_from_aircraft,
    select_aircraft, select_fresh_route, select_airport, replace_route,
    replace_airport, write_aircraft, db_commit.
  misses_auto.
Qed.

End Misses.

(** X8.  A callsign among the session's misses is not looked up again:
    when the callsign of the flight (trimmed, in upper case) is in
    [_route_miss_cache], [enrich] sends no request; and [enrich] never
    removes a callsign from the set. *)
Theorem missed_callsign_not_looked_up (env : Env) (st : St) :
  Enricher._route_miss_cache (self st)
    ⊆ Enricher._route_miss_cache (self (enrich env st).2)
  /\ (py_upper (py_strip (callsign (flight st)))
        ∈ Enricher._route_miss_cache (self st) ->
      requests (world (enrich env st).2) = requests (world st)).
Proof.
  split; [exact (misses_enrich env st)|].
  intros Hin.
  refine (proj1 (gated_enrich env
            (fun s => py_upper (py_strip (callsign (flight st)))
                        ∈ Enricher._route_miss_cache s)
            (py_upper (py_strip (callsign (flight st))))
            _ _ st eq_refl Hin)).
  - intros s Hs. rewrite (bool_decide_eq_true_2 _ Hs).
    now rewrite orb_true_r.
  - intros s db Hs. exact Hs.
Qed.

(** With key and budget, and an API that answers: a callsign that is among
    the misses sends nothing. *)
Lemma missed_callsign_not_looked_up_witness :
  requests (world (enrich answering_env
              (mkSt (bare_flight " ryr4421 ")
                 (Enricher.mk "KEY" (Some empty_db) {["RYR4421"]} ∅ 0 200)
                 new_world)).2) = [].
Proof.
  apply (proj2 (missed_callsign_not_looked_up answering_env
           (mkSt (bare_flight " ryr4421 ")
              (Enricher.mk "KEY" (Some empty_db) {["RYR4421"]} ∅ 0 200)
              new_world))).
  vm_compute. set_solver.
Defined.

(** ** Replies to the route query *)

Section Replies.
Variable env : Env.

(** The state in which the reply to the route query for [cs] is handled:
    the call counted and the request logged. *)
Definition after_route_query (cs : string) (st : St) : St :=
  mkSt (flight st)
    (set_api_calls (S (Enricher._api_calls_this_session (self st))) (self st))
    (mkWorld
       (requests (world st)
          ++ [RouteQuery (Enricher.airlabs_key (self st)) cs])
       (db_stmts (world st)) (ticks (world st))).

Definition route_reply (cs : string) (st : St) : Reply :=
  http env (length (requests (world st)))
    (RouteQuery (Enricher.airlabs_key (self st)) cs).

(** An HTTP 401 clears the key. *)
Lemma unauthorized_clears_key cs st body :
  route_reply cs st = Response 401 body ->
  Enricher.airlabs_key (self (_lookup_route_airlabs env cs st).2) = "".
Proof.
  unfold route_reply. intros H.
  unfold _lookup_route_airlabs, try_except, count_api_call.
  rewrite bind_modify_self, bind_get_self, bind_session_get.
  cbn [self world requests flight Enricher.airlabs_key set_api_calls].
  rewrite H. cbn [fst]. change (401 =? 401) with true. cbv iota.
  reflexivity.
Qed.

Lemma no_key_enrich_each flights : forall s w,
  Enricher.airlabs_key s = "" ->
  requests (enrich_each env flights s w).2 = requests w
  /\ Enricher.airlabs_key (enrich_each env flights s w).1.2 = "".
Proof.
  induction flights as [|f flights IH]; intros s w H; [now split|].
  cbn [enrich_each]. cbv zeta. cbn [fst snd].
  destruct (gated_enrich env (fun s => Enricher.airlabs_key s = "")
              (py_upper (py_strip (callsign f)))
              (fun s Hs => ltac:(now rewrite Hs))
              (fun s db Hs => Hs)
              (mkSt f s w) eq_refl H) as [E Hk].
  destruct (IH _ (world (enrich env (mkSt f s w)).2) Hk) as [E' Hk'].
  cbn [world] in E. split; [congruence | exact Hk'].
Qed.

(** A reply that gives nothing to read: no connection, an error status
    other than 401 and 429, a body that is not JSON, or JSON that is not
    an object. *)
Definition reply_unusable (r : Reply) : bool :=
  match r with
  | NetworkError => true
  | Response status body =>
      negb (status =? 401) && negb (status =? 429)
      && ((400 <=? status) && (status <? 600)
          || match body with
             | Some (JObj _) => false
             | _ => true
             end)
  end.

Lemma unusable_reply_outcome cs st :
  reply_unusable (route_reply cs st) = true ->
  _lookup_route_airlabs env cs st
  = (Ok tt,
     mkSt (flight st)
       (set_route_miss_cache
          ({[cs]} ∪ Enricher._route_miss_cache (self st))
          (self (after_route_query cs st)))
       (world (after_route_query cs st))).
Proof.
  unfold route_reply. intros H.
  unfold _lookup_route_airlabs, try_except, count_api_call.
  rewrite bind_modify_self, bind_get_self, bind_session_get.
  cbn [self world requests flight Enricher.airlabs_key set_api_calls].
  destruct (http env _ _) as [|status body]; [reflexivity|].
  cbn [reply_unusable] in H. cbn [fst snd].
  apply andb_true_iff in H as [H H3]. apply andb_true_iff in H as [H1 H2].
  apply negb_true_iff in H1, H2. rewrite H1, H2.
  unfold raise_for_status.
  destruct ((400 <=? status) && (status <? 600)); [reflexivity|].
  rewrite bind_ret. cbn [orb] in H3.
  destruct body as [[]|]; try discriminate; reflexivity.
Qed.

End Replies.

(** X11.  An HTTP 401 to a route query clears the API key, and an engine
    without a key sends no request, over any run of [enrich] calls, and
    stays without a key. *)
Theorem unauthorized_disables_lookups (env : Env) :
  (forall cs st body,
     http env (length (requests (world st)))
       (RouteQuery (Enricher.airlabs_key (self st)) cs)
       = Response 401 body ->
     Enricher.airlabs_key (self (_lookup_route_airlabs env cs st).2) = "")
  /\ (forall flights s w,
     Enricher.airlabs_key s = "" ->
     requests (enrich_each env flights s w).2 = requests w
     /\ Enricher.airlabs_key (enrich_each env flights s w).1.2 = "").
Proof.
  split.
  - intros cs st body H. exact (unauthorized_clears_key env cs st body H).
  - intros flights s w H. now apply no_key_enrich_each.
Qed.

(** An API that refuses the key. *)
Definition refusing_env : Env :=
  mkEnv (fun _ _ => Response 401 None) (fun _ => false) (fun _ => 0%float).

(** Three flights on an API that refuses the key: one request, for the
    first. *)
Lemma unauthorized_disables_lookups_witness :
  requests (enrich_each refusing_env
              [bare_flight "RYR4421"; bare_flight "BAW117";
               bare_flight "EZY6012"]
              (Enricher.init empty_db "KEY" 200) new_world).2
  = [RouteQuery "KEY" "RYR4421"]
  /\ requests (enrich_each refusing_env
                 [bare_flight "BAW117"; bare_flight "EZY6012"]
                 (Enricher.init empty_db "" 200) new_world).2 = [].
Proof.
  split; [vm_compute; reflexivity|].
  apply (proj2 (unauthorized_disables_lookups refusing_env)
           [bare_flight "BAW117"; bare_flight "EZY6012"]
           (Enricher.init empty_db "" 200) new_world).
  reflexivity.
Defined.

(** X9.  A route lookup that gets nothing to read (no connection, an
    error status other than 401 and 429, a body that is not JSON or not a
    JSON object) returns normally, counts the call, puts the callsign among
    the session's misses, and leaves the flight and the store as they
    were: nothing is persisted. *)
Theorem failed_lookup_marks_miss_only (env : Env) (cs : string) (st : St) :
  reply_unusable
    (http env (length (requests (world st)))
       (RouteQuery (Enricher.airlabs_key (self st)) cs)) = true ->
  let r := _lookup_route_airlabs env cs st in
  r.1 = Ok tt
  /\ flight r.2 = flight st
  /\ Enricher._conn (self r.2) = Enricher._conn (self st)
  /\ db_stmts (world r.2) = db_stmts (world st)
  /\ Enricher._route_miss_cache (self r.2)
     = {[cs]} ∪ Enricher._route_miss_cache (self st)
  /\ Enricher._api_calls_this_session (self r.2)
     = S (Enricher._api_calls_this_session (self st)).
Proof.
  intros H r. subst r.
  rewrite (unusable_reply_outcome env cs st H). now repeat split.
Qed.

(** A gateway error. *)
Definition gateway_error_env : Env :=
  mkEnv (fun _ _ => Response 502 (Some stn_dub)) (fun _ => false)
    (fun _ => 0%float).

Lemma failed_lookup_marks_miss_only_witness :
  Enricher._route_miss_cache
    (self (_lookup_route_airlabs gateway_error_env "RYR4421"
             (sample_state (bare_flight "RYR4421") sample_db "KEY" 200)).2)
  = {["RYR4421"]} ∪ ∅.
Proof.
  apply (failed_lookup_marks_miss_only gateway_error_env "RYR4421"
           (sample_state (bare_flight "RYR4421") sample_db "KEY" 200)).
  reflexivity.
Defined.

Section NoMatch.
Variable env : Env.

(** A body that says there is no such flight: an object whose [response]
    is missing or empty, or whose first entry has neither a departure nor
    an arrival code. *)
Definition no_match (j : Json) : bool :=
  match j with
  | JObj kv =>
      let response_list :=
        match dict_lookup "response" kv with
        | Some v => v
        | None => JArr []
        end in
      if negb (json_truthy response_list) then true
      else
        match json_first response_list with
        | Ok item =>
            match json_field item "dep_iata", json_field item "arr_iata" with
            | Ok dep, Ok arr => negb (str_truthy dep) && negb (str_truthy arr)
            | _, _ => false
            end
        | Raise _ => false
        end
  | _ => false
  end.

(** The row [_cache_route] writes for a miss. *)
Definition negative_route (now : float) : Routes.row :=
  Routes.mk "" "" "" "" "" "" "" "" "" "airlabs" now.

Lemma bind_lift {A B} (o : outcome A) (k : A -> M B) st :
  bind (lift o) k st = match o with
                       | Ok a => k a st
                       | Raise e => (Raise e, st)
                       end.
Proof. now destruct o. Qed.

Lemma cache_route_run cs data st db :
  Enricher._conn (self st) = Some db ->
  db_fault env (db_stmts (world st)) = false ->
  db_fault env (S (db_stmts (world st))) = false ->
  _cache_route env cs data st
  = (Ok tt,
     mkSt (flight st)
       (set_conn
          (Some (mkDb (aircraft db)
                   (<[cs := Routes.mk (rd_dep_iata data) (rd_dep_icao data)
                              (rd_dep_name data) (rd_arr_iata data)
                              (rd_arr_icao data) (rd_arr_name data)
                              (rd_airline_name data) (rd_aircraft_icao data)
                              (rd_flight_iata data) "airlabs"
                              (clock env (ticks (world st)))]> (routes db))
                   (airports db)))
          (self st))
       (mkWorld (requests (world st)) (S (S (db_stmts (world st))))
          (S (ticks (world st))))).
Proof.
  intros Hc H0 H1. unfold _cache_route. rewrite bind_time_time.
  unfold replace_route.
  erewrite bind_db_execute; [|exact Hc|exact H0]. cbn [fst snd].
  unfold db_commit, db_execute. cbn [self set_conn Enricher._conn world
    db_stmts]. rewrite H1. destruct (self st); reflexivity.
Qed.

Lemma no_match_outcome cs st db status j :
  route_reply env cs st = Response status (Some j) ->
  (status =? 401) = false -> (status =? 429) = false ->
  (400 <=? status) && (status <? 600) = false ->
  no_match j = true ->
  Enricher._conn (self st) = Some db ->
  db_fault env (db_stmts (world st)) = false ->
  db_fault env (S (db_stmts (world st))) = false ->
  _lookup_route_airlabs env cs st
  = _cache_route env cs no_route_data
      (mkSt (flight st)
         (set_route_miss_cache
            ({[cs]} ∪ Enricher._route_miss_cache (self st))
            (self (after_route_query cs st)))
         (world (after_route_query cs st))).
Proof.
  unfold route_reply. intros H H1 H2 H3 Hn Hc F0 F1.
  unfold _lookup_route_airlabs, try_except, count_api_call.
  rewrite bind_modify_self, bind_get_self, bind_session_get.
  cbn [self world requests flight Enricher.airlabs_key set_api_calls].
  rewrite H. cbn [fst snd]. rewrite H1, H2.
  unfold raise_for_status. rewrite H3. rewrite bind_ret.
  cbn [r_json]. rewrite bind_ret.
  destruct j as [| | | | | |kv]; try discriminate.
  cbn [no_match] in Hn. cbv zeta in Hn.
  rewrite bind_lift. cbn [json_get].
  set (rl := match dict_lookup "response" kv with
             | Some v => v
             | None => JArr []
             end) in *.
  set (st1 := mkSt _ _ _).
  assert (forall st2,
            st2 = mkSt (flight st)
                    (set_route_miss_cache
                       ({[cs]} ∪ Enricher._route_miss_cache (self st))
                       (self (after_route_query cs st)))
                    (world (after_route_query cs st)) ->
            (let (o, st') := _cache_route env cs no_route_data st2 in
             match o with
             | Ok a => (Ok a, st')
             | Raise e => add_route_miss cs st'
             end) = _cache_route env cs no_route_data st2) as Hrun.
  { intros st2 ->.
    rewrite (cache_route_run cs no_route_data _ db); [reflexivity| | |];
      assumption. }
  destruct (negb (json_truthy rl)).
  - unfold add_route_miss. rewrite bind_modify_self. now apply Hrun.
  - rewrite bind_lift.
    destruct (json_first rl) as [item|e]; [|discriminate].
    rewrite bind_lift.
    destruct (json_field item "dep_iata") as [dep|e]; [|discriminate].
    rewrite bind_lift.
    destruct (json_field item "arr_iata") as [arr|e]; [|discriminate].
    rewrite Hn.
    unfold add_route_miss. rewrite bind_modify_self. now apply Hrun.
Qed.

End NoMatch.

(** X10.  When the API answers that there is no such flight and the store
    works, the lookup returns normally, leaves the flight as it was, puts
    the callsign among the session's misses and stores a negative route
    (every field empty) for it, stamped with the clock. *)
Theorem no_match_is_cached (env : Env) (cs : string) (st : St) (db : Db)
    (status : Z) (j : Json) :
  http env (length (requests (world st)))
    (RouteQuery (Enricher.airlabs_key (self st)) cs)
    = Response status (Some j) ->
  (status =? 401) = false -> (status =? 429) = false ->
  (400 <=? status) && (status <? 600) = false ->
  no_match j = true ->
  Enricher._conn (self st) = Some db ->
  db_fault env (db_stmts (world st)) = false ->
  db_fault env (S (db_stmts (world st))) = false ->
  let r := _lookup_route_airlabs env cs st in
  r.1 = Ok tt
  /\ flight r.2 = flight st
  /\ cs ∈ Enricher._route_miss_cache (self r.2)
  /\ exists db',
       Enricher._conn (self r.2) = Some db'
       /\ routes db' !! cs
          = Some (negative_route (clock env (ticks (world st))))
       /\ aircraft db' = aircraft db /\ airports db' = airports db.
Proof.
  intros H H1 H2 H3 Hn Hc F0 F1 r. subst r.
  rewrite (no_match_outcome env cs st db status j H H1 H2 H3 Hn Hc F0 F1).
  erewrite cache_route_run; [|exact Hc|exact F0|exact F1].
  cbn [fst snd flight self world]. repeat split.
  - cbn. set_solver.
  - eexists. split; [reflexivity|]. cbn [routes aircraft airports].
    rewrite lookup_insert_eq. now repeat split.
Qed.

(** An API that knows no flight. *)
Definition no_flight_env : Env :=
  mkEnv (fun _ _ => Response 200 (Some (JObj [("response", JArr [])])))
    (fun _ => false)
    (fun n => (1700000000 + PrimFloat.of_uint63 (Uint63.of_nat n))%float).

Lemma no_match_is_cached_witness :
  (_lookup_route_airlabs no_flight_env "XXX999"
     (sample_state (bare_flight "XXX999") sample_db "KEY" 200)).1 = Ok tt
  /\ "XXX999" ∈ Enricher._route_miss_cache
       (self (_lookup_route_airlabs no_flight_env "XXX999"
                (sample_state (bare_flight "XXX999") sample_db "KEY"
                   200)).2).
Proof.
  destruct (no_match_is_cached no_flight_env "XXX999"
              (sample_state (bare_flight "XXX999") sample_db "KEY" 200)
              sample_db 200 (JObj [("response", JArr [])])
              eq_refl eq_refl eq_refl eq_refl eq_refl eq_refl eq_refl
              eq_refl) as (H1 & _ & H3 & _).
  split; [exact H1 | exact H3].
Defined.

(** ** The route cache in front of the API *)

Section RouteCache.
Variable env : Env.

(** The log of requests only grows, at its end. *)
Definition log_grows (st st' : St) : Prop :=
  exists more, requests (world st') = requests (world st) ++ more.

Lemma log_grows_refl st : log_grows st st.
Proof. exists []. now rewrite app_nil_r. Qed.

Lemma log_grows_trans a b c : log_grows a b -> log_grows b c -> log_grows a c.
Proof.
  intros [m1 E1] [m2 E2]. exists (m1 ++ m2). now rewrite E2, E1, app_assoc.
Qed.

Lemma log_same (st st' : St) :
  requests (world st') = requests (world st) -> log_grows st st'.
Proof. intros E. exists []. now rewrite app_nil_r. Qed.

Lemma log_time_time : stable log_grows (time_time env).
Proof. intros st. now apply log_same. Qed.

Lemma log_db_execute {A} (q : Db -> A * Db) :
  stable log_grows (db_execute env q).
Proof.
  intros st. unfold db_execute.
  destruct (Enricher._conn (self st)); [|now apply log_same].
  destruct (db_fault env _); [now apply log_same|].
  destruct (q d). now apply log_same.
Qed.

Lemma log_session_get q : stable log_grows (session_get env q).
Proof.
  intros st. unfold session_get.
  destruct (http env _ q); now exists [q].
Qed.

Lemma log_modify_flight g : stable log_grows (modify_flight g).
Proof. intros st. now apply log_same. Qed.

Lemma log_modify_self g : stable log_grows (modify_self g).
Proof. intros st. now apply log_same. Qed.

Hint Resolve log_time_time log_session_get log_modify_flight
  log_modify_self : stable.
Hint Extern 2 (stable log_grows _) => apply log_db_execute : stable.
Hint Extern 1 (stable log_grows (fill _ _ _)) =>
  apply log_modify_flight : stable.
Hint Extern 1 (stable log_grows (add_route_miss _)) =>
  apply log_modify_self : stable.
Hint Extern 1 (stable log_grows count_api_call) =>
  apply log_modify_self : stable.

Ltac log_auto := stable_auto log_grows_refl log_grows_trans.

(** What follows the reply in [_lookup_route_airlabs] only adds to the
    log. *)
Lemma log_lookup_route_airlabs cs st :
  exists more,
    requests (world (_lookup_route_airlabs env cs st).2)
    = requests (world st)
        ++ RouteQuery (Enricher.airlabs_key (self st)) cs :: more.
Proof.
  unfold _lookup_route_airlabs, try_except, count_api_call.
  rewrite bind_modify_self, bind_get_self, bind_session_get.
  cbn [self world requests flight Enricher.airlabs_key set_api_calls].
  fold (after_route_query cs st).
  destruct (http env _ _) as [|status body].
  { exists []. reflexivity. }
  match goal with
  | |- context [let (o, st') := ?c (after_route_query cs st) in _] =>
      assert (stable log_grows c) as Hc
  end.
  { unfold _lookup_airport_name, _cache_route, _cache_aircraft,
      select_aircraft, select_airport, replace_route, replace_airport,
      write_aircraft, db_commit.
    log_auto. }
  specialize (Hc (after_route_query cs st)).
  destruct (_ (after_route_query cs st)) as [[[]|e] st'].
  - destruct Hc as [more E]. cbn [snd] in E. exists more. cbn [snd].
    rewrite E.
    cbn [after_route_query world requests]. now rewrite <- app_assoc.
  - destruct Hc as [more E]. cbn [snd] in E. exists more.
    cbn [add_route_miss modify_self snd world requests]. rewrite E.
    cbn [after_route_query world requests]. now rewrite <- app_assoc.
Qed.

(** Running [_enrich_route] up to the row. *)
Lemma enrich_route_select cs st db :
  Enricher._conn (self st) = Some db ->
  db_fault env (db_stmts (world st)) = false ->
  _enrich_route env cs st
  = (match
       match routes db !! cs with
       | Some r =>
           if PrimFloat.ltb (clock env (ticks (world st)) - 86400)%float
                (Routes.updated_at r)
           then Some r else None
       | None => None
       end
     with
     | Some r => _apply_route r
     | None =>
         s <- get_self;;
         if negb (str_truthy (Enricher.airlabs_key s)) then ret tt
         else if bool_decide (cs ∈ Enricher._route_miss_cache s)
         then ret tt
         else if budget_spent s then ret tt
         else _lookup_route_airlabs env cs
     end)%monad
      (mkSt (flight st) (set_conn (Some db) (self st))
         (mkWorld (requests (world st)) (S (db_stmts (world st)))
            (S (ticks (world st))))).
Proof.
  intros Hc Hf. unfold _enrich_route. rewrite bind_time_time.
  unfold select_fresh_route.
  erewrite bind_db_execute; [|exact Hc|exact Hf]. reflexivity.
Qed.

(** A negative entry fills nothing in. *)
Lemma apply_negative_route now st :
  flight (_apply_route (negative_route now) st).2 = flight st.
Proof.
  unfold _apply_route, negative_route, fill.
  cbn [Routes.dep_iata Routes.dep_name Routes.arr_iata Routes.arr_name
       Routes.airline_name Routes.aircraft_icao].
  change (str_truthy "") with false.
  rewrite !bind_modify_flight. cbn [modify_flight snd flight].
  now rewrite !andb_false_r.
Qed.

End RouteCache.

(** X14.  A route cached within the last 24 hours is applied and ends the
    lookup: whatever key and budget the engine has, [_enrich_route] returns
    normally, sends no request, and leaves the flight as [_apply_route]
    does; with a negative entry (every field empty) the flight is left as
    it was. *)
Theorem fresh_cached_route_ends_lookup (env : Env) (cs : string) (st : St)
    (db : Db) (r : Routes.row) :
  Enricher._conn (self st) = Some db ->
  db_fault env (db_stmts (world st)) = false ->
  routes db !! cs = Some r ->
  PrimFloat.ltb (clock env (ticks (world st)) - 86400)%float
    (Routes.updated_at r) = true ->
  let res := _enrich_route env cs st in
  res.1 = Ok tt
  /\ requests (world res.2) = requests (world st)
  /\ flight res.2 = flight (_apply_route r st).2
  /\ (forall now, r = negative_route now -> flight res.2 = flight st).
Proof.
  intros Hc Hf Hr Hfresh res. subst res.
  rewrite (enrich_route_select env cs st db Hc Hf), Hr, Hfresh.
  repeat split. intros now ->. now rewrite apply_negative_route.
Qed.

(** A positive and a negative entry, both ten seconds old. *)
Definition negative_db : Db :=
  mkDb ∅ {[ "XXX999" := negative_route 1699999990%float ]} ∅.

Lemma fresh_cached_route_ends_lookup_witness :
  origin_iata (flight (_enrich_route answering_env "EZY6012"
                 (mkSt (bare_flight "EZY6012")
                    (Enricher.init route_db "KEY" 200) new_world)).2)
    = "LGW"
  /\ requests (world (_enrich_route answering_env "XXX999"
                 (mkSt (bare_flight "XXX999")
                    (Enricher.init negative_db "KEY" 200) new_world)).2)
     = [].
Proof.
  split.
  - destruct (fresh_cached_route_ends_lookup answering_env "EZY6012"
                (mkSt (bare_flight "EZY6012")
                   (Enricher.init route_db "KEY" 200) new_world)
                route_db
                (Routes.mk "LGW" "EGKK" "LONDON GATWICK" "EDI" "EGPH"
                   "EDINBURGH" "" "" "" "airlabs" 1699999990%float)
                eq_refl eq_refl eq_refl eq_refl) as (_ & _ & -> & _).
    reflexivity.
  - apply (fresh_cached_route_ends_lookup answering_env "XXX999"
             (mkSt (bare_flight "XXX999")
                (Enricher.init negative_db "KEY" 200) new_world)
             negative_db (negative_route 1699999990%float)
             eq_refl eq_refl eq_refl eq_refl).
Defined.

(** X15.  A cached route that is not within the last 24 hours, or no
    cached route, sends the remote lookup: with a key, a callsign that is
    not among the misses and budget left, the first request
    [_enrich_route] sends is the route query for the callsign. *)
Theorem stale_route_is_looked_up (env : Env) (cs : string) (st : St)
    (db : Db) :
  Enricher._conn (self st) = Some db ->
  db_fault env (db_stmts (world st)) = false ->
  (forall r, routes db !! cs = Some r ->
     PrimFloat.ltb (clock env (ticks (world st)) - 86400)%float
       (Routes.updated_at r) = false) ->
  str_truthy (Enricher.airlabs_key (self st)) = true ->
  cs ∉ Enricher._route_miss_cache (self st) ->
  budget_spent (self st) = false ->
  exists more,
    requests (world (_enrich_route env cs st).2)
    = requests (world st)
        ++ RouteQuery (Enricher.airlabs_key (self st)) cs :: more.
Proof.
  intros Hc Hf Hstale Hk Hm Hb.
  rewrite (enrich_route_select env cs st db Hc Hf).
  assert (match routes db !! cs with
          | Some r =>
              if PrimFloat.ltb (clock env (ticks (world st)) - 86400)%float
                   (Routes.updated_at r)
              then Some r else None
          | None => None
          end = None) as ->.
  { destruct (routes db !! cs) as [r|]; [|reflexivity].
    now rewrite (Hstale r eq_refl). }
  rewrite bind_get_self.
  cbn [self Enricher.airlabs_key set_conn Enricher._route_miss_cache].
  rewrite Hk. cbn [negb].
  rewrite (bool_decide_eq_false_2 _ Hm).
  assert (budget_spent (set_conn (Some db) (self st)) = false) as ->
    by exact Hb.
  destruct (log_lookup_route_airlabs env cs
              (mkSt (flight st) (set_conn (Some db) (self st))
                 (mkWorld (requests (world st)) (S (db_stmts (world st)))
                    (S (ticks (world st)))))) as [more E].
  exists more. exact E.
Qed.

(** A route cached two days before the clock starts. *)
Definition stale_db : Db :=
  mkDb ∅
    {[ "EZY6012" := Routes.mk "LGW" "EGKK" "LONDON GATWICK" "EDI" "EGPH"
         "EDINBURGH" "" "" "" "airlabs" 1699827200%float ]}
    ∅.

Lemma stale_route_is_looked_up_witness :
  exists more,
    requests (world (_enrich_route answering_env "EZY6012"
                (mkSt (bare_flight "EZY6012")
                   (Enricher.init stale_db "KEY" 200) new_world)).2)
    = [] ++ RouteQuery "KEY" "EZY6012" :: more.
Proof.
  apply (stale_route_is_looked_up answering_env "EZY6012"
           (mkSt (bare_flight "EZY6012")
              (Enricher.init stale_db "KEY" 200) new_world) stale_db);
    try reflexivity.
  - intros r Hr. vm_compute in Hr. injection Hr as <-. reflexivity.
  - vm_compute. set_solver.
Defined.

(** ** Who fills a field first *)

Section Precedence.
Variable env : Env.

(** What [enrich] does after the step on the hex code. *)
Definition after_hex_step (cs : string) : M unit :=
  (_enrich_from_callsign;;
   f <- get_flight;;
   if str_truthy cs
      && (negb (str_truthy (origin_iata f))
          || negb (str_truthy (destination_iata f)))
   then _enrich_route env cs
   else ret tt)%monad.

Lemma frame_after_hex_step cs : stable frame_st (after_hex_step cs).
Proof.
  unfold after_hex_step.
  apply (stable_bind _ frame_st_trans);
    [apply frame_enrich_from_callsign | intros []].
  intros st. rewrite bind_get_flight.
  destruct (_ && _); [apply frame_enrich_route | apply frame_st_refl].
Qed.

(** What [_enrich_route] does after the prefix table. *)
Definition after_prefix_step (cs : string) : M unit :=
  (f <- get_flight;;
   if str_truthy cs
      && (negb (str_truthy (origin_iata f))
          || negb (str_truthy (destination_iata f)))
   then _enrich_route env cs
   else ret tt)%monad.

Lemma frame_after_prefix_step cs : stable frame_st (after_prefix_step cs).
Proof.
  intros st. unfold after_prefix_step. rewrite bind_get_flight.
  destruct (_ && _); [apply frame_enrich_route | apply frame_st_refl].
Qed.

(** [enrich] on an engine with a store that has a row for the hex code. *)
Lemma enrich_with_row st db row :
  Enricher._conn (self st) = Some db ->
  db_fault env (db_stmts (world st)) = false ->
  str_truthy (py_strip (py_lower (hex_code (flight st)))) = true ->
  aircraft db !! py_strip (py_lower (hex_code (flight st))) = Some row ->
  enrich env st
  = after_hex_step (py_upper (py_strip (callsign (flight st))))
      (fill_from_aircraft row
         (mkSt (flight st) (set_conn (Some db) (self st))
            (mkWorld (requests (world st)) (S (db_stmts (world st)))
               (ticks (world st))))).2.
Proof.
  intros Hc Hf Hhex Hrow. unfold enrich.
  rewrite bind_get_self, Hc, bind_get_flight. cbv zeta. rewrite Hhex.
  rewrite bind_run. unfold select_aircraft.
  erewrite bind_db_execute; [|exact Hc|exact Hf].
  cbn [fst snd]. rewrite Hrow. reflexivity.
Qed.

(** [enrich] on an engine with a store that has no row for the hex code,
    or on a flight without hex code. *)
Lemma enrich_without_row st db :
  Enricher._conn (self st) = Some db ->
  str_truthy (py_strip (py_lower (hex_code (flight st)))) = false
  \/ (db_fault env (db_stmts (world st)) = false
      /\ aircraft db !! py_strip (py_lower (hex_code (flight st))) = None) ->
  exists s w,
    enrich env st
    = after_hex_step (py_upper (py_strip (callsign (flight st))))
        (mkSt (flight st) s w).
Proof.
  intros Hc H. unfold enrich.
  rewrite bind_get_self, Hc, bind_get_flight. cbv zeta.
  destruct H as [Hhex | [Hf Hrow]].
  - rewrite Hhex. exists (self st), (world st). now destruct st.
  - destruct (str_truthy _).
    + rewrite bind_run. unfold select_aircraft.
      erewrite bind_db_execute; [|exact Hc|exact Hf].
      cbn [fst snd]. rewrite Hrow. eexists _, _. reflexivity.
    + exists (self st), (world st). now destruct st.
Qed.

(** Every name of the prefix table is non-empty. *)
Lemma table_lookup_In k t v :
  table_lookup k t = Some v -> In v (map snd t).
Proof.
  induction t as [|[k' v'] t IH]; simpl; [discriminate|].
  destruct (String.eqb k k'); [intros [= ->]; now left | right; now apply IH].
Qed.

Lemma airline_names_filled prefix name :
  table_lookup prefix AIRLINE_ICAO_MAP = Some name ->
  str_truthy name = true.
Proof.
  intros H. apply table_lookup_In in H.
  assert (forallb str_truthy (map snd AIRLINE_ICAO_MAP) = true) as Hall
    by (vm_compute; reflexivity).
  rewrite forallb_forall in Hall. now apply Hall.
Qed.

(** The three fields after the step on the hex code. *)
Lemma fill_from_aircraft_fields row st :
  let f := flight st in
  let g := flight (fill_from_aircraft row st).2 in
  registration g
  = (if negb (str_truthy (registration f))
        && str_truthy (Aircraft.registration row)
     then Aircraft.registration row else registration f)
  /\ aircraft_type g
     = (if negb (str_truthy (aircraft_type f))
           && str_truthy (Aircraft.typecode row)
        then Aircraft.typecode row else aircraft_type f)
  /\ airline g
     = (if negb (str_truthy (airline f))
        then str_or (Aircraft.operator row) (str_or (Aircraft.owner row) "")
        else airline f).
Proof.
  cbv zeta. unfold fill_from_aircraft, fill.
  rewrite !bind_modify_flight. cbn [modify_flight snd flight].
  destruct (negb (str_truthy (registration (flight st)))
            && str_truthy (Aircraft.registration row));
    cbn [aircraft_type set_registration];
    destruct (negb (str_truthy (aircraft_type (flight st)))
              && str_truthy (Aircraft.typecode row));
    cbn [airline set_registration set_aircraft_type];
    destruct (negb (str_truthy (airline (flight st))));
    repeat split.
Qed.

(** A field the row fills keeps the value of the row to the end. *)
Lemma row_then_rest row cs st :
  let f := flight st in
  let f' := flight (after_hex_step cs (fill_from_aircraft row st).2).2 in
  (str_truthy (registration f) = false ->
   str_truthy (Aircraft.registration row) = true ->
   registration f' = Aircraft.registration row)
  /\ (str_truthy (aircraft_type f) = false ->
      str_truthy (Aircraft.typecode row) = true ->
      aircraft_type f' = Aircraft.typecode row)
  /\ (str_truthy (airline f) = false ->
      str_truthy (Aircraft.operator row) = true ->
      airline f' = Aircraft.operator row)
  /\ (str_truthy (airline f) = false ->
      str_truthy (Aircraft.operator row) = false ->
      str_truthy (Aircraft.owner row) = true ->
      airline f' = Aircraft.owner row).
Proof.
  cbv zeta.
  pose proof (frame_after_hex_step cs (fill_from_aircraft row st).2)
    as (_ & Ha & Ht & Hr & _).
  pose proof (fill_from_aircraft_fields row st) as H. cbv zeta in H.
  destruct H as (Er & Et & Ea).
  unfold frame_st, keeps_filled in *.
  generalize dependent (flight (after_hex_step cs
                                  (fill_from_aircraft row st).2).2).
  generalize dependent (flight (fill_from_aircraft row st).2).
  intros g Er Et Ea h Ha Ht Hr.
  repeat split.
  - intros E1 E2. rewrite E1, E2 in Er. cbn in Er.
    rewrite Er in Hr. now apply Hr.
  - intros E1 E2. rewrite E1, E2 in Et. cbn in Et.
    rewrite Et in Ht. now apply Ht.
  - intros E1 E2. rewrite E1 in Ea. unfold str_or in Ea.
    rewrite E2 in Ea. cbn in Ea. rewrite Ea in Ha. now apply Ha.
  - intros E1 E2 E3. rewrite E1 in Ea. unfold str_or in Ea.
    rewrite E2, E3 in Ea. cbn in Ea. rewrite Ea in Ha. now apply Ha.
Qed.

End Precedence.

(** X12.  What the stored aircraft row gives comes first: when the store
    holds a row for the hex code of the flight (trimmed, in lower case),
    an empty registration, type or airline of the flight ends, after
    [enrich], as the non-empty registration, type code or operator of the
    row (the owner when the operator is empty), whatever the prefix table
    holds for the callsign and whatever the route cache and the API
    answer. *)
Theorem stored_aircraft_row_comes_first (env : Env) (st : St) (db : Db)
    (row : Aircraft.row) :
  Enricher._conn (self st) = Some db ->
  db_fault env (db_stmts (world st)) = false ->
  str_truthy (py_strip (py_lower (hex_code (flight st)))) = true ->
  aircraft db !! py_strip (py_lower (hex_code (flight st))) = Some row ->
  let f := flight st in
  let f' := flight (enrich env st).2 in
  (str_truthy (registration f) = false ->
   str_truthy (Aircraft.registration row) = true ->
   registration f' = Aircraft.registration row)
  /\ (str_truthy (aircraft_type f) = false ->
      str_truthy (Aircraft.typecode row) = true ->
      aircraft_type f' = Aircraft.typecode row)
  /\ (str_truthy (airline f) = false ->
      str_truthy (Aircraft.operator row) = true ->
      airline f' = Aircraft.operator row)
  /\ (str_truthy (airline f) = false ->
      str_truthy (Aircraft.operator row) = false ->
      str_truthy (Aircraft.owner row) = true ->
      airline f' = Aircraft.owner row).
Proof.
  intros Hc Hf Hhex Hrow f f'. subst f f'.
  rewrite (enrich_with_row env st db row Hc Hf Hhex Hrow).
  exact (row_then_rest env row _
           (mkSt (flight st) (set_conn (Some db) (self st))
              (mkWorld (requests (world st)) (S (db_stmts (world st)))
                 (ticks (world st))))).
Qed.

(** The Ryanair 737 of the store, reported without airline, registration
    and type. *)
Definition unnamed_flight : Flight :=
  mkFlight "RYR4421" "" "" "" "" "" "" ""
    51.55%float (-0.08)%float 24500 412 310 1200 3.8%float "7402" "" false
    "4CA1FA".

Lemma stored_aircraft_row_comes_first_witness :
  registration (flight (enrich answering_env
                  (sample_state unnamed_flight sample_db "KEY" 200)).2)
    = "EI-DCP"
  /\ airline (flight (enrich answering_env
                (sample_state unnamed_flight sample_db "KEY" 200)).2)
     = "DIFFERENT".
Proof.
  destruct (stored_aircraft_row_comes_first answering_env
              (sample_state unnamed_flight sample_db "KEY" 200) sample_db
              (Aircraft.mk "EI-DCP" "B738" "BOEING 737-8AS" "DIFFERENT" ""
                 "" "" "opensky" 1600000000%float)
              eq_refl eq_refl eq_refl eq_refl) as (Hr & _ & Ha & _).
  split; [apply Hr | apply Ha]; reflexivity.
Defined.

(** X13.  The prefix table comes before the route: when the store gives
    no airline (no hex code, or no row for it), the airline of the flight
    is empty, and the first three letters of its callsign (four characters
    or more once trimmed) are a key of [AIRLINE_ICAO_MAP], the airline
    after [enrich] is the name of the table, whatever airline the route
    cache or the API gives for the callsign. *)
Theorem callsign_prefix_before_route (env : Env) (st : St) (db : Db)
    (name : string) :
  Enricher._conn (self st) = Some db ->
  str_truthy (py_strip (py_lower (hex_code (flight st)))) = false
  \/ (db_fault env (db_stmts (world st)) = false
      /\ aircraft db !! py_strip (py_lower (hex_code (flight st))) = None) ->
  str_truthy (airline (flight st)) = false ->
  (4 <=? String.length (py_strip (callsign (flight st))))%nat = true ->
  py_isalpha (py_upper (substring 0 3 (py_strip (callsign (flight st)))))
    = true ->
  table_lookup (py_upper (substring 0 3 (py_strip (callsign (flight st)))))
    AIRLINE_ICAO_MAP = Some name ->
  airline (flight (enrich env st).2) = name.
Proof.
  intros Hc Hrow Ha Hlen Halpha Htab.
  destruct (enrich_without_row env st db Hc Hrow) as (s & w & ->).
  unfold after_hex_step, _enrich_from_callsign.
  rewrite bind_modify_flight. cbn [flight self world].
  rewrite Ha. cbv zeta. rewrite Hlen, Halpha, Htab.
  match goal with
  | |- airline (flight (?c ?s0).2) = _ =>
      pose proof (frame_after_prefix_step env
                    (py_upper (py_strip (callsign (flight st)))) s0)
        as (_ & Hk & _)
  end.
  unfold keeps_filled in Hk. cbn [flight airline set_airline] in Hk.
  apply Hk. exact (airline_names_filled _ _ Htab).
Qed.

(** A route cached for RYR4421 with another airline name. *)
Definition named_route_db : Db :=
  mkDb ∅
    {[ "RYR4421" := Routes.mk "STN" "EGSS" "LONDON STANSTED" "DUB" "EIDW"
         "DUBLIN" "MALTA AIR" "B38M" "FR4421" "airlabs"
         1699999990%float ]}
    ∅.

Lemma callsign_prefix_before_route_witness :
  airline (flight (enrich answering_env
             (sample_state (bare_flight "RYR4421") named_route_db "KEY"
                200)).2) = "RYANAIR".
Proof.
  apply (callsign_prefix_before_route answering_env
           (sample_state (bare_flight "RYR4421") named_route_db "KEY" 200)
           named_route_db "RYANAIR" eq_refl);
    [left; reflexivity | reflexivity..].
Defined.

(** ** Merging the same API result twice *)

Section MergeTwice.
Variable env : Env.

(** The test [if updates:] of [_cache_aircraft] on the row [ex]. *)
Definition needs_update (ex : Aircraft.row)
    (registration typecode operator operator_icao : string) : bool :=
  (str_truthy registration && negb (str_truthy (Aircraft.registration ex)))
  || (str_truthy typecode && negb (str_truthy (Aircraft.typecode ex)))
  || (str_truthy operator && negb (str_truthy (Aircraft.operator ex)))
  || (str_truthy operator_icao
        && negb (str_truthy (Aircraft.operator_icao ex))).

Lemma merged_needs_no_update ex reg ty op opi now :
  needs_update (merge_aircraft ex reg ty op opi now) reg ty op opi = false.
Proof.
  unfold needs_update, merge_aircraft.
  cbn [Aircraft.registration Aircraft.typecode Aircraft.operator
       Aircraft.operator_icao].
  destruct (str_truthy reg) eqn:E1, (str_truthy ty) eqn:E2,
    (str_truthy op) eqn:E3, (str_truthy opi) eqn:E4;
    destruct (str_truthy (Aircraft.registration ex)) eqn:F1,
      (str_truthy (Aircraft.typecode ex)) eqn:F2,
      (str_truthy (Aircraft.operator ex)) eqn:F3,
      (str_truthy (Aircraft.operator_icao ex)) eqn:F4;
    cbn [andb negb orb]; rewrite ?E1, ?E2, ?E3, ?E4, ?F1, ?F2, ?F3, ?F4;
    reflexivity.
Qed.

Lemma inserted_needs_no_update reg ty op opi now :
  needs_update
    (Aircraft.mk reg ty "" op opi "" "" "api_enriched" now) reg ty op opi
  = false.
Proof.
  unfold needs_update.
  cbn [Aircraft.registration Aircraft.typecode Aircraft.operator
       Aircraft.operator_icao].
  now rewrite !andb_negb_r.
Qed.

(** A call that returns normally leaves a row that needs no update. *)
Lemma cache_aircraft_settles hex reg ty op opi st st1 :
  str_truthy hex = true ->
  _cache_aircraft env hex reg ty op opi st = (Ok tt, st1) ->
  exists db1 r1,
    Enricher._conn (self st1) = Some db1
    /\ aircraft db1 !! hex = Some r1
    /\ needs_update r1 reg ty op opi = false.
Proof.
  intros Hhex. unfold _cache_aircraft. rewrite Hhex. cbn [negb].
  unfold select_aircraft. rewrite bind_run.
  destruct (Enricher._conn (self st)) as [db|] eqn:Hc.
  2:{ unfold db_execute. rewrite Hc. discriminate. }
  destruct (db_execute_cases env (fun db => (aircraft db !! hex, db)) st db
              Hc) as [-> | ->]; cbn [fst snd]; [discriminate|].
  assert (forall r st2 st3,
            Enricher._conn (self st2) = Some db ->
            (bind (write_aircraft env hex r) (fun _ => db_commit env)) st2
            = (Ok tt, st3) ->
            exists db1,
              Enricher._conn (self st3) = Some db1
              /\ aircraft db1 !! hex = Some r) as Hw.
  { intros r st2 st3 Hc2. unfold write_aircraft. rewrite bind_run.
    destruct (db_execute_cases env
                (fun db => (tt, mkDb (<[hex := r]> (aircraft db))
                                  (routes db) (airports db))) st2 db Hc2)
      as [-> | ->]; cbn [fst snd]; [discriminate|].
    set (st4 := mkSt _ _ _).
    assert (Enricher._conn (self st4)
            = Some (mkDb (<[hex := r]> (aircraft db)) (routes db)
                      (airports db))) as Hc4 by reflexivity.
    unfold db_commit.
    destruct (db_execute_cases env (fun db => (tt, db)) st4 _ Hc4)
      as [-> | ->]; cbn [fst snd]; [discriminate|].
    intros [= <-]. eexists. split; [reflexivity|].
    cbn [aircraft]. apply lookup_insert_eq. }
  destruct (aircraft db !! hex) as [ex|] eqn:Hex.
  - fold (needs_update ex reg ty op opi).
    destruct (needs_update ex reg ty op opi) eqn:Hu.
    + rewrite bind_time_time. intros H.
      apply Hw in H; [|reflexivity]. destruct H as (db1 & H1 & H2).
      exists db1, (merge_aircraft ex reg ty op opi
                     (clock env (ticks (world st)))).
      split; [exact H1|]. split; [exact H2|].
      apply merged_needs_no_update.
    + intros [= <-]. exists db, ex. cbn [self set_conn Enricher._conn].
      now split.
  - rewrite bind_time_time. intros H.
    apply Hw in H; [|reflexivity]. destruct H as (db1 & H1 & H2).
    exists db1, (Aircraft.mk reg ty "" op opi "" "" "api_enriched"
                   (clock env (ticks (world st)))).
    split; [exact H1|]. split; [exact H2|].
    apply inserted_needs_no_update.
Qed.

(** A call on a row that needs no update leaves the store as it is. *)
Lemma cache_aircraft_settled hex reg ty op opi st db r :
  Enricher._conn (self st) = Some db ->
  aircraft db !! hex = Some r ->
  needs_update r reg ty op opi = false ->
  Enricher._conn (self (_cache_aircraft env hex reg ty op opi st).2)
  = Some db.
Proof.
  intros Hc Hr Hu. unfold _cache_aircraft.
  destruct (negb (str_truthy hex)); [exact Hc|].
  unfold select_aircraft. rewrite bind_run.
  destruct (db_execute_cases env (fun db => (aircraft db !! hex, db)) st db
              Hc) as [-> | ->]; cbn [fst snd]; [exact Hc|].
  rewrite Hr. fold (needs_update r reg ty op opi). rewrite Hu.
  reflexivity.
Qed.

End MergeTwice.

(** X16.  Merging the same API result again writes nothing: after a call
    of [_cache_aircraft] that returned normally, a call with the same
    arguments on the store it left, at any later time, leaves the store
    exactly as it is (no row touched, no time stamp renewed). *)
Theorem cache_aircraft_again_writes_nothing (env : Env)
    (hex reg ty op opi : string) (st st1 st2 : St) :
  _cache_aircraft env hex reg ty op opi st = (Ok tt, st1) ->
  Enricher._conn (self st2) = Enricher._conn (self st1) ->
  Enricher._conn (self (_cache_aircraft env hex reg ty op opi st2).2)
  = Enricher._conn (self st1).
Proof.
  intros H1 H2. destruct (str_truthy hex) eqn:Hhex.
  - destruct (cache_aircraft_settles env hex reg ty op opi st st1 Hhex H1)
      as (db1 & r1 & Hc & Hr & Hu).
    rewrite Hc in *.
    exact (cache_aircraft_settled env hex reg ty op opi st2 db1 r1 H2 Hr Hu).
  - unfold _cache_aircraft in *. rewrite Hhex in *. exact H2.
Qed.

(** The state a first merge for the Ryanair 737 leaves. *)
Definition merged_once : St :=
  (_cache_aircraft answering_env "4ca1fa" "EI-DCP" "B738" "RYANAIR" "RYR"
     (sample_state (bare_flight "RYR4421") sample_db "KEY" 200)).2.

Lemma cache_aircraft_again_writes_nothing_witness :
  Enricher._conn (self (_cache_aircraft answering_env "4ca1fa" "EI-DCP"
                          "B738" "RYANAIR" "RYR" merged_once).2)
  = Enricher._conn (self merged_once).
Proof.
  apply (cache_aircraft_again_writes_nothing answering_env "4ca1fa" "EI-DCP"
           "B738" "RYANAIR" "RYR"
           (sample_state (bare_flight "RYR4421") sample_db "KEY" 200));
    reflexivity.
Defined.

(** ** From the import to the enrichment *)

Section ImportThenEnrich.
Variable env : Env.

(** The import writes under non-empty keys only. *)
Lemma parsed_rows_keys min_len source header rows : forall tick hex r,
  In (hex, r) (parsed_rows env min_len source header rows tick) ->
  str_truthy hex = true.
Proof.
  induction rows as [|row rows IH]; intros tick hex r; [intros []|].
  cbn [parsed_rows].
  destruct (length row <? min_len)%nat; [apply IH|].
  cbv zeta.
  destruct (str_truthy (py_lower (get_col header row "icao24"))) eqn:E;
    cbn [negb]; [|apply IH].
  intros [[= <- _] | H]; [exact E | exact (IH _ _ _ H)].
Qed.

End ImportThenEnrich.

(** X17.  What [seed_from_file] imports is what [enrich] finds: on a
    store that works, after the import of a file whose last row for a hex
    address is [r], a flight reported with that address (in any case,
    with spaces around it) and without registration, type or airline gets
    the non-empty registration, type code and operator of [r]. *)
Theorem imported_row_enriches (env : Env) (header : list string)
    (rows : list (list string)) (st : St) (db : Db) (f : Flight)
    (hex : string) (r : Aircraft.row)
    (l1 l2 : list (string * Aircraft.row)) :
  (forall n, db_fault env n = false) ->
  Enricher._conn (self st) = Some db ->
  parsed_rows env 0 "csv_import"
    (map (fun h => py_strip_quotes (py_strip h)) header) rows
    (ticks (world st)) = l1 ++ (hex, r) :: l2 ->
  hex ∉ l2.*1 ->
  py_strip (py_lower (hex_code f)) = hex ->
  let st' := (seed_from_file env (header :: rows) st).2 in
  let f' := flight (enrich env (mkSt f (self st') (world st'))).2 in
  (seed_from_file env (header :: rows) st).1 = Ok tt
  /\ (str_truthy (registration f) = false ->
      str_truthy (Aircraft.registration r) = true ->
      registration f' = Aircraft.registration r)
  /\ (str_truthy (aircraft_type f) = false ->
      str_truthy (Aircraft.typecode r) = true ->
      aircraft_type f' = Aircraft.typecode r)
  /\ (str_truthy (airline f) = false ->
      str_truthy (Aircraft.operator r) = true ->
      airline f' = Aircraft.operator r).
Proof.
  intros no_fault Hc Hfile Hlast Hhex. cbv zeta.
  unfold seed_from_file.
  destruct (import_csv_upserts env no_fault 0 "csv_import" header rows st db
              Hc) as (st' & db' & -> & Hc' & Ha).
  cbn [fst snd]. split; [reflexivity|].
  rewrite Hfile in Ha.
  assert (aircraft db' !! hex = Some r) as Hrow.
  { rewrite Ha. now apply upsert_all_last. }
  assert (str_truthy hex = true) as Hne.
  { apply (parsed_rows_keys env 0 "csv_import"
             (map (fun h => py_strip_quotes (py_strip h)) header) rows
             (ticks (world st)) hex r).
    rewrite Hfile. apply in_or_app. right. now left. }
  set (st0 := mkSt f (self st') (world st')).
  assert (Enricher._conn (self st0) = Some db') as Hc0 by exact Hc'.
  assert (str_truthy (py_strip (py_lower (hex_code (flight st0)))) = true)
    as Hh0 by (cbn [st0 flight]; now rewrite Hhex).
  assert (aircraft db' !! py_strip (py_lower (hex_code (flight st0)))
          = Some r) as Hr0 by (cbn [st0 flight]; now rewrite Hhex).
  rewrite (enrich_with_row env st0 db' r Hc0 (no_fault _) Hh0 Hr0).
  destruct (row_then_rest env r
              (py_upper (py_strip (callsign (flight st0))))
              (mkSt (flight st0) (set_conn (Some db') (self st0))
                 (mkWorld (requests (world st0)) (S (db_stmts (world st0)))
                    (ticks (world st0))))) as (H1 & H2 & H3 & _).
  repeat split; assumption.
Qed.

(** A file of one aircraft, its hex address in upper case. *)
Definition ryanair_csv : list (list string) :=
  [ ["icao24"; "registration"; "typecode"; "operator"];
    ["4CA1FA"; "EI-DCP"; "B738"; "RYANAIR DAC"] ].

(** The state the import of the file leaves. *)
Definition imported : St :=
  (seed_from_file offline_env ryanair_csv
     (sample_state default_flight empty_db "" 200)).2.

Lemma imported_row_enriches_witness :
  registration
    (flight (enrich offline_env
               (mkSt unnamed_flight (self imported) (world imported))).2)
    = "EI-DCP"
  /\ airline
       (flight (enrich offline_env
                  (mkSt unnamed_flight (self imported)
                     (world imported))).2)
     = "RYANAIR DAC".
Proof.
  destruct (imported_row_enriches offline_env
              ["icao24"; "registration"; "typecode"; "operator"]
              [["4CA1FA"; "EI-DCP"; "B738"; "RYANAIR DAC"]]
              (sample_state default_flight empty_db "" 200) empty_db
              unnamed_flight "4ca1fa"
              (Aircraft.mk "EI-DCP" "B738" "" "RYANAIR DAC" "" "" ""
                 "csv_import" (clock offline_env 0)) [] []
              (fun _ => eq_refl) eq_refl eq_refl)
    as (_ & Hr & _ & Ha).
  - vm_compute. set_solver.
  - reflexivity.
  - split; [apply Hr | apply Ha]; reflexivity.
Defined.

(** ** A route the API finds *)

Section Found.
Variable env : Env.
Hypothesis no_fault : forall n, db_fault env n = false.

(** An object whose values are strings or false values (null, zero, an
    empty list): every field read of it succeeds. *)
Definition plain_item (item : Json) : bool :=
  match item with
  | JObj kv =>
      forallb (fun p => match p.2 with
                        | JStr _ => true
                        | v => negb (json_truthy v)
                        end) kv
  | _ => false
  end.

Lemma dict_lookup_In k kv v :
  dict_lookup k kv = Some v -> exists k', In (k', v) kv.
Proof.
  induction kv as [|[k' v'] kv IH]; simpl; [discriminate|].
  destruct (dict_lookup k kv) as [w|].
  - intros [= ->]. destruct (IH eq_refl) as [k0 H]. exists k0. now right.
  - destruct (String.eqb k k'); [|discriminate].
    intros [= ->]. exists k'. now left.
Qed.

Lemma plain_item_value item k :
  plain_item item = true ->
  exists v, json_get item k JNull = Ok v
            /\ (json_truthy v = true -> exists s, v = JStr s).
Proof.
  destruct item as [| | | | | |kv]; try discriminate.
  cbn [plain_item json_get]. intros H.
  destruct (dict_lookup k kv) as [v|] eqn:E.
  - exists v. split; [reflexivity|]. intros Ht.
    destruct (dict_lookup_In _ _ _ E) as [k' Hin].
    rewrite forallb_forall in H. specialize (H _ Hin). cbn [snd] in H.
    destruct v; try (rewrite Ht in H; discriminate). now eexists.
  - exists JNull. split; [reflexivity | discriminate].
Qed.

Lemma plain_item_field item k :
  plain_item item = true -> exists s, json_field item k = Ok s.
Proof.
  intros H. destruct (plain_item_value item k H) as (v & E & Hv).
  unfold json_field. rewrite E. cbn [obind].
  destruct (json_truthy v); [|now eexists].
  destruct (Hv eq_refl) as [s ->]. now eexists.
Qed.

Lemma plain_item_field_lower item k :
  plain_item item = true -> exists s, json_field_lower item k = Ok s.
Proof.
  intros H. destruct (plain_item_value item k H) as (v & E & Hv).
  unfold json_field_lower. rewrite E. cbn [obind].
  destruct (json_truthy v); [|now eexists].
  destruct (Hv eq_refl) as [s ->]. now eexists.
Qed.

(** From [st] to [st'] the flight and the misses are the same, and an
    open store is still open, with the same routes. *)
Definition side (st st' : St) : Prop :=
  flight st' = flight st
  /\ Enricher._route_miss_cache (self st')
     = Enricher._route_miss_cache (self st)
  /\ forall db, Enricher._conn (self st) = Some db ->
       exists db', Enricher._conn (self st') = Some db'
                   /\ routes db' = routes db.

Lemma side_refl st : side st st.
Proof. repeat split. intros db H. now exists db. Qed.

Lemma side_trans a b c : side a b -> side b c -> side a c.
Proof.
  intros (F1 & M1 & C1) (F2 & M2 & C2).
  split; [congruence|]. split; [congruence|].
  intros db H. destruct (C1 db H) as (db1 & H1 & R1).
  destruct (C2 db1 H1) as (db2 & H2 & R2).
  exists db2. split; [exact H2 | congruence].
Qed.

Lemma side_same st st' :
  flight st' = flight st -> self st' = self st -> side st st'.
Proof.
  intros F S. split; [exact F|]. rewrite S. split; [reflexivity|].
  intros db H. now exists db.
Qed.

Lemma side_time_time : stable side (time_time env).
Proof. intros st. now apply side_same. Qed.

Lemma side_session_get q : stable side (session_get env q).
Proof.
  intros st. unfold session_get. destruct (http env _ q); now apply side_same.
Qed.

Lemma side_count_api_call : stable side count_api_call.
Proof.
  intros st. repeat split. intros db H. now exists db.
Qed.

Lemma side_db_execute {A} (q : Db -> A * Db) :
  (forall db, routes (q db).2 = routes db) ->
  stable side (db_execute env q).
Proof.
  intros Hq st. unfold db_execute.
  destruct (Enricher._conn (self st)) as [db|] eqn:Hc; [|apply side_refl].
  destruct (db_fault env _).
  - split; [reflexivity|]. split; [reflexivity|].
    intros db0 H. now exists db0.
  - specialize (Hq db). destruct (q db) as [a db'].
    split; [reflexivity|]. split; [reflexivity|].
    intros db0 H. rewrite Hc in H. injection H as <-. now exists db'.
Qed.

Hint Resolve side_time_time side_session_get side_count_api_call : stable.
Hint Extern 2 (stable side (db_execute _ _)) =>
  apply side_db_execute; intros; reflexivity : stable.

Ltac side_auto := stable_auto side_refl side_trans.

Lemma side_lookup_airport_name iata :
  stable side (_lookup_airport_name env iata).
Proof.
  unfold _lookup_airport_name, select_airport, replace_airport, db_commit.
  side_auto.
Qed.

Lemma side_cache_aircraft hex reg ty op opi :
  stable side (_cache_aircraft env hex reg ty op opi).
Proof.
  unfold _cache_aircraft, select_aircraft, write_aircraft, db_commit.
  side_auto.
Qed.

(** The store is open. *)
Definition open (st : St) : Prop := Enricher._conn (self st) <> None.

Lemma lands_stmt {A} (q : Db -> A * Db) st :
  open st -> lands (db_execute env q) st open.
Proof.
  unfold open. intros H.
  destruct (Enricher._conn (self st)) as [db|] eqn:Hc; [|contradiction].
  eapply lands_db_execute; [exact Hc | apply no_fault | discriminate].
Qed.

Lemma lands_lookup_airport_name iata st :
  open st -> lands (_lookup_airport_name env iata) st (fun _ => True).
Proof.
  intros H. unfold _lookup_airport_name.
  destruct (negb (str_truthy iata)); [now apply lands_ret|].
  eapply lands_bind; [apply lands_stmt; exact H | intros row st1 _].
  cbv zeta. destruct (str_truthy _); [now apply lands_ret|].
  apply lands_get_self.
  destruct (negb _); [now apply lands_ret|].
  destruct (budget_spent _); [now apply lands_ret|].
  eapply lands_bind with (Q := fun _ => True).
  { apply lands_try_except. intros e st'. now apply lands_ret. }
  intros [name|] st2 _; now apply lands_ret.
Qed.

Lemma lands_cache_aircraft hex reg ty op opi st :
  open st ->
  lands (_cache_aircraft env hex reg ty op opi) st (fun _ => True).
Proof.
  intros H. unfold _cache_aircraft.
  destruct (negb (str_truthy hex)); [now apply lands_ret|].
  eapply lands_bind; [apply lands_stmt; exact H | intros row st1 H1].
  assert (forall r st2, open st2 ->
            lands (bind (write_aircraft env hex r) (fun _ => db_commit env))
              st2 (fun _ => True)) as Hw.
  { intros r st2 H2.
    eapply lands_bind; [apply lands_stmt; exact H2 | intros [] st3 H3].
    eapply lands_weaken; [apply lands_stmt; exact H3 | trivial]. }
  destruct row as [ex|].
  - cbv zeta. destruct (_ || _); [|now apply lands_ret].
    eapply lands_bind with (Q := open);
      [apply lands_time_time; exact H1 | intros now st2 H2].
    now apply Hw.
  - eapply lands_bind with (Q := open);
      [apply lands_time_time; exact H1 | intros now st2 H2].
    now apply Hw.
Qed.

Lemma lands_side {A} (c : M A) st :
  lands c st (fun _ => True) -> stable side c -> lands c st (side st).
Proof. intros [H _] Hs. split; [exact H | apply Hs]. Qed.

Lemma side_open st st' : open st -> side st st' -> open st'.
Proof.
  unfold open. intros H (_ & _ & Hc).
  destruct (Enricher._conn (self st)) as [db|]; [|contradiction].
  destruct (Hc db eq_refl) as (db' & -> & _). discriminate.
Qed.

(** A [try] whose body returns. *)
Lemma lands_try_body {A} (body : M A) (handler : exn -> M A) st
    (Q : St -> Prop) :
  lands body st Q -> lands (try_except body handler) st Q.
Proof.
  intros [[a Ha] HQ]. unfold lands, try_except.
  destruct (body st) as [[a'|e] st']; simpl in *; [|discriminate].
  split; [now exists a' | exact HQ].
Qed.

(** The airport name for a code, or the empty string for no code. *)
Lemma lands_airport_name_of code st :
  open st ->
  lands (if str_truthy code then _lookup_airport_name env code else ret "")
    st (side st).
Proof.
  intros H. destruct (str_truthy code).
  - apply lands_side;
      [now apply lands_lookup_airport_name | apply side_lookup_airport_name].
  - apply lands_ret, side_refl.
Qed.

(** The six assignments that apply a route that was found. *)
Definition route_filled (dep dep_name arr arr_name airline_name
    aircraft_icao : string) (f : Flight) : Flight :=
  let put get set v (f : Flight) :=
    if negb (str_truthy (get f)) && str_truthy v then set v f else f in
  put aircraft_type set_aircraft_type aircraft_icao
    (put airline set_airline airline_name
       (put destination_name set_destination_name arr_name
          (put destination_iata set_destination_iata arr
             (put origin_name set_origin_name dep_name
                (put origin_iata set_origin_iata dep f))))).

Lemma six_fills {B} dep dep_name arr arr_name airline_name aircraft_icao
    (k : unit -> M B) st :
  bind (fill origin_iata set_origin_iata dep) (fun _ =>
  bind (fill origin_name set_origin_name dep_name) (fun _ =>
  bind (fill destination_iata set_destination_iata arr) (fun _ =>
  bind (fill destination_name set_destination_name arr_name) (fun _ =>
  bind (fill airline set_airline airline_name) (fun _ =>
  bind (fill aircraft_type set_aircraft_type aircraft_icao) k))))) st
  = k tt (mkSt (route_filled dep dep_name arr arr_name airline_name
                  aircraft_icao (flight st))
            (self st) (world st)).
Proof. reflexivity. Qed.

Lemma route_filled_origin dep dep_name arr arr_name airline_name
    aircraft_icao f :
  origin_iata (route_filled dep dep_name arr arr_name airline_name
                 aircraft_icao f)
  = (if negb (str_truthy (origin_iata f)) && str_truthy dep
     then dep else origin_iata f).
Proof.
  unfold route_filled. cbv zeta.
  repeat match goal with
         | |- context [if ?c then _ else _] => destruct c
         end; reflexivity.
Qed.

Lemma route_filled_destination dep dep_name arr arr_name airline_name
    aircraft_icao f :
  destination_iata (route_filled dep dep_name arr arr_name airline_name
                      aircraft_icao f)
  = (if negb (str_truthy (destination_iata f)) && str_truthy arr
     then arr else destination_iata f).
Proof.
  unfold route_filled. cbv zeta.
  destruct (negb (str_truthy (origin_iata f)) && str_truthy dep);
    cbn [origin_name set_origin_iata];
    destruct (negb (str_truthy (origin_name f)) && str_truthy dep_name);
    cbn [destination_iata set_origin_iata set_origin_name];
    destruct (negb (str_truthy (destination_iata f)) && str_truthy arr);
    repeat match goal with
           | |- context [if ?c then _ else _] => destruct c
           end; reflexivity.
Qed.

(** The row the lookup stores for a route that was found. *)
Definition found_row (row : Routes.row) (dep arr : string) : Prop :=
  Routes.dep_iata row = dep /\ Routes.arr_iata row = arr
  /\ Routes.source row = "airlabs".

Lemma found_route_outcome cs st db status j item rest dep arr :
  route_reply env cs st = Response status (Some j) ->
  (status =? 401) = false -> (status =? 429) = false ->
  (400 <=? status) && (status <? 600) = false ->
  json_get j "response" (JArr []) = Ok (JArr (item :: rest)) ->
  plain_item item = true ->
  json_field item "dep_iata" = Ok dep ->
  json_field item "arr_iata" = Ok arr ->
  str_truthy dep || str_truthy arr = true ->
  Enricher._conn (self st) = Some db ->
  let r := _lookup_route_airlabs env cs st in
  r.1 = Ok tt
  /\ Enricher._route_miss_cache (self r.2)
     = Enricher._route_miss_cache (self st)
  /\ (exists db' row,
        Enricher._conn (self r.2) = Some db'
        /\ routes db' !! cs = Some row /\ found_row row dep arr)
  /\ origin_iata (flight r.2)
     = (if negb (str_truthy (origin_iata (flight st))) && str_truthy dep
        then dep else origin_iata (flight st))
  /\ destination_iata (flight r.2)
     = (if negb (str_truthy (destination_iata (flight st)))
           && str_truthy arr
        then arr else destination_iata (flight st)).
Proof.
  unfold route_reply. intros H H1 H2 H3 Hresp Hplain Hdep Harr Hsome Hc.
  cbv zeta.
  set (Q := fun st' : St =>
    Enricher._route_miss_cache (self st')
      = Enricher._route_miss_cache (self st)
    /\ (exists db' row,
          Enricher._conn (self st') = Some db'
          /\ routes db' !! cs = Some row /\ found_row row dep arr)
    /\ origin_iata (flight st')
       = (if negb (str_truthy (origin_iata (flight st))) && str_truthy dep
          then dep else origin_iata (flight st))
    /\ destination_iata (flight st')
       = (if negb (str_truthy (destination_iata (flight st)))
             && str_truthy arr
          then arr else destination_iata (flight st))).
  enough (lands (_lookup_route_airlabs env cs) st Q) as [[[] Ha] HQ];
    [split; [exact Ha | exact HQ] |].
  unfold _lookup_route_airlabs. apply lands_try_body.
  unfold lands, count_api_call.
  rewrite bind_modify_self, bind_get_self, bind_session_get.
  cbn [self world requests flight Enricher.airlabs_key set_api_calls].
  rewrite H. cbn [fst snd]. rewrite H1, H2.
  unfold raise_for_status. rewrite H3. rewrite bind_ret.
  cbn [r_json]. rewrite bind_ret.
  rewrite bind_lift, Hresp. cbn [json_truthy negb].
  rewrite bind_lift. cbn [json_first].
  rewrite bind_lift, Hdep, bind_lift, Harr.
  assert (negb (str_truthy dep) && negb (str_truthy arr) = false) as ->.
  { destruct (str_truthy dep), (str_truthy arr); try reflexivity.
    discriminate. }
  destruct (plain_item_field item "dep_icao" Hplain) as [dep_icao E].
  rewrite bind_lift, E. clear E.
  destruct (plain_item_field item "arr_icao" Hplain) as [arr_icao E].
  rewrite bind_lift, E. clear E.
  destruct (plain_item_field item "airline_name" Hplain) as [aname E].
  rewrite bind_lift, E.
  destruct (plain_item_field item "aircraft_icao" Hplain) as [actype E'].
  rewrite bind_lift, E'.
  destruct (plain_item_field item "flight_iata" Hplain) as [fiata E''].
  rewrite bind_lift, E''. clear E''.
  set (st1 := mkSt _ _ _).
  match goal with
  | |- (exists a, (?c ?s).1 = Ok a) /\ Q (?c ?s).2 => change (lands c s Q)
  end.
  assert (Enricher._conn (self st1) = Some db) as Hc1 by exact Hc.
  assert (open st1) as O1 by (unfold open; rewrite Hc1; discriminate).
  eapply lands_bind;
    [apply lands_airport_name_of; exact O1 | intros dep_name st2 S2].
  eapply lands_bind;
    [apply lands_airport_name_of; exact (side_open _ _ O1 S2)
    | intros arr_name st3 S3].
  destruct (side_trans _ _ _ S2 S3) as (F3 & M3 & C3).
  destruct (C3 db Hc1) as (db3 & Hc3 & R3).
  unfold lands. rewrite bind_run.
  rewrite (cache_route_run env cs _ st3 db3 Hc3 (no_fault _) (no_fault _)).
  set (st4 := mkSt _ _ _). rewrite six_fills.
  destruct (plain_item_field_lower item "hex" Hplain) as [hex Eh].
  rewrite bind_lift, Eh.
  set (st5 := mkSt _ _ _).
  assert (Q st5) as Q5.
  { unfold Q. cbn [st5 st4 self flight set_conn Enricher._route_miss_cache
                   Enricher._conn].
    split; [exact M3|]. split.
    - eexists _, _. split; [reflexivity|]. cbn [routes].
      split; [apply lookup_insert_eq|]. repeat split.
    - rewrite route_filled_origin, route_filled_destination, F3.
      split; reflexivity. }
  clearbody st5. clear st4.
  assert (forall st6, side st5 st6 -> Q st6) as Qside.
  { intros st6 (F6 & M6 & C6).
    destruct Q5 as (Qm & (db5 & row & Qc & Qr & Qf) & Qo & Qd).
    destruct (C6 db5 Qc) as (db6 & Hc6 & R6).
    split; [exact (eq_trans M6 Qm)|]. split.
    - exists db6, row. split; [exact Hc6|].
      split; [rewrite R6; exact Qr | exact Qf].
    - split; [rewrite F6; exact Qo | rewrite F6; exact Qd]. }
  match goal with
  | |- (exists a, (?c ?s).1 = Ok a) /\ Q (?c ?s).2 => change (lands c s Q)
  end.
  destruct (str_truthy hex); [|apply lands_ret; exact Q5].
  destruct (plain_item_field item "reg_number" Hplain) as [reg Er].
  destruct (plain_item_field item "airline_icao" Hplain) as [aicao Ei].
  unfold lands. rewrite bind_lift, Er, !bind_lift, Ei.
  match goal with
  | |- (exists a, (?c ?s).1 = Ok a) /\ Q (?c ?s).2 => change (lands c s Q)
  end.
  eapply lands_weaken; [|exact Qside].
  apply lands_side; [|apply side_cache_aircraft].
  apply lands_cache_aircraft.
  destruct Q5 as (_ & (db5 & row & Qc & _) & _).
  unfold open. rewrite Qc. discriminate.
Qed.

End Found.

(** X18.  A route the API finds is stored and applied: on a store that
    works, when the reply to the route query is a JSON object whose
    [response] list starts with an object of string fields that has a
    departure or an arrival code, the lookup returns normally, does not
    put the callsign among the misses, stores a row for the callsign with
    these two codes and the source [airlabs], and gives the flight the
    codes it did not have, whatever the airport queries answer. *)
Theorem found_route_is_stored_and_applied (env : Env) (cs : string)
    (st : St) (db : Db) (status : Z) (j item : Json) (rest : list Json)
    (dep arr : string) :
  (forall n, db_fault env n = false) ->
  http env (length (requests (world st)))
    (RouteQuery (Enricher.airlabs_key (self st)) cs)
    = Response status (Some j) ->
  (status =? 401) = false -> (status =? 429) = false ->
  (400 <=? status) && (status <? 600) = false ->
  json_get j "response" (JArr []) = Ok (JArr (item :: rest)) ->
  plain_item item = true ->
  json_field item "dep_iata" = Ok dep ->
  json_field item "arr_iata" = Ok arr ->
  str_truthy dep || str_truthy arr = true ->
  Enricher._conn (self st) = Some db ->
  let r := _lookup_route_airlabs env cs st in
  r.1 = Ok tt
  /\ Enricher._route_miss_cache (self r.2)
     = Enricher._route_miss_cache (self st)
  /\ (exists db' row,
        Enricher._conn (self r.2) = Some db'
        /\ routes db' !! cs = Some row
        /\ Routes.dep_iata row = dep /\ Routes.arr_iata row = arr
        /\ Routes.source row = "airlabs")
  /\ origin_iata (flight r.2)
     = (if negb (str_truthy (origin_iata (flight st))) && str_truthy dep
        then dep else origin_iata (flight st))
  /\ destination_iata (flight r.2)
     = (if negb (str_truthy (destination_iata (flight st)))
           && str_truthy arr
        then arr else destination_iata (flight st)).
Proof.
  intros no_fault H H1 H2 H3 Hresp Hplain Hdep Harr Hsome Hc.
  exact (found_route_outcome env no_fault cs st db status j item rest dep
           arr H H1 H2 H3 Hresp Hplain Hdep Harr Hsome Hc).
Qed.

Lemma found_route_is_stored_and_applied_witness :
  origin_iata (flight (_lookup_route_airlabs answering_env "RYR4421"
                 (sample_state (bare_flight "RYR4421") sample_db "KEY"
                    200)).2) = "STN"
  /\ destination_iata
       (flight (_lookup_route_airlabs answering_env "RYR4421"
                  (sample_state (bare_flight "RYR4421") sample_db "KEY"
                     200)).2) = "DUB".
Proof.
  destruct (found_route_is_stored_and_applied answering_env "RYR4421"
              (sample_state (bare_flight "RYR4421") sample_db "KEY" 200)
              sample_db 200 stn_dub
              (JObj [("dep_iata", JStr "STN"); ("arr_iata", JStr "DUB")])
              [] "STN" "DUB"
              (fun _ => eq_refl) eq_refl eq_refl eq_refl eq_refl eq_refl
              eq_refl eq_refl eq_refl eq_refl eq_refl)
    as (_ & _ & _ & Ho & Hd).
  split; [exact Ho | exact Hd].
Defined.

(** * The factory *)

Section Factory.

Lemma dict_lookup_set k v kv : dict_lookup k (dict_set k v kv) = Some v.
Proof.
  unfold dict_set. induction kv as [|[k' v'] kv IH]; simpl.
  - now rewrite String.eqb_refl.
  - now rewrite IH.
Qed.

Lemma dict_get_set k v kv d : dict_get (dict_set k v kv) k d = v.
Proof. unfold dict_get. now rewrite dict_lookup_set. Qed.

(** The shape [create_source] needs: a mapping whose [location] and
    [source], when present, are mappings, and whose source [type], when
    present, is a string. *)
Definition well_shaped (config : Json) : bool :=
  match config with
  | JObj kv =>
      match dict_get kv "location" (JObj []),
            dict_get kv "source" (JObj []) with
      | JObj _, JObj source =>
          match dict_get source "type" (JStr "") with
          | JStr _ => true
          | _ => false
          end
      | _, _ => false
      end
  | _ => false
  end.

Lemma create_source_cases config :
  match create_source config with
  | Ok _ => well_shaped config = true
  | Raise e => well_shaped config = false /\ e = AttributeError
  end.
Proof.
  destruct config as [| | | | | |kv]; try (now split).
  unfold create_source, well_shaped. cbn [json_get obind].
  fold (dict_get kv "location" (JObj [])).
  fold (dict_get kv "source" (JObj [])).
  destruct (dict_get kv "location" (JObj [])) as [| | | | | |loc];
    try (now split).
  cbn [json_get obind].
  destruct (dict_get kv "source" (JObj [])) as [| | | | | |source];
    try (now split).
  cbn [json_get obind].
  fold (dict_get source "type" (JStr "")).
  destruct (dict_get source "type" (JStr "")) as [| | | |ty| |];
    try (now split).
  cbn [json_lower obind].
  repeat match goal with
         | |- context [let '(_, _) := (if ?c then _ else _) in _] =>
             destruct c
         | |- context [if ?c then _ else _] => destruct c
         end; reflexivity.
Qed.

End Factory.

(** X19.  [create_source] never builds the FlightRadar24 source without a
    usable token: whatever the configuration, when the factory ends with
    the call of [FR24Source] the token it passes is a true value and is
    not the placeholder of the example configuration (otherwise it falls
    back to the mock source). *)
Theorem fr24_source_has_real_token (config lat lon radius tok sb : Json) :
  create_source config = Ok (NewFR24Source lat lon radius tok sb) ->
  json_truthy tok = true /\ json_is_str tok TOKEN_PLACEHOLDER = false.
Proof.
  intros H. destruct config as [| | | | | |kv]; try discriminate.
  unfold create_source in H. cbn [json_get obind] in H.
  destruct (match dict_lookup "location" kv with
            | Some v => v
            | None => JObj []
            end) as [| | | | | |loc]; try discriminate.
  cbn [json_get obind] in H.
  destruct (match dict_lookup "source" kv with
            | Some v => v
            | None => JObj []
            end) as [| | | | | |source]; try discriminate.
  cbn [json_get obind] in H.
  destruct (match dict_lookup "type" source with
            | Some v => v
            | None => JStr ""
            end) as [| | | |ty| |]; try discriminate.
  cbn [json_lower obind] in H.
  repeat match type of H with
         | context [let '(_, _) := (if ?c then _ else _) in _] =>
             destruct c
         | context [if ?c then _ else _] => destruct c eqn:?
         end; try discriminate;
    injection H as <- <- <- <- <-;
    match goal with
    | E : negb (json_truthy ?t) || _ = false |- json_truthy ?t = true /\ _ =>
        apply orb_false_elim in E as [A B];
        apply negb_false_iff in A; split; assumption
    end.
Qed.

(** A configuration of the FlightRadar24 source with its token. *)
Definition fr24_config : Json :=
  JObj [("radius_nm", JInt 15);
        ("source", JObj [("type", JStr "FR24");
                         ("api_token", JStr "secret")])].

Lemma fr24_source_has_real_token_witness :
  json_truthy (JStr "secret") = true
  /\ json_is_str (JStr "secret") TOKEN_PLACEHOLDER = false.
Proof.
  apply (fr24_source_has_real_token fr24_config
           (JFloat 51.5074%float) (JFloat (-0.1278)%float) (JInt 15)
           (JStr "secret") (JBool false)).
  reflexivity.
Defined.

(** X20.  The sandbox flag decides the source: when [_use_sandbox] is set
    in the configuration, whatever the source type and the mock flag, the
    factory builds the FlightRadar24 source with [sandbox] true, or the
    mock source (when there is no usable token); never the receiver or
    the OpenSky source, and never FlightRadar24 outside the sandbox. *)
Theorem sandbox_flag_decides_source (kv : list (string * Json))
    (call : SourceCall) :
  json_truthy (dict_get kv "_use_sandbox" JNull) = true ->
  create_source (JObj kv) = Ok call ->
  (exists lat lon, call = NewMockSource lat lon)
  \/ (exists lat lon radius tok,
        call = NewFR24Source lat lon radius tok (JBool true)).
Proof.
  intros Hsb H.
  unfold create_source in H. cbn [json_get obind] in H.
  destruct (match dict_lookup "location" kv with
            | Some v => v
            | None => JObj []
            end) as [| | | | | |loc]; try discriminate.
  cbn [json_get obind] in H.
  destruct (match dict_lookup "source" kv with
            | Some v => v
            | None => JObj []
            end) as [| | | | | |source]; try discriminate.
  cbn [json_get obind] in H.
  destruct (match dict_lookup "type" source with
            | Some v => v
            | None => JStr ""
            end) as [| | | |ty| |]; try discriminate.
  cbn [json_lower obind] in H. rewrite Hsb in H.
  assert (forall s : string,
            (if negb (String.eqb s "fr24") then "fr24" else s) = "fr24")
    as Hfr.
  { intros s. destruct (String.eqb s "fr24") eqn:E; [|reflexivity].
    now apply String.eqb_eq in E. }
  rewrite Hfr in H. cbn [str_truthy negb String.eqb Ascii.eqb Bool.eqb] in H.
  destruct (negb _ || _) in H; injection H as <-.
  - left. now eexists _, _.
  - right. eexists _, _, _, _. now rewrite dict_get_set.
Qed.

(** The flags of [--mock --sandbox] on the configuration above. *)
Definition flagged_config : Json :=
  JObj [("_use_mock", JBool true); ("_use_sandbox", JBool true);
        ("source", JObj [("type", JStr "rtlsdr");
                         ("api_token", JStr "secret");
                         ("sandbox", JBool false)])].

Lemma sandbox_flag_decides_source_witness :
  (exists lat lon,
     NewFR24Source (JFloat 51.5074%float) (JFloat (-0.1278)%float) (JInt 10)
       (JStr "secret") (JBool true) = NewMockSource lat lon)
  \/ (exists lat lon radius tok,
        NewFR24Source (JFloat 51.5074%float) (JFloat (-0.1278)%float)
          (JInt 10) (JStr "secret") (JBool true)
        = NewFR24Source lat lon radius tok (JBool true)).
Proof.
  apply (sandbox_flag_decides_source
           [("_use_mock", JBool true); ("_use_sandbox", JBool true);
            ("source", JObj [("type", JStr "rtlsdr");
                             ("api_token", JStr "secret");
                             ("sandbox", JBool false)])]);
    reflexivity.
Defined.

(** X21.  [create_source] returns a source exactly for a configuration of
    the right shape (a mapping whose [location] and [source], when
    present, are mappings and whose source [type], when present, is a
    string); for any other configuration, such as one whose [source] key
    is left empty, it raises [AttributeError]. *)
Theorem create_source_raises_on_wrong_shape (config : Json) :
  (well_shaped config = true -> exists call, create_source config = Ok call)
  /\ (well_shaped config = false ->
      create_source config = Raise AttributeError).
Proof.
  pose proof (create_source_cases config) as H.
  destruct (create_source config) as [call|e].
  - split; [intros _; now exists call | intros E; congruence].
  - destruct H as [H ->]. split; [intros E; congruence | reflexivity].
Qed.

Lemma create_source_raises_on_wrong_shape_witness :
  (exists call, create_source fr24_config = Ok call)
  /\ create_source (JObj [("source", JNull)]) = Raise AttributeError.
Proof.
  split.
  - apply (proj1 (create_source_raises_on_wrong_shape fr24_config)).
    reflexivity.
  - apply (proj2 (create_source_raises_on_wrong_shape
                    (JObj [("source", JNull)]))).
    reflexivity.
Defined.

(** * The queries of [enrich] itself (C3) and the data at hand (C7) *)

Section OwnQueries.
Variable env : Env.

(** The hex code and the callsign as [enrich] normalises them. *)
Definition hex_of (st : St) : string :=
  py_strip (py_lower (hex_code (flight st))).

Definition callsign_of (st : St) : string :=
  py_upper (py_strip (callsign (flight st))).

(** The test before the route step: a callsign, and an origin or a
    destination missing. *)
Definition wants_route (st : St) : bool :=
  str_truthy (callsign_of st)
  && (negb (str_truthy (origin_iata (flight st)))
      || negb (str_truthy (destination_iata (flight st)))).

(** The number, among the statements of the store, of the query for the
    fresh route: the query by hex code, when it is made, comes before. *)
Definition route_stmt (st : St) : nat :=
  if str_truthy (hex_of st) then S (db_stmts (world st))
  else db_stmts (world st).

(** The queries [enrich] makes outside any [try] (the aircraft row when
    there is a hex code, the fresh route when the route step runs) do not
    fail.  Nothing is said of any other statement. *)
Definition own_queries_succeed (st : St) : bool :=
  (negb (str_truthy (hex_of st))
   || negb (db_fault env (db_stmts (world st))))
  && (negb (wants_route st) || negb (db_fault env (route_stmt st))).

Lemma enrich_from_callsign_keeps st :
  (_enrich_from_callsign st).1 = Ok tt
  /\ self (_enrich_from_callsign st).2 = self st
  /\ world (_enrich_from_callsign st).2 = world st
  /\ origin_iata (flight (_enrich_from_callsign st).2)
     = origin_iata (flight st)
  /\ destination_iata (flight (_enrich_from_callsign st).2)
     = destination_iata (flight st).
Proof.
  unfold _enrich_from_callsign, modify_flight.
  cbn [fst snd self world flight].
  repeat split; repeat case_match; reflexivity.
Qed.

Lemma fill_from_aircraft_keeps row st :
  (fill_from_aircraft row st).1 = Ok tt
  /\ self (fill_from_aircraft row st).2 = self st
  /\ world (fill_from_aircraft row st).2 = world st
  /\ origin_iata (flight (fill_from_aircraft row st).2)
     = origin_iata (flight st)
  /\ destination_iata (flight (fill_from_aircraft row st).2)
     = destination_iata (flight st).
Proof.
  unfold fill_from_aircraft, fill.
  rewrite !bind_modify_flight. cbn [modify_flight fst snd self world flight].
  repeat split;
    destruct (negb (str_truthy (registration (flight st)))
              && str_truthy (Aircraft.registration row));
    cbn [aircraft_type set_registration];
    destruct (negb (str_truthy (aircraft_type (flight st)))
              && str_truthy (Aircraft.typecode row));
    cbn [airline set_registration set_aircraft_type];
    destruct (negb (str_truthy (airline (flight st))));
    reflexivity.
Qed.

(** [enrich] on an open store whose query by hex code, if made, does not
    fail: the state in which the prefix table is consulted. *)
Lemma enrich_hex_step st db :
  Enricher._conn (self st) = Some db ->
  (str_truthy (hex_of st) = true ->
   db_fault env (db_stmts (world st)) = false) ->
  exists st1,
    enrich env st = after_hex_step env (callsign_of st) st1
    /\ Enricher._conn (self st1) = Some db
    /\ db_stmts (world st1) = route_stmt st
    /\ ticks (world st1) = ticks (world st)
    /\ origin_iata (flight st1) = origin_iata (flight st)
    /\ destination_iata (flight st1) = destination_iata (flight st).
Proof.
  intros Hc Hf. unfold enrich, route_stmt.
  rewrite bind_get_self, Hc, bind_get_flight. cbv zeta.
  change (py_strip (py_lower (hex_code (flight st)))) with (hex_of st).
  change (py_upper (py_strip (callsign (flight st))))
    with (callsign_of st).
  destruct (str_truthy (hex_of st)) eqn:Hhex.
  - rewrite bind_run. unfold select_aircraft.
    erewrite bind_db_execute; [|exact Hc|exact (Hf eq_refl)].
    cbn [fst snd].
    destruct (aircraft db !! _) as [row|].
    + set (st0 := mkSt _ _ _).
      destruct (fill_from_aircraft_keeps row st0) as (E1 & E2 & E3 & E4 & E5).
      destruct (fill_from_aircraft row st0) as [[[]|e] st1];
        [|discriminate].
      cbn [fst snd] in *. exists st1. rewrite E2, E3, E4, E5.
      repeat split.
    + eexists. split; [reflexivity|]. repeat split.
  - exists st. split; [reflexivity|]. repeat split. exact Hc.
Qed.


(** The route row, read from the flight [_apply_route] leaves. *)
Lemma apply_route_flight row st :
  flight (_apply_route row st).2
  = route_filled (Routes.dep_iata row) (Routes.dep_name row)
      (Routes.arr_iata row) (Routes.arr_name row)
      (Routes.airline_name row) (Routes.aircraft_icao row) (flight st).
Proof. reflexivity. Qed.

(** What follows the hex step when the route is in the cache. *)
Lemma after_hex_step_cached cs st1 db r :
  Enricher._conn (self st1) = Some db ->
  db_fault env (db_stmts (world st1)) = false ->
  str_truthy cs
  && (negb (str_truthy (origin_iata (flight st1)))
      || negb (str_truthy (destination_iata (flight st1)))) = true ->
  routes db !! cs = Some r ->
  PrimFloat.ltb (clock env (ticks (world st1)) - 86400)%float
    (Routes.updated_at r) = true ->
  origin_iata (flight (after_hex_step env cs st1).2)
  = (if negb (str_truthy (origin_iata (flight st1)))
        && str_truthy (Routes.dep_iata r)
     then Routes.dep_iata r else origin_iata (flight st1))
  /\ destination_iata (flight (after_hex_step env cs st1).2)
     = (if negb (str_truthy (destination_iata (flight st1)))
           && str_truthy (Routes.arr_iata r)
        then Routes.arr_iata r else destination_iata (flight st1)).
Proof.
  intros Hc Hf Hgo Hr Hfresh. unfold after_hex_step. rewrite bind_run.
  destruct (enrich_from_callsign_keeps st1) as (E1 & E2 & E3 & E4 & E5).
  destruct (_enrich_from_callsign st1) as [[[]|e] st2]; [|discriminate].
  cbn [fst snd] in *. rewrite bind_get_flight, E4, E5, Hgo.
  rewrite (enrich_route_select env cs st2 db);
    [|now rewrite E2|now rewrite E3].
  rewrite Hr, E3, Hfresh.
  rewrite apply_route_flight, route_filled_origin, route_filled_destination.
  cbn [flight]. now rewrite E4, E5.
Qed.

End OwnQueries.




(** C7.  Once the budget is spent (the counter has reached the maximum, or
    an HTTP 429 has set the maximum to zero), a call of [enrich] sends no
    request and leaves the budget spent; so does every run of calls after
    it, whatever the callsigns.  An HTTP 429 to a route query leaves the
    budget spent.  The local data is still used with the budget spent: a
    stored aircraft row for the hex code gives the flight its
    registration, type and operator, and a route cached within the last
    24 hours gives it its origin and destination. *)
Theorem no_remote_lookup_once_budget_spent (env : Env) :
  (forall st,
     budget_spent (self st) = true ->
     requests (world (enrich env st).2) = requests (world st)
     /\ budget_spent (self (enrich env st).2) = true)
  /\ (forall flights s w,
     budget_spent s = true ->
     requests (enrich_each env flights s w).2 = requests w
     /\ budget_spent (enrich_each env flights s w).1.2 = true)
  /\ (forall cs st body,
     http env (length (requests (world st)))
       (RouteQuery (Enricher.airlabs_key (self st)) cs)
       = Response 429 body ->
     budget_spent (self (_lookup_route_airlabs env cs st).2) = true)
  /\ (forall st db row,
     budget_spent (self st) = true ->
     Enricher._conn (self st) = Some db ->
     db_fault env (db_stmts (world st)) = false ->
     str_truthy (hex_of st) = true ->
     aircraft db !! hex_of st = Some row ->
     let f := flight st in
     let f' := flight (enrich env st).2 in
     (str_truthy (registration f) = false ->
      str_truthy (Aircraft.registration row) = true ->
      registration f' = Aircraft.registration row)
     /\ (str_truthy (aircraft_type f) = false ->
         str_truthy (Aircraft.typecode row) = true ->
         aircraft_type f' = Aircraft.typecode row)
     /\ (str_truthy (airline f) = false ->
         str_truthy (Aircraft.operator row) = true ->
         airline f' = Aircraft.operator row))
  /\ (forall st db r,
     budget_spent (self st) = true ->
     Enricher._conn (self st) = Some db ->
     own_queries_succeed env st = true ->
     wants_route st = true ->
     routes db !! callsign_of st = Some r ->
     PrimFloat.ltb (clock env (ticks (world st)) - 86400)%float
       (Routes.updated_at r) = true ->
     let f := flight st in
     let f' := flight (enrich env st).2 in
     origin_iata f'
     = (if negb (str_truthy (origin_iata f))
           && str_truthy (Routes.dep_iata r)
        then Routes.dep_iata r else origin_iata f)
     /\ destination_iata f'
        = (if negb (str_truthy (destination_iata f))
              && str_truthy (Routes.arr_iata r)
           then Routes.arr_iata r else destination_iata f)).
Proof.
  split; [|split; [|split; [|split]]].
  - intros st H. exact (quiet_enrich env st H).
  - intros flights s w H. now apply quiet_enrich_each.
  - intros cs st body H. exact (rate_limit_spends_budget env cs st body H).
  - intros st db row _ Hc Hf Hhex Hrow f f'. subst f f'.
    rewrite (enrich_with_row env st db row Hc Hf Hhex Hrow).
    destruct (row_then_rest env row
                (py_upper (py_strip (callsign (flight st))))
                (mkSt (flight st) (set_conn (Some db) (self st))
                   (mkWorld (requests (world st))
                      (S (db_stmts (world st))) (ticks (world st)))))
      as (H1 & H2 & H3 & _).
    repeat split; assumption.
  - intros st db r _ Hc Hown Hgo Hr Hfresh f f'. subst f f'.
    unfold own_queries_succeed in Hown. rewrite Hgo in Hown.
    apply andb_true_iff in Hown as [Hq1 Hq2]. cbn [negb orb] in Hq2.
    apply negb_true_iff in Hq2.
    destruct (enrich_hex_step env st db Hc)
      as (st1 & -> & Hc1 & Hn1 & Ht1 & Ho1 & Hd1).
    { intros Hhex. rewrite Hhex in Hq1. cbn [negb orb] in Hq1.
      now apply negb_true_iff in Hq1. }
    rewrite <- Ho1, <- Hd1.
    apply (after_hex_step_cached env (callsign_of st) st1 db r Hc1).
    + now rewrite Hn1.
    + rewrite Ho1, Hd1. exact Hgo.
    + exact Hr.
    + now rewrite Ht1.
Qed.

(** An engine with a key whose one allowed call has been made, on the
    store that holds the Ryanair 737. *)
Definition spent_engine_with_aircraft : Enricher.t :=
  Enricher.mk "KEY" (Some sample_db) ∅ ∅ 1 1.

(** With the budget spent, nothing is sent for two callsigns; the flight
    reported without registration gets the one of the store, and the
    callsign in the route cache gets its origin from it. *)
Lemma no_remote_lookup_once_budget_spent_witness :
  (requests (enrich_each answering_env
               [bare_flight "EZY6012"; bare_flight "RYR4421"]
               spent_engine new_world).2 = []
   /\ budget_spent (enrich_each answering_env
               [bare_flight "EZY6012"; bare_flight "RYR4421"]
               spent_engine new_world).1.2 = true)
  /\ registration
       (flight (enrich answering_env
                  (mkSt unnamed_flight spent_engine_with_aircraft
                     new_world)).2) = "EI-DCP"
  /\ origin_iata
       (flight (enrich answering_env
                  (mkSt (bare_flight "EZY6012") spent_engine
                     new_world)).2) = "LGW".
Proof.
  split; [|split].
  - apply (proj1 (proj2 (no_remote_lookup_once_budget_spent answering_env))
             [bare_flight "EZY6012"; bare_flight "RYR4421"]
             spent_engine new_world).
    reflexivity.
  - apply (proj1 (proj2 (proj2 (proj2
             (no_remote_lookup_once_budget_spent answering_env))))
             (mkSt unnamed_flight spent_engine_with_aircraft new_world)
             sample_db
             (Aircraft.mk "EI-DCP" "B738" "BOEING 737-8AS" "DIFFERENT" ""
                "" "" "opensky" 1600000000%float)
             eq_refl eq_refl eq_refl eq_refl eq_refl);
      reflexivity.
  - apply (proj2 (proj2 (proj2 (proj2
             (no_remote_lookup_once_budget_spent answering_env))))
             (mkSt (bare_flight "EZY6012") spent_engine new_world)
             route_db
             (Routes.mk "LGW" "EGKK" "LONDON GATWICK" "EDI" "EGPH"
                "EDINBURGH" "" "" "" "airlabs" 1699999990%float)
             eq_refl eq_refl eq_refl eq_refl eq_refl eq_refl).
Defined.
